(** * AITTA: incident triage agent and its tool client

    A shallow embedding of [aitta_mcp/mcp_client_manager.py],
    [services/agent.py] and the endpoints of [api/api.py] that run the
    agent or summarise its tickets.

    - Python values coming out of [json.loads] are the type [json].
    - Python [str] is [string]; texts are taken to be ASCII, so that
      [str.lower] and slicing act on characters one by one.
    - Exceptions are the type [exn]; a computation is a function from the
      history of external interactions (the [trace]) to a [result] and the
      extended history.
    - The collaborators (tool backends, LLM provider, database, clock) are
      an [environment]: their answer may depend on the whole history.  A
      tool call is awaited under a deadline and may get no answer; the
      provider is called synchronously, and the model has the runs in which
      that call returns or raises.
    - Library functions whose text output is not decided by this repository
      ([json.loads], [json.dumps], [repr] of containers, [datetime]
      formatting) are the fields of a [pylib] record. *)

From Stdlib Require Import String Ascii List ZArith Bool Lia DecimalString Permutation.
Import ListNotations.
Open Scope list_scope.
Open Scope string_scope.
Set Warnings "-register-all".

(* ================================================================= *)
(** ** Python values and strings *)

Module Py.

Inductive json : Type :=
| JNull
| JBool (b : bool)
| JNum (n : Z)
| JStr (s : string)
| JArr (items : list json)
| JObj (fields : list (string * json)).

Definition dict := list (string * json).

(** Characters used inside texts. *)
Definition nl : string := String "010"%char EmptyString.
Definition dq : string := String "034"%char EmptyString.
Definition sq : string := String "039"%char EmptyString.

Definition str_of_Z (z : Z) : string := NilZero.string_of_int (Z.to_int z).
Definition str_of_nat (n : nat) : string := str_of_Z (Z.of_nat n).

(** [s[:n]] *)
Fixpoint str_take (n : nat) (s : string) : string :=
  match n, s with
  | S n', String c s' => String c (str_take n' s')
  | _, _ => EmptyString
  end.

(** [s[-1]] of a list: [None] stands for [IndexError]. *)
Definition list_last {A} (l : list A) : option A :=
  match rev l with x :: _ => Some x | [] => None end.

Definition lower_ascii (c : ascii) : ascii :=
  let n := nat_of_ascii c in
  if andb (65 <=? n)%nat (n <=? 90)%nat then ascii_of_nat (n + 32) else c.

(** [s.lower()] *)
Fixpoint lower (s : string) : string :=
  match s with
  | EmptyString => EmptyString
  | String c s' => String (lower_ascii c) (lower s')
  end.

(** [needle in hay] *)
Fixpoint contains (needle hay : string) : bool :=
  if prefix needle hay then true
  else match hay with
       | EmptyString => false
       | String _ hay' => contains needle hay'
       end.

(** [any(k in s for k in keywords)] *)
Definition any_in (keywords : list string) (s : string) : bool :=
  existsb (fun k => contains k s) keywords.

(** Text after the first occurrence of [sep]: [s.split(sep)[1]] joined with
    what follows it is only needed up to the next fence, see [fenced]. *)
Fixpoint after_first (sep s : string) : option string :=
  if prefix sep s then Some (substring (String.length sep) (String.length s) s)
  else match s with
       | EmptyString => None
       | String _ s' => after_first sep s'
       end.

(** [s.split(sep)[0]] *)
Fixpoint before_first (sep s : string) : string :=
  if prefix sep s then EmptyString
  else match s with
       | EmptyString => EmptyString
       | String c s' => String c (before_first sep s')
       end.

(** [c.isspace()] in the ASCII range *)
Definition is_space (c : ascii) : bool :=
  let n := nat_of_ascii c in
  orb (andb (9 <=? n)%nat (n <=? 13)%nat) (andb (28 <=? n)%nat (n <=? 32)%nat).

Fixpoint lstrip (s : string) : string :=
  match s with
  | String c s' => if is_space c then lstrip s' else s
  | EmptyString => EmptyString
  end.

Fixpoint str_rev_onto (s acc : string) : string :=
  match s with
  | EmptyString => acc
  | String c s' => str_rev_onto s' (String c acc)
  end.

Definition str_rev (s : string) : string := str_rev_onto s EmptyString.

(** [s.strip()] *)
Definition strip (s : string) : string :=
  str_rev (lstrip (str_rev (lstrip s))).

(** [sep.join(parts)] *)
Fixpoint join (sep : string) (parts : list string) : string :=
  match parts with
  | [] => EmptyString
  | [p] => p
  | p :: rest => p ++ sep ++ join sep rest
  end.

(** [d.get(k)] on a dict; the first binding of a key is the one seen. *)
Fixpoint lookup (d : dict) (k : string) : option json :=
  match d with
  | [] => None
  | (k', v) :: d' => if String.eqb k k' then Some v else lookup d' k
  end.

(** [d.get(k, default)] *)
Definition get_or (d : dict) (k : string) (default : json) : json :=
  match lookup d k with Some v => v | None => default end.

(** [bool(v)] *)
Definition truthy (v : json) : bool :=
  match v with
  | JNull => false
  | JBool b => b
  | JNum n => negb (n =? 0)%Z
  | JStr s => negb (String.eqb s EmptyString)
  | JArr l => match l with [] => false | _ => true end
  | JObj d => match d with [] => false | _ => true end
  end.

(** [type(v).__name__] *)
Definition type_name (v : json) : string :=
  match v with
  | JNull => "NoneType"
  | JBool _ => "bool"
  | JNum _ => "int"
  | JStr _ => "str"
  | JArr _ => "list"
  | JObj _ => "dict"
  end.

(** Exceptions, all of them subclasses of [Exception]. *)
Inductive exn : Type :=
| TimeoutError
| RuntimeError (msg : string)
| KeyError (key : string)
| IndexError (msg : string)
| AttributeError (msg : string)
| TypeError (msg : string)
| ValidationError (msg : string)
| HTTPException (status_code : Z) (detail : string)
| OtherError (class_name msg : string).

(** [str(e)] *)
Definition exn_str (e : exn) : string :=
  match e with
  | TimeoutError => EmptyString
  | RuntimeError m => m
  | KeyError k => sq ++ k ++ sq
  | IndexError m => m
  | AttributeError m => m
  | TypeError m => m
  | ValidationError m => m
  | HTTPException c d => str_of_Z c ++ ": " ++ d
  | OtherError _ m => m
  end.

(** [type(e).__name__] *)
Definition exn_class (e : exn) : string :=
  match e with
  | TimeoutError => "TimeoutError"
  | RuntimeError _ => "RuntimeError"
  | KeyError _ => "KeyError"
  | IndexError _ => "IndexError"
  | AttributeError _ => "AttributeError"
  | TypeError _ => "TypeError"
  | ValidationError _ => "ValidationError"
  | HTTPException _ _ => "HTTPException"
  | OtherError c _ => c
  end.

Inductive result (A : Type) : Type :=
| Ok (a : A)
| Raise (e : exn).
Arguments Ok {A} a.
Arguments Raise {A} e.

Definition no_attribute (v : json) (attr : string) : exn :=
  AttributeError (sq ++ type_name v ++ sq ++ " object has no attribute " ++ sq ++ attr ++ sq).

Definition not_iterable (v : json) : exn :=
  TypeError (sq ++ type_name v ++ sq ++ " object is not iterable").

(** [v.get], for the receiver [v] of a [.get(...)] call. *)
Definition as_dict (v : json) : result dict :=
  match v with
  | JObj d => Ok d
  | _ => Raise (no_attribute v "get")
  end.

Definition chars (s : string) : list json :=
  map (fun c => JStr (String c EmptyString)) (list_ascii_of_string s).

(** The items a [for x in v] loop visits. *)
Definition iterate (v : json) : result (list json) :=
  match v with
  | JArr l => Ok l
  | JObj d => Ok (map (fun kv => JStr (fst kv)) d)
  | JStr s => Ok (chars s)
  | _ => Raise (not_iterable v)
  end.

(** [len(v)] *)
Definition len (v : json) : result nat :=
  match v with
  | JArr l => Ok (List.length l)
  | JObj d => Ok (List.length d)
  | JStr s => Ok (String.length s)
  | _ => Raise (TypeError ("object of type " ++ sq ++ type_name v ++ sq ++ " has no len()"))
  end.

(** [v[:n]] *)
Definition slice_to (n : nat) (v : json) : result json :=
  match v with
  | JArr l => Ok (JArr (firstn n l))
  | JStr s => Ok (JStr (str_take n s))
  | JObj _ => Raise (TypeError "unhashable type: 'slice'")
  | _ => Raise (TypeError (sq ++ type_name v ++ sq ++ " object is not subscriptable"))
  end.

(** Whether [v] can be hashed, as a dict key or inside a tuple key. *)
Definition hashable (v : json) : bool :=
  match v with
  | JArr _ | JObj _ => false
  | _ => true
  end.

Definition unhashable (v : json) : exn :=
  TypeError ("unhashable type: " ++ sq ++ type_name v ++ sq).

(** [a == b] for hashable values; [True == 1] and [False == 0]. *)
Definition key_eqb (a b : json) : bool :=
  match a, b with
  | JNull, JNull => true
  | JStr s, JStr t => String.eqb s t
  | JNum n, JNum m => (n =? m)%Z
  | JBool x, JBool y => Bool.eqb x y
  | JBool x, JNum m | JNum m, JBool x => ((if x then 1 else 0) =? m)%Z
  | _, _ => false
  end.

(** Library functions whose output text this repository does not decide. *)
Record pylib : Type := {
  (** [json.loads]: the value, or the text of the [JSONDecodeError] *)
  json_loads : string -> json + string;
  (** [json.dumps(v, indent=2)] *)
  json_dumps : json -> string;
  (** [str(v)] of a list or a dict *)
  repr_container : json -> string;
  (** [str(t)] of a [datetime] *)
  datetime_str : Z -> string;
  (** [t.isoformat()] *)
  isoformat : Z -> string;
  (** [t.strftime('%H:%M')] *)
  strftime_hm : Z -> string
}.

(** [str(v)], as an f-string renders a value. *)
Definition to_str (py : pylib) (v : json) : string :=
  match v with
  | JNull => "None"
  | JBool true => "True"
  | JBool false => "False"
  | JNum n => str_of_Z n
  | JStr s => s
  | _ => repr_container py v
  end.

End Py.
Import Py.

(* ================================================================= *)
(** ** External interactions *)

Module World.

(** A row handed to the session for the [tickets] table. *)
Record TicketRecord : Type := {
  tr_ticket_id : string;
  tr_alert_id : string;
  tr_host : string;
  tr_severity : string;
  tr_priority : json;
  tr_summary : json;
  tr_description : json;
  tr_assigned_to : string;
  tr_processing_time : Z;
  tr_status : string
}.

(** What the agent does to the outside, in order. *)
Inductive event : Type :=
| EvToolCall (server tool : string) (arguments : dict)
| EvActivity (timestamp : Z) (alert_id action detail status : string)
| EvLLM (prompt : string)
| EvSaveTicket (r : TicketRecord).

Definition trace := list event.

(** [resp.message.root]: a JSON-RPC response carries [result], an error
    response has no such attribute. *)
Inductive rpc_root : Type :=
| RpcResult (result : dict)
| RpcError (code : Z) (message : string).

(** One session with a tool backend, seen from the awaiting caller. *)
Inductive session_outcome : Type :=
| Received (resp : rpc_root)
| SessionRaised (e : exn)
| NoReply.

(** One request to the LLM provider.  [_llm_analysis] calls the client of
    the provider synchronously: the call returns the text of the answer or
    raises.  The coroutine has no [await], so the deadline that
    [_analyze_incident] puts around it cannot interrupt the call; a call
    that never returns leaves the run without an outcome, and such runs are
    not runs of this model. *)
Inductive llm_outcome : Type :=
| LLMText (text : string)
| LLMRaised (e : exn).

Record environment : Type := {
  tool_reply : trace -> string -> string -> dict -> session_outcome;
  llm_reply : trace -> string -> llm_outcome;
  commit_ticket : trace -> TicketRecord -> option exn;
  (** [datetime.now()], in microseconds *)
  now : trace -> Z
}.

(** Computations: the history goes in, a result and the longer history
    come out. *)
Definition M (A : Type) : Type := trace -> result A * trace.

Definition ret {A} (a : A) : M A := fun t => (Ok a, t).
Definition raise {A} (e : exn) : M A := fun t => (Raise e, t).

Definition bind {A B} (m : M A) (k : A -> M B) : M B :=
  fun t => match m t with
           | (Ok a, t') => k a t'
           | (Raise e, t') => (Raise e, t')
           end.

(** [try: m except Exception as e: h e] *)
Definition try_except {A} (m : M A) (h : exn -> M A) : M A :=
  fun t => match m t with
           | (Ok a, t') => (Ok a, t')
           | (Raise e, t') => h e t'
           end.

Definition lift {A} (r : result A) : M A := fun t => (r, t).
Definition emit (e : event) : M unit := fun t => (Ok tt, (t ++ [e])%list).
Definition history : M trace := fun t => (Ok t, t).

End World.
Import World.

Declare Scope py_scope.
Delimit Scope py_scope with py.
Notation "x <- m ;; k" := (bind m (fun x => k))
  (at level 100, m at next level, right associativity) : py_scope.
Notation "m ;;; k" := (bind m (fun _ => k))
  (at level 100, right associativity) : py_scope.
Open Scope py_scope.

(* ================================================================= *)
(** ** aitta_mcp/mcp_client_manager.py *)

Module Facade.

Definition is_text_block (c : json) : result bool :=
  match c with
  | JObj d => Ok (match lookup d "type" with
                  | Some (JStr t) => String.eqb t "text"
                  | _ => false
                  end)
  | _ => Raise (no_attribute c "get")
  end.

(** [[c for c in content if c.get("type") == "text"]] *)
Fixpoint text_blocks (content : list json) : result (list dict) :=
  match content with
  | [] => Ok []
  | c :: rest =>
      match is_text_block c with
      | Raise e => Raise e
      | Ok keep =>
          match text_blocks rest with
          | Raise e => Raise e
          | Ok bs => Ok (match c with
                         | JObj d => if keep then d :: bs else bs
                         | _ => bs
                         end)
          end
      end
  end.

(** [getattr(root, "result", {})] *)
Definition rpc_result (root : rpc_root) : dict :=
  match root with
  | RpcResult r => r
  | RpcError _ _ => []
  end.

(** The value is [JNull] where the Python function returns [None]. *)
Definition extract_text_content (root : rpc_root) : result json :=
  let result := rpc_result root in
  let content := get_or result "content" (JArr []) in
  match iterate content with
  | Raise e => Raise e
  | Ok items =>
      match text_blocks items with
      | Raise e => Raise e
      | Ok [] => Ok JNull
      | Ok (b :: _) => Ok (get_or b "text" (JStr EmptyString))
      end
  end.

Definition servers : list string := ["splunk"; "jira"; "cmdb"].

Section WithEnvironment.
Variable env : environment.

(** [MCPClientManager.call_tool], awaited under a deadline as every caller
    in the agent does ([asyncio.wait_for]): a session that never answers
    ends in [TimeoutError]. *)
Definition call_tool (server_name tool_name : string) (arguments : dict) : M json :=
  if existsb (String.eqb server_name) servers then
    h <- history ;;
    emit (EvToolCall server_name tool_name arguments) ;;;
    match tool_reply env h server_name tool_name arguments with
    | Received resp => lift (extract_text_content resp)
    | SessionRaised e => raise e
    | NoReply => raise TimeoutError
    end
  else raise (KeyError server_name).

End WithEnvironment.

End Facade.

(* ================================================================= *)
(** ** services/agent.py *)

Module Agent.
Import Facade.

Record Config : Type := {
  GEMINI_API_KEY : string;
  ANTHROPIC_API_KEY : string;
  LLM_PROVIDER : string;
  JIRA_PROJECT_KEY : string;
  AGENT_LOG_TIMERANGE : Z
}.

(** [models/schemas.py] *)
Record AlertData : Type := {
  alert_id : string;
  severity : string;
  message : string;
  host : string;
  timestamp : Z;
  metadata : option dict
}.

Record TicketResponse : Type := {
  ticket_id : string;
  priority : string;
  summary : string;
  description : string;
  assigned_to : string;
  url : option string;
  created_at : Z;
  processing_time : Z
}.

(** Validation of a [str] field of a pydantic model.  The repository uses
    the pydantic 2 interface ([model_dump] in the tool client), where, of
    the values [json.loads] yields, a [str] field accepts a string only. *)
Definition field_str (name : string) (v : json) : result string :=
  match v with
  | JStr s => Ok s
  | _ => Raise (ValidationError (name ++ ": Input should be a valid string"))
  end.

(** Validation of an [Optional[str]] field. *)
Definition field_opt_str (name : string) (v : json) : result (option string) :=
  match v with
  | JNull => Ok None
  | JStr s => Ok (Some s)
  | _ => Raise (ValidationError (name ++ ": Input should be a valid string"))
  end.

Definition rbind {A B} (r : result A) (k : A -> result B) : result B :=
  match r with
  | Ok a => k a
  | Raise e => Raise e
  end.

Notation "x <~ r ;; k" := (rbind r (fun x => k))
  (at level 100, r at next level, right associativity) : py_scope.

(** [d[k]] *)
Definition getitem (d : dict) (k : string) : result json :=
  match lookup d k with
  | Some v => Ok v
  | None => Raise (KeyError k)
  end.

(** [AITTAgent]: the configuration and what [_setup_llm] decided. *)
Record AITTAgent : Type := {
  config : Config;
  llm_available : bool
}.

Definition _setup_llm (c : Config) : bool :=
  if andb (String.eqb (LLM_PROVIDER c) "gemini")
          (negb (String.eqb (GEMINI_API_KEY c) EmptyString)) then true
  else if andb (String.eqb (LLM_PROVIDER c) "claude")
               (negb (String.eqb (ANTHROPIC_API_KEY c) EmptyString)) then true
  else false.

Definition new_agent (c : Config) : AITTAgent :=
  {| config := c; llm_available := _setup_llm c |}.

Definition _map_priority_to_urgency (priority : json) : result json :=
  if hashable priority then
    Ok (match priority with
        | JStr "Critical" => JStr "1"
        | JStr "High" => JStr "2"
        | JStr "Medium" => JStr "3"
        | JStr "Low" => JStr "3"
        | _ => JStr "3"
        end)
  else Raise (unhashable priority).

Definition _map_priority_to_impact (priority : json) : result json :=
  if hashable priority then
    Ok (match priority with
        | JStr "Critical" => JStr "1"
        | JStr "High" => JStr "2"
        | JStr "Medium" => JStr "3"
        | JStr "Low" => JStr "3"
        | _ => JStr "3"
        end)
  else Raise (unhashable priority).

(** The table of [_rule_based_analysis]. *)
Definition priority_map : list ((string * string) * string) :=
  [ (("Critical", "High"), "Critical");
    (("Critical", "Medium"), "High");
    (("High", "High"), "High");
    (("High", "Medium"), "Medium");
    (("Medium", "High"), "Medium") ].

Definition pair_eqb (a b : string * string) : bool :=
  andb (String.eqb (fst a) (fst b)) (String.eqb (snd a) (snd b)).

(** [priority_map.get(key)] *)
Definition priority_map_get (key : string * string) : option string :=
  option_map snd (find (fun e => pair_eqb key (fst e)) priority_map).

(** [priority_map.get((severity, criticality), 'Medium')]: the key is hashed
    first; a criticality that is no string equals no key of the table. *)
Definition lookup_priority (severity : string) (criticality : json) : result string :=
  if hashable criticality then
    Ok (match criticality with
        | JStr c => match priority_map_get (severity, c) with
                    | Some p => p
                    | None => "Medium"
                    end
        | _ => "Medium"
        end)
  else Raise (unhashable criticality).

(** [v.lower()] *)
Definition lower_of (v : json) : result string :=
  match v with
  | JStr s => Ok (lower s)
  | _ => Raise (no_attribute v "lower")
  end.

(** [sum(1 for log in logs if 'error' in log.get('message', '').lower())] *)
Fixpoint count_errors (logs : list json) : result nat :=
  match logs with
  | [] => Ok 0%nat
  | log :: rest =>
      d <~ as_dict log ;;
      m <~ lower_of (get_or d "message" (JStr EmptyString)) ;;
      n <~ count_errors rest ;;
      Ok (if contains "error" m then S n else n)
  end.

(** [', '.join(v)] *)
Fixpoint str_items (i : nat) (items : list json) : result (list string) :=
  match items with
  | [] => Ok []
  | JStr s :: rest => ss <~ str_items (S i) rest ;; Ok (s :: ss)
  | v :: _ => Raise (TypeError ("sequence item " ++ str_of_nat i ++ ": expected str instance, "
                                ++ type_name v ++ " found"))
  end.

Definition join_value (sep : string) (v : json) : result string :=
  items <~ iterate v ;;
  ss <~ str_items 0 items ;;
  Ok (join sep ss).

Section WithWorld.
Variable py : pylib.
Variable env : environment.
Variable self : AITTAgent.

(** The [except] clause of [log_activity] swallows every failure of the
    session, so the call never raises; the event records the call. *)
Definition log_activity (alert_id action detail status : string) : M unit :=
  h <- history ;;
  emit (EvActivity (now env h) alert_id action detail status).

Definition _parse_tool_response (response : json) : result json :=
  if negb (truthy response) then Raise (RuntimeError "Tool returned no content")
  else match response with
       | JStr s =>
           match json_loads py s with
           | inl v => Ok v
           | inr je => Raise (RuntimeError ("Invalid JSON from tool: " ++ je))
           end
       | JObj _ => Ok response
       | _ => Raise (RuntimeError ("Unexpected response type: <class " ++ sq
                                   ++ type_name response ++ sq ++ ">"))
       end.

Definition _retrieve_logs (alert : AlertData) : M json :=
  try_except
    (logs_result <- call_tool env "splunk" "query_logs"
        [ ("host", JStr (host alert));
          ("time_range", JStr (str_of_Z (AGENT_LOG_TIMERANGE (config self)) ++ "m"));
          ("search_query", JStr "(error OR exception OR failed)") ] ;;
     logs_result_obj <- lift (_parse_tool_response logs_result) ;;
     d <- lift (as_dict logs_result_obj) ;;
     let logs := get_or d "logs" (JArr []) in
     n <- lift (len logs) ;;
     log_activity (alert_id alert) "Logs Retrieved"
       ("Found " ++ to_str py (get_or d "results_count" (JNum (Z.of_nat n)))
        ++ " relevant log entries from Splunk") "complete" ;;;
     ret logs)
    (fun e =>
       log_activity (alert_id alert) "Logs Retrieval" ("Failed: " ++ exn_str e) "error" ;;;
       ret (JArr [])).

(** The [except] clause of [_enrich_with_cmdb]: the error is recorded and
    the function goes on to [return cmdb_data], with [cmdb_data] as it was
    last assigned. *)
Definition enrich_failed (alert : AlertData) (cmdb_data : json) (e : exn) : M json :=
  log_activity (alert_id alert) "CMDB Query" ("Failed: " ++ exn_str e) "error" ;;;
  ret cmdb_data.

(** The one [try] of the source is written as two nested ones with the same
    handler: [cmdb_data] is the empty dict until [_parse_tool_response] has
    returned, and the parsed response from then on.  [owner_team] and
    [service] are locals that only the Context Enriched entry shows. *)
Definition _enrich_with_cmdb (alert : AlertData) (logs : json) : M json :=
  try_except
    (cmdb_result <- call_tool env "cmdb" "get_asset_info" [ ("hostname", JStr (host alert)) ] ;;
     cmdb_data <- lift (_parse_tool_response cmdb_result) ;;
     try_except
       (d <- lift (as_dict cmdb_data) ;;
        let owner_team := get_or d "owner_team" (JStr "DevOps") in
        let service := get_or d "service" (JStr "DevOps Service") in
        log_activity (alert_id alert) "Context Enriched"
          ("Service: " ++ to_str py service ++ ", Owner: " ++ to_str py owner_team)
          "complete" ;;;
        ret cmdb_data)
       (enrich_failed alert cmdb_data))
    (enrich_failed alert (JObj [])).

(** One line of the [Recent Log Entries] block. *)
Definition log_line (log : json) : result string :=
  d <~ as_dict log ;;
  m <~ slice_to 100 (get_or d "message" (JStr "No message")) ;;
  Ok ("- [" ++ to_str py (get_or d "timestamp" (JStr "N/A")) ++ "] " ++ to_str py m).

Fixpoint log_lines (logs : list json) : result (list string) :=
  match logs with
  | [] => Ok []
  | log :: rest =>
      l <~ log_line log ;;
      ls <~ log_lines rest ;;
      Ok (l :: ls)
  end.

Definition _rule_based_analysis (alert : AlertData) (logs cmdb_data : json) : result json :=
  cmdb <~ as_dict cmdb_data ;;
  let criticality := get_or cmdb "criticality" (JStr "Medium") in
  priority <~ lookup_priority (severity alert) criticality ;;
  let summary := severity alert ++ " Alert: " ++ str_take 50 (message alert)
                 ++ " on " ++ host alert in
  entries <~ iterate logs ;;
  error_count <~ count_errors entries ;;
  first5 <~ slice_to 5 logs ;;
  shown <~ iterate first5 ;;
  recent <~ log_lines shown ;;
  dependencies <~ join_value ", " (get_or cmdb "dependencies" (JArr [])) ;;
  let description :=
    join nl
      [ EmptyString;
        "        **Alert Details:**";
        "        - Host: " ++ host alert;
        "        - Service: " ++ to_str py (get_or cmdb "service" (JStr "Unknown"));
        "        - Severity: " ++ severity alert;
        "        - Timestamp: " ++ datetime_str py (timestamp alert);
        EmptyString;
        "        **Message:**";
        "        " ++ message alert;
        EmptyString;
        "        **Analysis:**";
        "        - " ++ str_of_nat error_count ++ " error entries found in logs";
        "        - Service criticality: " ++ to_str py criticality;
        "        - Assigned priority: " ++ priority;
        EmptyString;
        "        **Recent Log Entries:**";
        "        " ++ join nl recent;
        EmptyString;
        "        **Recommended Actions:**";
        "        1. Investigate the root cause based on log patterns";
        "        2. Check service dependencies: " ++ dependencies;
        "        3. Monitor for recurring patterns";
        "        " ] in
  Ok (JObj [ ("priority", JStr priority);
             ("root_cause", JStr ("Alert triggered: " ++ message alert));
             ("summary", JStr summary);
             ("description", JStr description);
             ("issue_type", JStr "Task") ]).

(** The prompt of [_llm_analysis]; it is built before the [try]. *)
Definition analysis_prompt (alert : AlertData) (logs cmdb_data : json) : result string :=
  n <~ len logs ;;
  first10 <~ slice_to 10 logs ;;
  cmdb <~ as_dict cmdb_data ;;
  let field k v := "                " ++ dq ++ k ++ dq ++ ": " ++ dq ++ v ++ dq in
  Ok (join nl
      [ "You are an expert SRE analyzing an incident alert. Provide your analysis in JSON format.";
        EmptyString;
        "            Alert Details:";
        "            - Severity: " ++ severity alert;
        "            - Host: " ++ host alert;
        "            - Message: " ++ message alert;
        "            - Timestamp: " ++ datetime_str py (timestamp alert);
        EmptyString;
        "            Recent Logs (last " ++ str_of_nat n ++ " entries):";
        "            " ++ json_dumps py first10;
        EmptyString;
        "            Asset Information:";
        "            - Owner Team: " ++ to_str py (get_or cmdb "owner_team" (JStr "Unknown"));
        "            - Service: " ++ to_str py (get_or cmdb "service" (JStr "Unknown"));
        "            - Criticality: " ++ to_str py (get_or cmdb "criticality" (JStr "Unknown"));
        "            - Dependencies: " ++ to_str py (get_or cmdb "dependencies" (JArr []));
        EmptyString;
        "            Analyze and provide:";
        "            1. Priority (Critical/High/Medium/Low)";
        "            2. Root cause summary";
        "            3. Ticket summary (concise title)";
        "            4. Detailed description for the ticket";
        "            5. The JSON must include a valid Jira issue_type from [Bug, Task, Story, Epic], defaulting to "
          ++ dq ++ "Task" ++ dq ++ " if unsure.";
        EmptyString;
        "            Response format (JSON only):";
        "            {";
        field "priority" "High" ++ ",";
        field "root_cause" "Brief technical summary" ++ ",";
        field "summary" "Concise ticket title" ++ ",";
        field "description"
          "Detailed description with timestamps, affected services, and recommended actions" ++ ",";
        field "issue_type" "Task";
        "            }" ]).

(** The [Extract JSON] step: the text between the first fence and the next
    one, stripped. *)
Definition fenced (fence text : string) : string :=
  match after_first fence text with
  | Some rest => strip (before_first "```" rest)
  | None => text
  end.

Definition extract_json (analysis_text : string) : string :=
  if contains "```json" analysis_text then fenced "```json" analysis_text
  else if contains "```" analysis_text then fenced "```" analysis_text
  else analysis_text.

(** What the [try] block of [_llm_analysis] computes from the provider's
    answer. *)
Definition parse_llm_reply (reply : llm_outcome) : result json :=
  match reply with
  | LLMText text =>
      let analysis_text :=
        if String.eqb (LLM_PROVIDER (config self)) "gemini" then strip text else text in
      match json_loads py (extract_json analysis_text) with
      | inl analysis => Ok analysis
      | inr je => Raise (OtherError "JSONDecodeError" je)
      end
  | LLMRaised e => Raise e
  end.

(** The prompt is built before the [try]; the call of the provider and the
    parsing of its answer are inside it.  Nothing here is awaited: see
    [llm_outcome] for what that means for the deadline of the caller. *)
Definition _llm_analysis (alert : AlertData) (logs cmdb_data : json) : M json :=
  analysis_prompt <- lift (analysis_prompt alert logs cmdb_data) ;;
  h <- history ;;
  emit (EvLLM analysis_prompt) ;;;
  try_except
    (lift (parse_llm_reply (llm_reply env h analysis_prompt)))
    (fun e => lift (_rule_based_analysis alert logs cmdb_data)).

Definition fallback_analysis (alert : AlertData) : dict :=
  [ ("priority", JStr (severity alert));
    ("summary", JStr (severity alert ++ " alert on " ++ host alert));
    ("description", JStr (message alert)) ].

(** The strategy [_analyze_incident] runs: the choice is fixed by the
    configuration. *)
Definition selected_analysis (alert : AlertData) (logs cmdb_data : json) : M json :=
  if llm_available self
  then _llm_analysis alert logs cmdb_data
  else lift (_rule_based_analysis alert logs cmdb_data).

Definition _analyze_incident (alert : AlertData) (logs cmdb_data : json) : M dict :=
  try_except
    (analysis <- selected_analysis alert logs cmdb_data ;;
     match analysis with
     | JObj d =>
         log_activity (alert_id alert) "Analysis Complete"
           ("Priority: " ++ to_str py (get_or d "priority" (JStr "Unknown"))
            ++ ", Root cause identified") "complete" ;;;
         ret d
     | _ => raise (RuntimeError "Analysis did not return a dict")
     end)
    (fun e => ret (fallback_analysis alert)).

Definition placeholder_ticket_id : string := JIRA_PROJECT_KEY (config self) ++ "-XXXX".

Definition _create_jira_ticket (alert : AlertData) (analysis : dict) : M TicketResponse :=
  try_except
    (summary_ <- lift (getitem analysis "summary") ;;
     description_ <- lift (getitem analysis "description") ;;
     priority_ <- lift (getitem analysis "priority") ;;
     let assignee := get_or analysis "assigned_to" (JStr "DevOps") in
     ticket_result <- call_tool env "jira" "create_ticket"
        [ ("project", JStr (JIRA_PROJECT_KEY (config self)));
          ("summary", summary_);
          ("description", description_);
          ("priority", priority_);
          ("assignee", assignee);
          ("issue_type", get_or analysis "issue_type" (JStr "Task")) ] ;;
     ticket_data <- lift (_parse_tool_response ticket_result) ;;
     d <- lift (as_dict ticket_data) ;;
     let ticket_id_ := get_or d "ticket_id" (JStr placeholder_ticket_id) in
     let ticket_url := get_or d "url" (JStr EmptyString) in
     h <- history ;;
     let processing_time_ := (now env h - timestamp alert)%Z in
     log_activity (alert_id alert) "Ticket Created"
       (to_str py ticket_id_ ++ " assigned to " ++ to_str py assignee) "complete" ;;;
     h' <- history ;;
     lift (tid <~ field_str "ticket_id" ticket_id_ ;;
           pr <~ field_str "priority" priority_ ;;
           su <~ field_str "summary" summary_ ;;
           de <~ field_str "description" description_ ;;
           asg <~ field_str "assigned_to" assignee ;;
           u <~ field_opt_str "url" ticket_url ;;
           Ok {| ticket_id := tid; priority := pr; summary := su; description := de;
                 assigned_to := asg; url := u; created_at := now env h';
                 processing_time := processing_time_ |}))
    (fun e =>
       log_activity (alert_id alert) "Ticket Creation" ("Failed: " ++ exn_str e) "error" ;;;
       raise (HTTPException 500 ("Failed to create ticket: " ++ exn_str e))).

Definition _create_servicenow_incident (alert : AlertData) (analysis : dict) : M unit :=
  try_except
    (summary_ <- lift (getitem analysis "summary") ;;
     description_ <- lift (getitem analysis "description") ;;
     p1 <- lift (getitem analysis "priority") ;;
     urgency <- lift (_map_priority_to_urgency p1) ;;
     p2 <- lift (getitem analysis "priority") ;;
     impact <- lift (_map_priority_to_impact p2) ;;
     incident_result <- call_tool env "cmdb" "create_incident"
        [ ("hostname", JStr (host alert));
          ("short_description", summary_);
          ("description", description_);
          ("urgency", urgency);
          ("impact", impact) ] ;;
     incident_data <- lift (_parse_tool_response incident_result) ;;
     d <- lift (as_dict incident_data) ;;
     log_activity (alert_id alert) "ServiceNow Incident Created"
       ("Incident " ++ to_str py (get_or d "incident_number" (JStr "SN-XXXX"))
        ++ " created in ServiceNow") "complete")
    (fun e =>
       log_activity (alert_id alert) "ServiceNow Incident Creation"
         ("Failed: " ++ exn_str e) "error").

(** [self.db.add(ticket_record); self.db.commit()]: a failure of the
    session is not caught here. *)
Definition _save_ticket_record (alert : AlertData) (analysis : dict)
    (ticket : TicketResponse) : M unit :=
  pr <- lift (getitem analysis "priority") ;;
  su <- lift (getitem analysis "summary") ;;
  de <- lift (getitem analysis "description") ;;
  let ticket_record :=
    {| tr_ticket_id := ticket_id ticket;
       tr_alert_id := alert_id alert;
       tr_host := host alert;
       tr_severity := severity alert;
       tr_priority := pr;
       tr_summary := su;
       tr_description := de;
       tr_assigned_to := assigned_to ticket;
       tr_processing_time := processing_time ticket;
       tr_status := "created" |} in
  h <- history ;;
  emit (EvSaveTicket ticket_record) ;;;
  match commit_ticket env h ticket_record with
  | Some e => raise e
  | None => ret tt
  end.

Definition process_alert (alert : AlertData) : M TicketResponse :=
  log_activity (alert_id alert) "Alert Received"
    (severity alert ++ " alert on " ++ host alert ++ ": " ++ message alert) "processing" ;;;
  logs <- _retrieve_logs alert ;;
  cmdb_data <- _enrich_with_cmdb alert logs ;;
  analysis <- _analyze_incident alert logs cmdb_data ;;
  ticket <- _create_jira_ticket alert analysis ;;
  _create_servicenow_incident alert analysis ;;;
  _save_ticket_record alert analysis ticket ;;;
  ret ticket.

(** *** Batch scan *)

(** One value of the [affected_hosts] dict. *)
Record host_data : Type := {
  hd_host : json;
  hd_error_count : nat;
  hd_messages : list json;
  hd_severity : string;
  hd_latest_timestamp : json
}.

(** [affected_hosts]: a dict keeps its keys in insertion order. *)
Definition host_table := list (json * host_data).

Fixpoint table_mem (host_ : json) (t : host_table) : bool :=
  match t with
  | [] => false
  | (k, _) :: t' => orb (key_eqb host_ k) (table_mem host_ t')
  end.

(** [affected_hosts[host] = f(affected_hosts[host])] *)
Fixpoint table_update (host_ : json) (f : host_data -> host_data) (t : host_table)
  : host_table :=
  match t with
  | [] => []
  | (k, v) :: t' =>
      if key_eqb host_ k then (k, f v) :: t' else (k, v) :: table_update host_ f t'
  end.

Definition critical_keywords : list string := ["critical"; "fatal"; "panic"; "outage"].
Definition high_keywords : list string := ["high"; "severe"; "major"].

(** The [if]/[elif] at the end of the loop body: the severity the record
    has after an event whose lower-cased text is [lowered]. *)
Definition escalate (current lowered : string) : string :=
  if any_in critical_keywords lowered then "Critical"
  else if any_in high_keywords lowered then "High"
  else current.

Definition count_and_append (m : json) (r : host_data) : host_data :=
  {| hd_host := hd_host r;
     hd_error_count := S (hd_error_count r);
     hd_messages := (hd_messages r ++ [m])%list;
     hd_severity := hd_severity r;
     hd_latest_timestamp := hd_latest_timestamp r |}.

Definition set_severity (lowered : string) (r : host_data) : host_data :=
  {| hd_host := hd_host r;
     hd_error_count := hd_error_count r;
     hd_messages := hd_messages r;
     hd_severity := escalate (hd_severity r) lowered;
     hd_latest_timestamp := hd_latest_timestamp r |}.

(** The body of [for event in error_events]; [now_iso] is
    [datetime.now().isoformat()]. *)
Definition scan_event (now_iso : string) (affected_hosts : host_table) (event : json)
  : result host_table :=
  d <~ as_dict event ;;
  let host_ := get_or d "host" (JStr "unknown") in
  let raw_message := get_or d "_raw" (JStr EmptyString) in
  if hashable host_ then
    let t1 :=
      if table_mem host_ affected_hosts then affected_hosts
      else (affected_hosts ++
            [ (host_, {| hd_host := host_;
                         hd_error_count := 0;
                         hd_messages := [];
                         hd_severity := "Medium";
                         hd_latest_timestamp := get_or d "_time" (JStr now_iso) |}) ])%list in
    m <~ slice_to 200 raw_message ;;
    let t2 := table_update host_ (count_and_append m) t1 in
    lowered <~ lower_of raw_message ;;
    Ok (table_update host_ (set_severity lowered) t2)
  else Raise (unhashable host_).

Fixpoint scan_events (now_iso : string) (affected_hosts : host_table) (events : list json)
  : result host_table :=
  match events with
  | [] => Ok affected_hosts
  | event :: rest =>
      t <~ scan_event now_iso affected_hosts event ;;
      scan_events now_iso t rest
  end.

Record ActivityLogItem : Type := {
  ali_time : string;
  ali_action : string;
  ali_detail : string;
  ali_status : string
}.

(** The rows the query for one alert returns: its activity, latest first,
    five at most; the store is taken to hold what was appended. *)
Definition recent_activity (aid : string) (h : trace) : list ActivityLogItem :=
  firstn 5
    (rev (flat_map (fun e =>
                      match e with
                      | EvActivity ts a action detail status =>
                          if String.eqb a aid
                          then [ {| ali_time := strftime_hm py ts; ali_action := action;
                                    ali_detail := detail; ali_status := status |} ]
                          else []
                      | _ => []
                      end) h)).

(** One element of the [alerts] list of the report. *)
Inductive scan_entry : Type :=
| Processed (aid : string) (host_ : json) (sev : string) (error_count : nat)
            (ticket : TicketResponse) (activity_log : list ActivityLogItem)
| Failed (aid : string) (host_ : json) (sev : string) (error_count : nat) (error : string).

Definition is_processed (a : scan_entry) : bool :=
  match a with Processed _ _ _ _ _ _ => true | Failed _ _ _ _ _ => false end.

Inductive ScanReport : Type :=
| ScanCompleted (scan_time_range : string) (total_error_events affected_hosts
                 processed_alerts failed_alerts : nat) (alerts : list scan_entry)
| ScanFailed (error scan_time_range : string).

(** The [alert_data] dict built for one host. *)
Record alert_fields : Type := {
  af_alert_id : string;
  af_severity : string;
  af_message : string;
  af_host : json;
  af_timestamp : Z;
  af_metadata : dict
}.

Definition synthesize_alert (time_range : string) (now_ : Z) (r : host_data)
  : result alert_fields :=
  latest <~ match list_last (hd_messages r) with
            | Some m => slice_to 100 m
            | None => Raise (IndexError "list index out of range")
            end ;;
  Ok {| af_alert_id := "auto-scan-" ++ to_str py (hd_host r) ++ "-"
                       ++ str_of_Z (Z.quot now_ 1000000);
        af_severity := hd_severity r;
        af_message := "Multiple errors detected on " ++ to_str py (hd_host r) ++ ": "
                      ++ str_of_nat (hd_error_count r) ++ " errors in " ++ time_range
                      ++ ". Latest: " ++ to_str py latest ++ "...";
        af_host := hd_host r;
        af_timestamp := now_;
        af_metadata := [ ("scan_source", JStr "splunk_auto_scan");
                         ("error_count", JNum (Z.of_nat (hd_error_count r)));
                         ("time_range", JStr time_range);
                         ("error_messages", JArr (firstn 5 (hd_messages r))) ] |}.

(** The [AlertData] model validated from the [alert_data] dict. *)
Definition validate_alert (a : alert_fields) : result AlertData :=
  h <~ field_str "host" (af_host a) ;;
  Ok {| alert_id := af_alert_id a; severity := af_severity a; message := af_message a;
        host := h; timestamp := af_timestamp a; metadata := Some (af_metadata a) |}.

(** The body of [for host_data in affected_hosts.values()]. *)
Definition scan_host (time_range : string) (r : host_data) : M scan_entry :=
  h <- history ;;
  a <- lift (synthesize_alert time_range (now env h) r) ;;
  try_except
    (alert <- lift (validate_alert a) ;;
     ticket <- process_alert alert ;;
     h' <- history ;;
     ret (Processed (af_alert_id a) (hd_host r) (hd_severity r) (hd_error_count r)
            ticket (recent_activity (af_alert_id a) h')))
    (fun alert_error =>
       ret (Failed (af_alert_id a) (hd_host r) (hd_severity r) (hd_error_count r)
              (exn_str alert_error))).

Fixpoint scan_hosts (time_range : string) (rs : list host_data) : M (list scan_entry) :=
  match rs with
  | [] => ret []
  | r :: rest =>
      a <- scan_host time_range r ;;
      others <- scan_hosts time_range rest ;;
      ret (a :: others)
  end.

Definition search_arguments : dict :=
  [ ("search_term",
     JStr "index=* (error OR exception OR failed OR fatal OR timeout) | head 1000 | table _time, host, source, _raw");
    ("time_range", JStr "24h");
    ("max_results", JNum 1000) ].

Definition scan_and_create_alerts (time_range : string) : M ScanReport :=
  try_except
    (search_result <- call_tool env "splunk" "search_recent" search_arguments ;;
     search_data <- lift (_parse_tool_response search_result) ;;
     d <- lift (as_dict search_data) ;;
     let error_events := get_or d "results" (JArr []) in
     events <- lift (iterate error_events) ;;
     h <- history ;;
     affected_hosts <- lift (scan_events (isoformat py (now env h)) [] events) ;;
     processed_alerts <- scan_hosts time_range (map snd affected_hosts) ;;
     total <- lift (len error_events) ;;
     ret (ScanCompleted time_range total (List.length affected_hosts)
            (List.length (filter is_processed processed_alerts))
            (List.length (filter (fun a => negb (is_processed a)) processed_alerts))
            processed_alerts))
    (fun e => ret (ScanFailed (exn_str e) time_range)).

End WithWorld.

End Agent.
Import Facade.
Import Agent.

(* ================================================================= *)
(** ** Concrete collaborators for the examples *)

Module Examples.

(** [json.loads] on the few texts the examples send; every other text is
    rejected. *)
Definition example_loads (s : string) : json + string :=
  if String.eqb s "[]" then inl (JArr [])
  else if String.eqb s "{}" then inl (JObj [])
  else if String.eqb s ("{" ++ dq ++ "status" ++ dq ++ ": " ++ dq ++ "created" ++ dq ++ "}")
       then inl (JObj [("status", JStr "created")])
  else inr "Expecting value: line 1 column 1 (char 0)".

Definition example_py : pylib :=
  {| json_loads := example_loads;
     json_dumps := fun v => match v with JArr [] => "[]" | JObj [] => "{}" | _ => "..." end;
     repr_container := fun v => match v with JArr [] => "[]" | JObj [] => "{}" | _ => "..." end;
     datetime_str := fun _ => "2025-01-01 00:00:00";
     isoformat := fun _ => "2025-01-01T00:00:00";
     strftime_hm := fun _ => "00:00" |}.

Definition example_config : Config :=
  {| GEMINI_API_KEY := EmptyString;
     ANTHROPIC_API_KEY := EmptyString;
     LLM_PROVIDER := "gemini";
     JIRA_PROJECT_KEY := "OPS";
     AGENT_LOG_TIMERANGE := 30 |}.

(** No key is configured: the agent uses the rules. *)
Definition rules_agent : AITTAgent := new_agent example_config.

Definition llm_agent : AITTAgent :=
  {| config := example_config; llm_available := true |}.

Definition alert_A : AlertData :=
  {| alert_id := "a-1"; severity := "Critical"; message := "CPU at 99%"; host := "h1";
     timestamp := 0; metadata := Some [] |}.

Definition alert_B : AlertData :=
  {| alert_id := "b-1"; severity := "Medium"; message := "m"; host := "h2";
     timestamp := 0; metadata := Some [] |}.

(** A [tools/call] result with one text block. *)
Definition text_response (text : string) : session_outcome :=
  Received (RpcResult [("content", JArr [JObj [("type", JStr "text"); ("text", JStr text)]])]).

(** Scenario D: one block, of type image. *)
Definition image_response : session_outcome :=
  Received (RpcResult [("content", JArr [JObj [("type", JStr "image")]])]).

(** The provider cannot be reached. *)
Definition quiet_llm : trace -> string -> llm_outcome :=
  fun _ _ => LLMRaised (OtherError "ConnectionError" "connection refused").

(** Every backend is down. *)
Definition env_down : environment :=
  {| tool_reply := fun _ _ _ _ => SessionRaised (OtherError "ConnectionError" "connection refused");
     llm_reply := quiet_llm;
     commit_ticket := fun _ _ => None;
     now := fun _ => 0%Z |}.

(** Every backend answers with an image block only. *)
Definition env_image : environment :=
  {| tool_reply := fun _ _ _ _ => image_response;
     llm_reply := quiet_llm;
     commit_ticket := fun _ _ => None;
     now := fun _ => 0%Z |}.

(** Every backend answers with the text [reply]. *)
Definition env_text (reply : string) : environment :=
  {| tool_reply := fun _ _ _ _ => text_response reply;
     llm_reply := quiet_llm;
     commit_ticket := fun _ _ => None;
     now := fun _ => 0%Z |}.

(** The ticketing backend answers with the text [reply], the others are
    down. *)
Definition env_jira_only (reply : string) : environment :=
  {| tool_reply := fun _ server _ _ =>
                     if String.eqb server "jira" then text_response reply
                     else SessionRaised (OtherError "ConnectionError" "connection refused");
     llm_reply := quiet_llm;
     commit_ticket := fun _ _ => None;
     now := fun _ => 0%Z |}.

(** The provider answers with a text that is no JSON. *)
Definition env_llm_prose : environment :=
  {| tool_reply := fun _ _ _ _ => SessionRaised (OtherError "ConnectionError" "connection refused");
     llm_reply := fun _ _ => LLMText "I cannot help with that.";
     commit_ticket := fun _ _ => None;
     now := fun _ => 0%Z |}.

Definition event_of (host_ raw : string) : json :=
  JObj [("_time", JStr "2025-01-01T00:00:00"); ("host", JStr host_); ("_raw", JStr raw)].

End Examples.
Import Examples.


(* ================================================================= *)
(** ** aitta_mcp/mcp_client_manager.py: listing the tools *)

Module Listing.

(** [MCPClientManager.list_tools].  No caller puts a deadline around it:
    [None] stands for a session that never answers.  [session] is what the
    session with the named server delivers to the [tools/list] request. *)
Definition list_tools (session : string -> session_outcome) (server_name : string)
  : option (result json) :=
  if existsb (String.eqb server_name) servers then
    match session server_name with
    | Received resp => Some (extract_text_content resp)
    | SessionRaised e => Some (Raise e)
    | NoReply => None
    end
  else Some (Raise (KeyError server_name)).

End Listing.

(* ================================================================= *)
(** ** api/api.py *)

Module Api.

(** [config.API_KEY] beside the configuration the agent reads. *)
Record Settings : Type := {
  agent_config : Config;
  API_KEY : string
}.

(** [x_api_key] is [None] when the request has no such header. *)
Definition verify_api_key (settings : Settings) (x_api_key : option string)
  : result (option string) :=
  if andb (negb (String.eqb (API_KEY settings) EmptyString))
          (negb (match x_api_key with
                 | Some k => String.eqb k (API_KEY settings)
                 | None => false
                 end))
  then Raise (HTTPException 403 "Invalid API key")
  else Ok x_api_key.

(** The body of a successful answer of [/api/process-alert]. *)
Record ProcessResponse : Type := {
  pr_status : string;
  pr_ticket : TicketResponse;
  pr_activity_log : list ActivityLogItem
}.

(** [models/schemas.py] *)
Record IncidentPattern : Type := {
  pattern : string;
  count : nat;
  trend : string
}.

(** The [if]/[elif] chain of [get_incident_patterns] on
    [ticket.summary.lower()]. *)
Definition classify (summary_lower : string) : string :=
  if contains "memory" summary_lower then "Memory Leak (Java)"
  else if orb (contains "database" summary_lower) (contains "connection" summary_lower)
       then "Database Connection Pool"
  else if contains "disk" summary_lower then "Disk Space Critical"
  else if contains "timeout" summary_lower then "API Timeout (Gateway)"
  else "Other Issues".

(** [patterns[key] = patterns.get(key, 0) + 1]; a new key goes last. *)
Fixpoint bump (key : string) (patterns : list (string * nat)) : list (string * nat) :=
  match patterns with
  | [] => [(key, 1%nat)]
  | (k, v) :: rest =>
      if String.eqb key k then (k, S v) :: rest else (k, v) :: bump key rest
  end.

(** The [for ticket in tickets] loop over the [summary] column of the rows;
    a summary that is [None] has no [lower]. *)
Fixpoint count_patterns (summaries : list json) (patterns : list (string * nat))
  : result (list (string * nat)) :=
  match summaries with
  | [] => Ok patterns
  | s :: rest =>
      low <~ lower_of s ;;
      count_patterns rest (bump (classify low) patterns)
  end.

Fixpoint insert_desc (x : string * nat) (sorted : list (string * nat))
  : list (string * nat) :=
  match sorted with
  | [] => [x]
  | y :: rest =>
      if (snd y <=? snd x)%nat then x :: y :: rest else y :: insert_desc x rest
  end.

(** [sorted(items, key=lambda x: x[1], reverse=True)]: by count, largest
    first; items of equal count keep their order. *)
Definition sorted_desc (items : list (string * nat)) : list (string * nat) :=
  fold_right insert_desc [] items.

(** [get_incident_patterns], from the outcome of the query for the tickets
    of the period (the parsing of [range] and the query are inside the
    [try]): any failure gives the empty list. *)
Definition get_incident_patterns (tickets : result (list json)) : list IncidentPattern :=
  match (summaries <~ tickets ;; count_patterns summaries []) with
  | Ok patterns =>
      firstn 5 (map (fun kv => {| pattern := fst kv; count := snd kv; trend := "+5%" |})
                    (sorted_desc patterns))
  | Raise _ => []
  end.

Section WithWorld.
Variable py : pylib.
Variable env : environment.
Variable settings : Settings.

(** The rows of the activity query of an endpoint: the entries of one
    alert, latest first, [limit] at most; the store is taken to hold what
    was appended. *)
Definition latest_activity (limit : nat) (aid : string) (h : trace) : list ActivityLogItem :=
  firstn limit
    (rev (flat_map (fun e =>
                      match e with
                      | EvActivity ts a action detail status =>
                          if String.eqb a aid
                          then [ {| ali_time := strftime_hm py ts; ali_action := action;
                                    ali_detail := detail; ali_status := status |} ]
                          else []
                      | _ => []
                      end) h)).

(** [POST /api/process-alert]; the dependency [verify_api_key] runs before
    the handler. *)
Definition process_alert (x_api_key : option string) (alert : AlertData)
  : M ProcessResponse :=
  lift (verify_api_key settings x_api_key) ;;;
  try_except
    (ticket <- Agent.process_alert py env (new_agent (agent_config settings)) alert ;;
     h <- history ;;
     ret {| pr_status := "success";
            pr_ticket := ticket;
            pr_activity_log := latest_activity 10 (alert_id alert) h |})
    (fun e => raise (HTTPException 500 (exn_str e))).

(** [POST /api/scan-and-alert] *)
Definition scan_and_alert (x_api_key : option string) (time_range : string)
  : M ScanReport :=
  lift (verify_api_key settings x_api_key) ;;;
  try_except
    (result <- scan_and_create_alerts py env (new_agent (agent_config settings)) time_range ;;
     match result with
     | ScanFailed error _ => raise (HTTPException 500 error)
     | ScanCompleted _ _ _ _ _ _ => ret result
     end)
    (fun e => raise (HTTPException 500 ("Scan and alert failed: " ++ exn_str e))).

End WithWorld.

End Api.

(* ================================================================= *)
(** ** More collaborators for the examples *)

Module MoreExamples.

(** The ticketing backend answers with the empty object, the others are
    down, and the commit of the ticket record fails. *)
Definition env_commit_fails : environment :=
  {| tool_reply := tool_reply (env_jira_only "{}");
     llm_reply := quiet_llm;
     commit_ticket := fun _ _ => Some (OtherError "IntegrityError" "UNIQUE constraint failed");
     now := fun _ => 0%Z |}.

End MoreExamples.
Import MoreExamples.

(* ================================================================= *)
(** ** A provider for the examples *)

Module LLMExamples.

(** The provider answers with a fenced empty object. *)
Definition env_llm_empty_object : environment :=
  {| tool_reply := fun _ _ _ _ => SessionRaised (OtherError "ConnectionError" "connection refused");
     llm_reply := fun _ _ => LLMText ("```json" ++ nl ++ "{}" ++ nl ++ "```");
     commit_ticket := fun _ _ => None;
     now := fun _ => 0%Z |}.

End LLMExamples.
Import LLMExamples.

(* ================================================================= *)
(** ** Vocabulary of the statements *)

(** [m] only appends to the history, and every event it appends satisfies
    [P]. *)
Definition emits {A} (P : event -> Prop) (m : M A) : Prop :=
  forall h, exists new, snd (m h) = (h ++ new)%list /\ Forall P new.

(** [m] never raises. *)
Definition total {A} (m : M A) : Prop :=
  forall h, exists a h', m h = (Ok a, h').

(** The reply of a backend is a failure of the call: the session raised, or
    no answer came before the deadline. *)
Definition call_fails (o : session_outcome) : Prop :=
  match o with
  | Received _ => False
  | SessionRaised _ | NoReply => True
  end.


(** The severity of a host's record after the events with the texts
    [raws], in order: the loop body is run on each of them. *)
Definition severity_after (raws : list string) : string :=
  fold_left (fun current raw => escalate current (lower raw)) raws "Medium".

Definition matches_critical (raw : string) : bool := any_in critical_keywords (lower raw).
(** [affected_hosts[host_]]: the record of a host, if it has one. *)
Fixpoint row_of (host_ : json) (t : host_table) : option host_data :=
  match t with
  | [] => None
  | (k, r) :: t' => if key_eqb host_ k then Some r else row_of host_ t'
  end.

(** The texts of the events of the host [host_] among the search results,
    in order: the events whose [host] is that key of the dict. *)
Definition raws_of (host_ : json) (events : list json) : list string :=
  flat_map (fun event =>
              match event with
              | JObj d =>
                  match get_or d "_raw" (JStr EmptyString) with
                  | JStr raw =>
                      if key_eqb (get_or d "host" (JStr "unknown")) host_
                      then [raw] else []
                  | _ => []
                  end
              | _ => []
              end) events.

(** Following the words of the claim: the rule the text of an event
    matches, Critical for critical, fatal, panic or outage, else High for
    high, severe or major. *)
Definition stated_rule (raw : string) : option string :=
  if any_in ["critical"; "fatal"; "panic"; "outage"] (lower raw) then Some "Critical"
  else if any_in ["high"; "severe"; "major"] (lower raw) then Some "High"
  else None.

Definition matches_a_rule (raw : string) : bool :=
  match stated_rule raw with Some _ => true | None => false end.

(** Following the words of the claim: the severity set by the last event
    that matches a rule, Medium when no event does. *)
Definition last_match_severity (raws : list string) : string :=
  match find matches_a_rule (rev raws) with
  | Some raw => match stated_rule raw with Some s => s | None => "Medium" end
  | None => "Medium"
  end.

(** What the loop has for a host: severity and number of events. *)
Definition host_state (host_ : json) (t : host_table) : option (string * nat) :=
  option_map (fun r => (hd_severity r, hd_error_count r)) (row_of host_ t).

Definition state_severity (st : option (string * nat)) : string :=
  match st with Some (s, _) => s | None => "Medium" end.

Definition state_count (st : option (string * nat)) : nat :=
  match st with Some (_, n) => n | None => 0%nat end.

(** One more event of the host. *)
Definition host_step (st : option (string * nat)) (raw : string) : option (string * nat) :=
  Some (escalate (state_severity st) (lower raw), S (state_count st)).

(** The events of the steps after ticket creation: the secondary incident
    (its call and its activity entries) and the saving of the ticket. *)
Definition after_ticket_step (e : event) : bool :=
  match e with
  | EvToolCall server tool _ =>
      andb (String.eqb server "cmdb") (String.eqb tool "create_incident")
  | EvActivity _ _ action _ _ =>
      orb (String.eqb action "ServiceNow Incident Created")
          (String.eqb action "ServiceNow Incident Creation")
  | EvSaveTicket _ => true
  | EvLLM _ => false
  end.

(** Events of the steps up to ticket creation. *)
Definition early (e : event) : Prop := after_ticket_step e = false.

(** An activity entry of the ticket-creation step of alert [aid]. *)
Definition ticket_step_entry (aid : string) (e : event) : Prop :=
  exists ts detail status,
    e = EvActivity ts aid "Ticket Created" detail status
    \/ e = EvActivity ts aid "Ticket Creation" detail status.

(** [m] only appends to the history, and what it appends when it returns
    normally has an event satisfying [Q]. *)
Definition marks {A} (Q : event -> Prop) (m : M A) : Prop :=
  forall h, exists new, snd (m h) = (h ++ new)%list
                        /\ (forall a, fst (m h) = Ok a -> Exists Q new).

Definition any_event (e : event) : Prop := True.

(** [m] only appends to the history, and what it appends has an event
    satisfying [Q], whether [m] returns or raises. *)
Definition always_marks {A} (Q : event -> Prop) (m : M A) : Prop :=
  forall h, exists new, snd (m h) = (h ++ new)%list /\ Exists Q new.

(** The answer of the provider is a failure of the LLM strategy: the
    provider raised, or its text, fences stripped, is no JSON. *)
Definition llm_failed (py : pylib) (self : AITTAgent) (o : llm_outcome) : Prop :=
  match o with
  | LLMRaised _ => True
  | LLMText text =>
      exists je,
        json_loads py
          (extract_json (if String.eqb (LLM_PROVIDER (config self)) "gemini"
                         then strip text else text)) = inr je
  end.

(** The analysis has, as strings, the fields the later steps read with
    [analysis[...]]. *)
Definition analysis_valid (d : dict) : Prop :=
  exists p s t,
    lookup d "priority" = Some (JStr p)
    /\ lookup d "summary" = Some (JStr s)
    /\ lookup d "description" = Some (JStr t).

(** At history [h] the ticketing backend answers with a text block that
    [json.loads] reads as the dict [d]. *)
Definition jira_answers (py : pylib) (env : environment) (h : trace) (d : dict) : Prop :=
  forall args, exists resp text,
    tool_reply env h "jira" "create_ticket" args = Received resp
    /\ extract_text_content resp = Ok (JStr text)
    /\ text <> EmptyString
    /\ json_loads py text = inl (JObj d).

(** The [url] of the answer is absent, null or a string. *)
Definition url_acceptable (d : dict) : Prop :=
  lookup d "url" = None \/ lookup d "url" = Some JNull
  \/ exists u, lookup d "url" = Some (JStr u).



(** The [scan_time_range] field of a report. *)
Definition report_time_range (r : ScanReport) : string :=
  match r with
  | ScanCompleted t _ _ _ _ _ => t
  | ScanFailed _ t => t
  end.

(** What [m] returns, when it returns, satisfies [Q]. *)
Definition returns {A} (Q : A -> Prop) (m : M A) : Prop :=
  forall h a h', m h = (Ok a, h') -> Q a.

(** An agent of configuration [cfg] for which [_setup_llm] found a
    provider, and one for which it found none. *)
Definition llm_configured (cfg : Config) : AITTAgent :=
  {| config := cfg; llm_available := true |}.
Definition rules_configured (cfg : Config) : AITTAgent :=
  {| config := cfg; llm_available := false |}.

(** A log entry the rules can read: a dict whose [message], if it has one,
    is a string. *)
Definition log_entry_ok (v : json) : Prop :=
  exists d, v = JObj d
            /\ (lookup d "message" = None \/ exists m, lookup d "message" = Some (JStr m)).

(** Enrichment data the rules can read: the criticality can be hashed and
    the dependencies, if any, are a list of strings. *)
Definition enrichment_ok (cmdb : dict) : Prop :=
  hashable (get_or cmdb "criticality" (JStr "Medium")) = true
  /\ exists deps, get_or cmdb "dependencies" (JArr []) = JArr (map JStr deps).

(** An activity entry of the secondary-incident step of alert [aid]. *)
Definition incident_entry (aid : string) (e : event) : Prop :=
  exists ts detail,
    e = EvActivity ts aid "ServiceNow Incident Created" detail "complete"
    \/ e = EvActivity ts aid "ServiceNow Incident Creation" detail "error".

(** At history [h] the inventory backend answers the incident request with
    a text block that [json.loads] reads as the dict [d]. *)
Definition incident_answers (py : pylib) (env : environment) (h : trace) (d : dict) : Prop :=
  forall args, exists resp text,
    tool_reply env h "cmdb" "create_incident" args = Received resp
    /\ extract_text_content resp = Ok (JStr text)
    /\ text <> EmptyString
    /\ json_loads py text = inl (JObj d).

(** The saving of a ticket record. *)
Definition is_save (e : event) : bool :=
  match e with
  | EvSaveTicket _ => true
  | _ => false
  end.

(** The row [_save_ticket_record] builds for a ticket that was returned. *)
Definition record_of (alert : AlertData) (ticket : TicketResponse) : TicketRecord :=
  {| tr_ticket_id := ticket_id ticket;
     tr_alert_id := alert_id alert;
     tr_host := host alert;
     tr_severity := severity alert;
     tr_priority := JStr (priority ticket);
     tr_summary := JStr (summary ticket);
     tr_description := JStr (description ticket);
     tr_assigned_to := assigned_to ticket;
     tr_processing_time := processing_time ticket;
     tr_status := "created" |}.

Definition is_ticket_call (e : event) : bool :=
  match e with
  | EvToolCall server tool _ =>
      andb (String.eqb server "jira") (String.eqb tool "create_ticket")
  | _ => false
  end.

(** Neither a call to create a ticket nor the saving of one. *)
Definition quiet (e : event) : Prop := is_ticket_call e = false /\ is_save e = false.

(** The activity entry that tells a ticket was created for alert [aid]. *)
Definition ticket_created_entry (aid : string) (e : event) : Prop :=
  exists ts detail, e = EvActivity ts aid "Ticket Created" detail "complete".

(** The backend tools a history calls, in order. *)
Definition calls_of (t : trace) : list (string * string) :=
  flat_map (fun e => match e with
                     | EvToolCall server tool _ => [(server, tool)]
                     | _ => []
                     end) t.

Definition no_call (e : event) : Prop :=
  match e with
  | EvToolCall _ _ _ => False
  | _ => True
  end.

(** At history [h] the backend [server] answers every request for [tool]
    with a text block that [json.loads] reads as the value [v]. *)
Definition tool_answers (py : pylib) (env : environment) (h : trace)
    (server tool : string) (v : json) : Prop :=
  forall args, exists resp text,
    tool_reply env h server tool args = Received resp
    /\ extract_text_content resp = Ok (JStr text)
    /\ text <> EmptyString
    /\ json_loads py text = inl v.

(** The text has no backquote. *)
Definition no_backquote (s : string) : Prop := contains "`" s = false.

(** The events counted over all the hosts of a table. *)
Definition events_counted (t : host_table) : nat :=
  fold_right (fun kv n => (hd_error_count (snd kv) + n)%nat) 0%nat t.

(** No two rows of the table are for the same host. *)
Fixpoint keys_distinct (t : host_table) : Prop :=
  match t with
  | [] => True
  | (k, _) :: t' => table_mem k t' = false /\ keys_distinct t'
  end.

(** A message kept for a host: a string of 200 characters at most. *)
Definition short_message (m : json) : Prop :=
  exists s, m = JStr s /\ (String.length s <= 200)%nat.

(** What every row of a table built by the scan satisfies. *)
Definition row_ok (kv : json * host_data) : Prop :=
  hd_host (snd kv) = fst kv
  /\ hashable (fst kv) = true
  /\ hd_error_count (snd kv) = List.length (hd_messages (snd kv))
  /\ (1 <= hd_error_count (snd kv))%nat
  /\ Forall short_message (hd_messages (snd kv))
  /\ (hd_severity (snd kv) = "Medium" \/ hd_severity (snd kv) = "High"
      \/ hd_severity (snd kv) = "Critical").

(** The host, the severity and the number of events of an entry of the
    report, and of a row of the table. *)
Definition entry_summary (a : scan_entry) : json * string * nat :=
  match a with
  | Processed _ h s n _ _ => (h, s, n)
  | Failed _ h s n _ => (h, s, n)
  end.

Definition row_summary (kv : json * host_data) : json * string * nat :=
  (hd_host (snd kv), hd_severity (snd kv), hd_error_count (snd kv)).

(** The events the entries of a report account for. *)
Definition errors_reported (alerts : list scan_entry) : nat :=
  fold_right (fun a n => (snd (entry_summary a) + n)%nat) 0%nat alerts.

(** An event the grouping loop accepts: a dict whose [host] can be a key
    and whose [_raw] is a string. *)
Definition well_formed_event (event : json) : bool :=
  match event with
  | JObj d =>
      andb (hashable (get_or d "host" (JStr "unknown")))
           (match get_or d "_raw" (JStr EmptyString) with JStr _ => true | _ => false end)
  | _ => false
  end.

Definition search_call : event := EvToolCall "splunk" "search_recent" search_arguments.

(** A row with a message, all of them short strings. *)
Definition row_has_messages (r : host_data) : Prop :=
  hd_messages r <> [] /\ Forall short_message (hd_messages r).

(* ================================================================= *)
(** ** A search backend for the examples *)

Module ScanExamples.

Definition quoted (s : string) : string := dq ++ s ++ dq.

Definition event_text (host_ raw : string) : string :=
  "{" ++ quoted "host" ++ ": " ++ quoted host_ ++ ", "
      ++ quoted "_raw" ++ ": " ++ quoted raw ++ "}".

(** The answer of a search that found events on two hosts. *)
Definition two_hosts_text : string :=
  "{" ++ quoted "results" ++ ": [" ++ event_text "h1" "fatal outage" ++ ", "
      ++ event_text "h2" "disk full" ++ "]}".

Definition two_hosts : dict :=
  [ ("results", JArr [ JObj [("host", JStr "h1"); ("_raw", JStr "fatal outage")];
                       JObj [("host", JStr "h2"); ("_raw", JStr "disk full")] ]) ].

(** The answer of a search whose second result is a number. *)
Definition odd_result_text : string :=
  "{" ++ quoted "results" ++ ": [" ++ event_text "h1" "fatal outage" ++ ", 7]}".

Definition odd_result : dict :=
  [ ("results", JArr [ JObj [("host", JStr "h1"); ("_raw", JStr "fatal outage")];
                       JNum 7 ]) ].

(** [json.loads] on the two answers, and as in the other examples on the
    rest. *)
Definition scan_loads (s : string) : json + string :=
  if String.eqb s two_hosts_text then inl (JObj two_hosts)
  else if String.eqb s odd_result_text then inl (JObj odd_result)
  else example_loads s.

Definition scan_py : pylib :=
  {| json_loads := scan_loads;
     json_dumps := json_dumps example_py;
     repr_container := repr_container example_py;
     datetime_str := datetime_str example_py;
     isoformat := isoformat example_py;
     strftime_hm := strftime_hm example_py |}.

(** The logs backend answers with the text [reply], the others are down. *)
Definition env_search (reply : string) : environment :=
  {| tool_reply := fun _ server _ _ =>
                     if String.eqb server "splunk" then text_response reply
                     else SessionRaised (OtherError "ConnectionError" "connection refused");
     llm_reply := quiet_llm;
     commit_ticket := fun _ _ => None;
     now := fun _ => 0%Z |}.

(** The row of a host that the search gave as the number 7. *)
Definition numbered_host : host_data :=
  {| hd_host := JNum 7;
     hd_error_count := 1;
     hd_messages := [JStr "disk full"];
     hd_severity := "Medium";
     hd_latest_timestamp := JStr "2025-01-01T00:00:00" |}.

End ScanExamples.
Import ScanExamples.

(** The keys the pattern detection can give. *)
Definition pattern_names : list string :=
  [ "Memory Leak (Java)"; "Database Connection Pool"; "Disk Space Critical";
    "API Timeout (Gateway)"; "Other Issues" ].

(** The tickets a list of patterns accounts for. *)
Definition tickets_counted (ps : list Api.IncidentPattern) : nat :=
  fold_right (fun p n => (Api.count p + n)%nat) 0%nat ps.

(** Largest first. *)
Fixpoint descending (l : list nat) : Prop :=
  match l with
  | [] => True
  | a :: t => match t with [] => True | b :: _ => (b <= a)%nat end /\ descending t
  end.

Definition is_text (v : json) : Prop := exists s, v = JStr s.

Definition pairs_counted (ps : list (string * nat)) : nat :=
  fold_right (fun kv n => (snd kv + n)%nat) 0%nat ps.

(** The pattern of the answer for a key and its count. *)
Definition pattern_of_pair (kv : string * nat) : Api.IncidentPattern :=
  {| Api.pattern := fst kv; Api.count := snd kv; Api.trend := "+5%" |}.

(* ================================================================= *)
(** ** A ticketing backend for the examples *)

Module TicketExamples.

(** An answer whose ticket id is a number. *)
Definition numbered_ticket_text : string :=
  "{" ++ dq ++ "ticket_id" ++ dq ++ ": 4711}".

Definition ticket_loads (s : string) : json + string :=
  if String.eqb s numbered_ticket_text then inl (JObj [("ticket_id", JNum 4711)])
  else example_loads s.

Definition ticket_py : pylib :=
  {| json_loads := ticket_loads;
     json_dumps := json_dumps example_py;
     repr_container := repr_container example_py;
     datetime_str := datetime_str example_py;
     isoformat := isoformat example_py;
     strftime_hm := strftime_hm example_py |}.

End TicketExamples.
Import TicketExamples.

(* ================================================================= *)
(** ** Settings for the examples *)

Module ApiExamples.

(** No key is configured. *)
Definition open_settings : Api.Settings :=
  {| Api.agent_config := example_config; Api.API_KEY := EmptyString |}.

Definition keyed_settings : Api.Settings :=
  {| Api.agent_config := example_config; Api.API_KEY := "secret" |}.

End ApiExamples.
Import ApiExamples.

(** A request to the provider. *)
Definition is_llm (e : event) : bool :=
  match e with EvLLM _ => true | _ => false end.

Definition llm_requests (t : trace) : nat := List.length (filter is_llm t).

(** [m] sends [n] requests to the provider at most. *)
Definition at_most {A} (n : nat) (m : M A) : Prop :=
  forall h, exists new, snd (m h) = (h ++ new)%list /\ (llm_requests new <= n)%nat.

(** An activity entry is for the alert [aid] and has one of the two
    statuses of a finished step. *)
Definition step_entry (aid : string) (e : event) : Prop :=
  match e with
  | EvActivity _ a _ _ status => a = aid /\ (status = "complete" \/ status = "error")
  | _ => True
  end.

(** An activity entry is for an alert of the scan. *)
Definition scan_entry_id (e : event) : Prop :=
  match e with
  | EvActivity _ a _ _ _ => prefix "auto-scan-" a = true
  | _ => True
  end.

(** An activity entry is for the alert [aid]. *)
Definition entry_for (aid : string) (e : event) : Prop :=
  match e with
  | EvActivity _ a _ _ _ => a = aid
  | _ => True
  end.

(** A field that may be missing, and is a text otherwise. *)
Definition optional_text (o : option json) : Prop :=
  o = None \/ exists s, o = Some (JStr s).

(** Following the words of the specification, section 3: an
    [AnalysisResult] has a priority label, a root-cause text, a ticket
    summary and a ticket description, and may have an assignee and an
    issue-type tag. *)
Definition analysis_result (d : dict) : Prop :=
  (exists p, lookup d "priority" = Some (JStr p))
  /\ (exists r, lookup d "root_cause" = Some (JStr r))
  /\ (exists s, lookup d "summary" = Some (JStr s))
  /\ (exists t, lookup d "description" = Some (JStr t))
  /\ optional_text (lookup d "assigned_to")
  /\ optional_text (lookup d "issue_type").



(** The analysis lacks one of the fields ticket creation reads with
    [analysis[...]]. *)
Definition lacks_a_field (analysis : dict) : Prop :=
  lookup analysis "summary" = None \/ lookup analysis "description" = None
  \/ lookup analysis "priority" = None.

(** The calls of a run, as far as it gets. *)
Definition calls_of_enrichment : list (string * string) :=
  [("splunk", "query_logs"); ("cmdb", "get_asset_info")].
Definition calls_up_to_ticket : list (string * string) :=
  [("splunk", "query_logs"); ("cmdb", "get_asset_info"); ("jira", "create_ticket")].
Definition calls_of_a_full_run : list (string * string) :=
  [("splunk", "query_logs"); ("cmdb", "get_asset_info"); ("jira", "create_ticket");
   ("cmdb", "create_incident")].

(* ================================================================= *)
(** ** Reasoning about computations *)

Section Computations.
Context {A B : Type}.

Lemma bind_ok (m : M A) (k : A -> M B) h a h' :
  m h = (Ok a, h') -> bind m k h = k a h'.
Proof. intros E. unfold bind. now rewrite E. Qed.

Lemma bind_raise (m : M A) (k : A -> M B) h e h' :
  m h = (Raise e, h') -> bind m k h = (Raise e, h').
Proof. intros E. unfold bind. now rewrite E. Qed.

Lemma try_ok (m : M A) (k : exn -> M A) h a h' :
  m h = (Ok a, h') -> try_except m k h = (Ok a, h').
Proof. intros E. unfold try_except. now rewrite E. Qed.

Lemma try_raise (m : M A) (k : exn -> M A) h e h' :
  m h = (Raise e, h') -> try_except m k h = k e h'.
Proof. intros E. unfold try_except. now rewrite E. Qed.

End Computations.

Section Emits.
Context {A B : Type} (P : event -> Prop).

Lemma emits_silent (m : M A) : (forall h, snd (m h) = h) -> emits P m.
Proof. intros E h. exists []. rewrite E, app_nil_r. auto. Qed.

Lemma emits_ret (a : A) : emits P (ret a).
Proof. now apply emits_silent. Qed.

Lemma emits_raise (e : exn) : emits P (@raise A e).
Proof. now apply emits_silent. Qed.

Lemma emits_lift (r : result A) : emits P (lift r).
Proof. now apply emits_silent. Qed.

Lemma emits_bind (m : M A) (k : A -> M B) :
  emits P m -> (forall a, emits P (k a)) -> emits P (bind m k).
Proof.
  intros Hm Hk h. unfold bind.
  destruct (Hm h) as [n1 [E1 F1]].
  destruct (m h) as [[a|e] h1]; simpl in E1; subst h1.
  - destruct (Hk a (h ++ n1)%list) as [n2 [E2 F2]].
    exists (n1 ++ n2)%list. rewrite E2, app_assoc. split; auto.
    apply Forall_app; auto.
  - exists n1. auto.
Qed.

Lemma emits_try (m : M A) (k : exn -> M A) :
  emits P m -> (forall e, emits P (k e)) -> emits P (try_except m k).
Proof.
  intros Hm Hk h. unfold try_except.
  destruct (Hm h) as [n1 [E1 F1]].
  destruct (m h) as [[a|e] h1]; simpl in E1; subst h1.
  - exists n1. auto.
  - destruct (Hk e (h ++ n1)%list) as [n2 [E2 F2]].
    exists (n1 ++ n2)%list. rewrite E2, app_assoc. split; auto.
    apply Forall_app; auto.
Qed.

Lemma total_try (m : M A) (k : exn -> M A) :
  (forall e, total (k e)) -> total (try_except m k).
Proof.
  intros Hk h. unfold try_except.
  destruct (m h) as [[a|e] h1]; [eauto | apply Hk].
Qed.

Lemma total_bind (m : M A) (k : A -> M B) :
  total m -> (forall a, total (k a)) -> total (bind m k).
Proof.
  intros Hm Hk h. unfold bind.
  destruct (Hm h) as [a [h1 E]]. rewrite E. apply Hk.
Qed.

End Emits.

Lemma emits_history (P : event -> Prop) : emits P history.
Proof. now apply emits_silent. Qed.

Lemma emits_emit (P : event -> Prop) (e : event) : P e -> emits P (emit e).
Proof. intros H h. exists [e]. simpl. auto. Qed.

Lemma total_ret {A} (a : A) : total (ret a).
Proof. intros h. unfold ret. eauto. Qed.

Lemma emits_weaken {A} (P Q : event -> Prop) (m : M A) :
  (forall e, P e -> Q e) -> emits P m -> emits Q m.
Proof.
  intros PQ Hm h. destruct (Hm h) as [n [E F]]. exists n. split; auto.
  eapply Forall_impl; eauto.
Qed.

(* ================================================================= *)
(** ** The tool client *)

Lemma text_blocks_none (items : list json) :
  Forall (fun c => is_text_block c = Ok false) items -> text_blocks items = Ok [].
Proof.
  induction 1 as [|c rest Hc _ IH]; simpl; auto.
  rewrite Hc, IH. destruct c; reflexivity.
Qed.

Lemma call_tool_received (env : environment) server tool args h resp :
  existsb (String.eqb server) servers = true ->
  tool_reply env h server tool args = Received resp ->
  call_tool env server tool args h
  = (extract_text_content resp, (h ++ [EvToolCall server tool args])%list).
Proof.
  intros Hs Hr. unfold call_tool. rewrite Hs.
  unfold bind, history, emit, lift. now rewrite Hr.
Qed.


Lemma emits_call_tool (P : event -> Prop) env server tool args :
  P (EvToolCall server tool args) -> emits P (call_tool env server tool args).
Proof.
  intros HP. unfold call_tool.
  destruct (existsb _ _); [|apply emits_raise].
  apply emits_bind; [apply emits_history|intros h].
  apply emits_bind; [now apply emits_emit|intros _].
  destruct (tool_reply _ _ _ _ _); auto using emits_lift, emits_raise.
Qed.

(** C4, as the code has it: a response whose content has no block of type
    text makes the facade return [None] (here [JNull]) without raising; the
    failure is raised afterwards, by the agent's [_parse_tool_response],
    as a [RuntimeError]. *)
Theorem no_text_block_returns_none (py : pylib) (env : environment)
    server tool args h resp items :
  existsb (String.eqb server) servers = true ->
  tool_reply env h server tool args = Received resp ->
  iterate (get_or (rpc_result resp) "content" (JArr [])) = Ok items ->
  Forall (fun c => is_text_block c = Ok false) items ->
  extract_text_content resp = Ok JNull
  /\ call_tool env server tool args h
     = (Ok JNull, (h ++ [EvToolCall server tool args])%list)
  /\ _parse_tool_response py JNull = Raise (RuntimeError "Tool returned no content").
Proof.
  intros Hs Hr Hi Hn.
  assert (Hx : extract_text_content resp = Ok JNull).
  { unfold extract_text_content. rewrite Hi, (text_blocks_none _ Hn). reflexivity. }
  split; [exact Hx|]. split; [|reflexivity].
  rewrite (call_tool_received _ _ _ _ _ _ Hs Hr). now rewrite Hx.
Qed.

Lemma no_text_block_returns_none_witness :
  extract_text_content (RpcResult [("content", JArr [JObj [("type", JStr "image")]])]) = Ok JNull
  /\ call_tool env_image "jira" "create_ticket" [] []
     = (Ok JNull, [EvToolCall "jira" "create_ticket" []])
  /\ _parse_tool_response example_py JNull = Raise (RuntimeError "Tool returned no content").
Proof.
  apply (no_text_block_returns_none example_py env_image "jira" "create_ticket" [] []
           (RpcResult [("content", JArr [JObj [("type", JStr "image")]])])
           [JObj [("type", JStr "image")]]).
  - reflexivity.
  - reflexivity.
  - reflexivity.
  - repeat constructor.
Defined.

(** Scenario D on the code: the facade returns [None], it does not fail. *)
Lemma scenario_D_returns_none :
  call_tool env_image "jira" "create_ticket" [] []
  = (Ok JNull, [EvToolCall "jira" "create_ticket" []]).
Proof. reflexivity. Qed.

(* ================================================================= *)
(** ** The rule-based analysis *)

Lemma rbind_ok {A B} (r : result A) (k : A -> result B) b :
  rbind r k = Ok b -> exists a, r = Ok a /\ k a = Ok b.
Proof. destruct r as [a|e]; simpl; [eauto | discriminate]. Qed.

Ltac rbind_inv H :=
  let x := fresh "x" in
  let E := fresh "E" in
  apply rbind_ok in H; destruct H as [x [E H]].

(** The shape of every result of the rules. *)
Lemma rule_based_shape py alert logs cmdb a :
  _rule_based_analysis py alert logs (JObj cmdb) = Ok a ->
  exists p desc,
    lookup_priority (severity alert) (get_or cmdb "criticality" (JStr "Medium")) = Ok p
    /\ a = JObj [ ("priority", JStr p);
                  ("root_cause", JStr ("Alert triggered: " ++ message alert));
                  ("summary", JStr (severity alert ++ " Alert: " ++ str_take 50 (message alert)
                                    ++ " on " ++ host alert));
                  ("description", JStr desc);
                  ("issue_type", JStr "Task") ].
Proof.
  unfold _rule_based_analysis. simpl rbind. intros H.
  rbind_inv H. do 6 (rbind_inv H). inversion H; subst a. eauto.
Qed.




Lemma count_errors_ok entries :
  Forall log_entry_ok entries -> exists n, count_errors entries = Ok n.
Proof.
  induction 1 as [|v rest [d [-> Hm]] _ [n IH]]; [now exists 0%nat|].
  cbn [count_errors as_dict rbind]. unfold get_or.
  destruct Hm as [Hm|[m Hm]]; rewrite Hm; cbn [lower_of rbind]; rewrite IH;
    cbn [rbind]; eauto.
Qed.

Lemma log_lines_ok py entries :
  Forall log_entry_ok entries -> exists ls, log_lines py entries = Ok ls.
Proof.
  induction 1 as [|v rest [d [-> Hm]] _ [ls IH]]; [now exists []|].
  cbn [log_lines]. unfold log_line. cbn [as_dict rbind]. unfold get_or at 1.
  destruct Hm as [Hm|[m Hm]]; rewrite Hm; cbn [slice_to rbind]; rewrite IH;
    cbn [rbind]; eauto.
Qed.

Lemma Forall_first {A} (P : A -> Prop) n : forall l, Forall P l -> Forall P (firstn n l).
Proof.
  induction n as [|n IH]; intros l H; [constructor|].
  destruct H; simpl; constructor; auto.
Qed.

Lemma str_items_ok deps : forall i, str_items i (map JStr deps) = Ok deps.
Proof.
  induction deps as [|s deps IH]; intros i; [reflexivity|].
  cbn [map str_items]. rewrite IH. reflexivity.
Qed.

(** On log entries and enrichment data of the expected shape the rules
    return. *)
Lemma rule_based_returns py alert entries cmdb :
  Forall log_entry_ok entries -> enrichment_ok cmdb ->
  exists a, _rule_based_analysis py alert (JArr entries) (JObj cmdb) = Ok a.
Proof.
  intros Hl [Hc [deps Hd]]. unfold _rule_based_analysis.
  cbn [as_dict rbind]. unfold lookup_priority. rewrite Hc. cbn [rbind iterate].
  destruct (count_errors_ok _ Hl) as [n Hn]. rewrite Hn. cbn [rbind slice_to iterate].
  destruct (log_lines_ok py _ (Forall_first _ 5 _ Hl)) as [ls Hs]. rewrite Hs.
  cbn [rbind]. rewrite Hd. unfold join_value. cbn [iterate rbind].
  rewrite str_items_ok. cbn [rbind]. eauto.
Qed.



(** Scenario B: no entry for the pair. *)
Example scenario_B :
  exists d,
    _rule_based_analysis example_py alert_B (JArr [])
      (JObj [("criticality", JStr "Low-equivalent-default")]) = Ok (JObj d)
    /\ lookup d "priority" = Some (JStr "Medium").
Proof. eexists. split; reflexivity. Qed.

(* ================================================================= *)
(** ** The batch scan: severity of a host *)

Lemma escalate_cases current lowered :
  escalate current lowered = "Critical" \/ escalate current lowered = "High"
  \/ escalate current lowered = current.
Proof.
  unfold escalate.
  destruct (any_in critical_keywords lowered); auto.
  destruct (any_in high_keywords lowered); auto.
Qed.

Lemma escalate_stated current raw :
  escalate current (lower raw)
  = match stated_rule raw with Some s => s | None => current end.
Proof.
  unfold escalate, stated_rule, critical_keywords, high_keywords.
  destruct (any_in _ (lower raw)); [reflexivity|].
  destruct (any_in _ (lower raw)); reflexivity.
Qed.

Lemma last_match_snoc raws raw :
  last_match_severity (raws ++ [raw])
  = match stated_rule raw with Some s => s | None => last_match_severity raws end.
Proof.
  unfold last_match_severity. rewrite rev_app_distr. cbn [rev app find].
  unfold matches_a_rule at 1.
  destruct (stated_rule raw) as [s|] eqn:E; cbv beta iota; [now rewrite E|reflexivity].
Qed.

(** The fold of the loop body over the texts of a host is the severity of
    the last match. *)
Lemma severity_after_last_match raws : severity_after raws = last_match_severity raws.
Proof.
  induction raws as [|raw raws IH] using rev_ind; [reflexivity|].
  unfold severity_after in *. rewrite fold_left_app, last_match_snoc. cbn [fold_left].
  rewrite escalate_stated, IH. reflexivity.
Qed.

Lemma last_match_no_rule later : forall raws,
  Forall (fun raw => stated_rule raw = None) later ->
  last_match_severity (raws ++ later) = last_match_severity raws.
Proof.
  induction later as [|raw later IH] using rev_ind; intros raws H.
  - now rewrite app_nil_r.
  - apply Forall_app in H. destruct H as [H1 H2]. inversion H2 as [|x l Hx Hl]; subst.
    rewrite app_assoc, last_match_snoc, Hx. now apply IH.
Qed.

Lemma stated_rule_range raw s :
  stated_rule raw = Some s -> s = "Critical" \/ s = "High".
Proof.
  unfold stated_rule. destruct (any_in _ _); [intros H; injection H as <-; now left|].
  destruct (any_in _ _); [intros H; injection H as <-; now right|discriminate].
Qed.

Lemma last_match_from_high later : forall raws,
  last_match_severity raws = "High" \/ last_match_severity raws = "Critical" ->
  last_match_severity (raws ++ later) = "High"
  \/ last_match_severity (raws ++ later) = "Critical".
Proof.
  induction later as [|raw later IH] using rev_ind; intros raws H.
  - now rewrite app_nil_r.
  - rewrite app_assoc, last_match_snoc.
    destruct (stated_rule raw) as [s|] eqn:E; [|now apply IH].
    destruct (stated_rule_range _ _ E) as [-> | ->]; auto.
Qed.

Lemma key_eqb_refl k : hashable k = true -> key_eqb k k = true.
Proof.
  destruct k; simpl; intros H; try discriminate; auto.
  - destruct b; reflexivity.
  - apply Z.eqb_refl.
  - apply String.eqb_refl.
Qed.

Lemma key_eqb_sym a b : key_eqb a b = key_eqb b a.
Proof.
  destruct a, b; simpl; auto.
  - destruct b, b0; reflexivity.
  - apply Z.eqb_sym.
  - apply String.eqb_sym.
Qed.

(** Two equal keys are equal to the same keys. *)
Lemma key_eqb_cong a b c : key_eqb a b = true -> key_eqb a c = key_eqb b c.
Proof.
  destruct a, b, c; cbn [key_eqb]; try discriminate; try reflexivity; intros H;
    try (apply Z.eqb_eq in H); try (apply String.eqb_eq in H);
    try (apply Bool.eqb_prop in H); subst; try reflexivity;
    repeat match goal with x : bool |- _ => destruct x end; try reflexivity.
Qed.

Section Rows.
Variable f : host_data -> host_data.

Lemma table_mem_row k t :
  table_mem k t = match row_of k t with Some _ => true | None => false end.
Proof.
  induction t as [|[k' r] t IH]; [reflexivity|].
  cbn [table_mem row_of]. destruct (key_eqb k k'); [reflexivity|exact IH].
Qed.

Lemma table_mem_cong k k' t : key_eqb k' k = true -> table_mem k' t = table_mem k t.
Proof.
  intros Hk. induction t as [|[k0 r] t IH]; [reflexivity|].
  cbn [table_mem]. now rewrite (key_eqb_cong _ _ k0 Hk), IH.
Qed.

Lemma row_of_update k k' t :
  key_eqb k' k = true -> row_of k (table_update k' f t) = option_map f (row_of k t).
Proof.
  intros Hk. induction t as [|[k0 r] t IH]; [reflexivity|].
  cbn [table_update row_of]. rewrite (key_eqb_cong _ _ k0 Hk).
  destruct (key_eqb k k0) eqn:E; cbn [row_of]; rewrite E; [reflexivity|exact IH].
Qed.

Lemma row_of_update_other k k' t :
  key_eqb k' k = false -> row_of k (table_update k' f t) = row_of k t.
Proof.
  intros Hk. induction t as [|[k0 r] t IH]; [reflexivity|].
  cbn [table_update row_of]. destruct (key_eqb k' k0) eqn:E; cbn [row_of].
  - destruct (key_eqb k k0) eqn:E'; [|reflexivity].
    exfalso. rewrite (key_eqb_cong _ _ k E), key_eqb_sym, E' in Hk. discriminate.
  - destruct (key_eqb k k0); [reflexivity|exact IH].
Qed.

Lemma row_of_app k k' r t :
  row_of k (t ++ [(k', r)])%list
  = match row_of k t with
    | Some x => Some x
    | None => if key_eqb k k' then Some r else None
    end.
Proof.
  induction t as [|[k0 r0] t IH]; [reflexivity|].
  cbn [app row_of]. destruct (key_eqb k k0); [reflexivity|exact IH].
Qed.

End Rows.

(** An event of another host leaves the record of [k] as it is. *)
Lemma scan_event_other t k host_ lowered m fresh :
  key_eqb host_ k = false ->
  host_state k
    (table_update host_ (set_severity lowered)
       (table_update host_ (count_and_append m)
          (if table_mem host_ t then t else (t ++ [(host_, fresh)])%list)))
  = host_state k t.
Proof.
  intros Hk. unfold host_state.
  rewrite !row_of_update_other by exact Hk.
  destruct (table_mem host_ t); [reflexivity|].
  rewrite row_of_app. destruct (row_of k t); [reflexivity|].
  now rewrite key_eqb_sym, Hk.
Qed.

(** An event of the host [k] is one more step of its record. *)
Lemma scan_event_same t k host_ raw m fresh :
  key_eqb host_ k = true ->
  hd_severity fresh = "Medium" -> hd_error_count fresh = 0%nat ->
  host_state k
    (table_update host_ (set_severity (lower raw))
       (table_update host_ (count_and_append m)
          (if table_mem host_ t then t else (t ++ [(host_, fresh)])%list)))
  = host_step (host_state k t) raw.
Proof.
  intros Hk Hs Hc. unfold host_state.
  rewrite !row_of_update by exact Hk.
  rewrite (table_mem_cong _ _ _ Hk), table_mem_row.
  destruct (row_of k t) as [r|] eqn:R.
  - rewrite R. reflexivity.
  - rewrite row_of_app, R, key_eqb_sym, Hk.
    unfold host_step. cbn [option_map set_severity count_and_append hd_severity
                           hd_error_count state_severity state_count].
    now rewrite Hs, Hc.
Qed.

(** What one event does to the record of the host [k]. *)
Lemma scan_event_host now_iso t event t' k :
  scan_event now_iso t event = Ok t' ->
  host_state k t' = fold_left host_step (raws_of k [event]) (host_state k t).
Proof.
  unfold scan_event. intros H.
  apply rbind_ok in H. destruct H as [d [Hd H]].
  destruct event as [| | | | |d0]; try discriminate. injection Hd as ->.
  unfold raws_of. cbn [flat_map]. rewrite app_nil_r.
  remember (get_or d "host" (JStr "unknown")) as host_ eqn:Hhost.
  destruct (hashable host_) eqn:Hh; [|discriminate].
  cbv zeta in H.
  apply rbind_ok in H. destruct H as [m [Hm H]].
  apply rbind_ok in H. destruct H as [low [Hl H]].
  injection H as <-.
  destruct (get_or d "_raw" (JStr EmptyString)) as [| | |raw| |] eqn:Hraw;
    try discriminate Hl.
  injection Hl as <-.
  destruct (key_eqb host_ k) eqn:Hk; cbn [fold_left].
  - now apply scan_event_same.
  - now apply scan_event_other.
Qed.

Lemma raws_of_cons k event events :
  raws_of k (event :: events) = (raws_of k [event] ++ raws_of k events)%list.
Proof. unfold raws_of. cbn [flat_map]. now rewrite app_nil_r. Qed.

Lemma scan_events_host now_iso k : forall events t t',
  scan_events now_iso t events = Ok t' ->
  host_state k t' = fold_left host_step (raws_of k events) (host_state k t).
Proof.
  induction events as [|event events IH]; intros t t' H.
  - cbn [scan_events] in H. injection H as <-. reflexivity.
  - cbn [scan_events] in H. apply rbind_ok in H. destruct H as [t1 [E1 H]].
    rewrite raws_of_cons, fold_left_app, <- (scan_event_host _ _ _ _ _ E1). now apply IH.
Qed.

Lemma fold_host_step : forall raws st,
  raws <> [] ->
  fold_left host_step raws st
  = Some (fold_left (fun cur raw => escalate cur (lower raw)) raws (state_severity st),
          (state_count st + List.length raws)%nat).
Proof.
  induction raws as [|raw raws IH]; intros st Hne; [congruence|].
  cbn [fold_left]. destruct raws as [|raw2 raws].
  - cbn [fold_left List.length]. unfold host_step. f_equal. f_equal. lia.
  - rewrite IH by discriminate. unfold host_step at 1 2.
    cbn [state_severity state_count List.length]. f_equal. f_equal. lia.
Qed.

(** C3, as the code has it: after a scan of the events of any number of
    hosts, a host has a record exactly when it has an event, and the
    severity of the record is the one set by the last of its events that
    matches a rule: Critical for critical, fatal, panic or outage, else
    High for high, severe or major, and Medium when no event matches.  So
    an event matching no rule leaves the severity as it is and a host at
    High is never lowered, but an event that matches only the High rule
    sets the host to High whatever it was, Critical included. *)
Theorem host_severity_is_last_match (now_iso : string) (host_ : json) events t :
  scan_events now_iso [] events = Ok t ->
  match row_of host_ t with
  | Some r =>
      raws_of host_ events <> []
      /\ hd_severity r = last_match_severity (raws_of host_ events)
      /\ hd_error_count r = List.length (raws_of host_ events)
  | None => raws_of host_ events = []
  end
  /\ (forall raws raw s,
        stated_rule raw = Some s -> last_match_severity (raws ++ [raw]) = s)
  /\ (forall raws later,
        Forall (fun raw => stated_rule raw = None) later ->
        last_match_severity (raws ++ later) = last_match_severity raws)
  /\ (forall raws later,
        last_match_severity raws = "High" ->
        last_match_severity (raws ++ later) = "High"
        \/ last_match_severity (raws ++ later) = "Critical")
  /\ (forall raws,
        Forall (fun raw => stated_rule raw = None) raws ->
        last_match_severity raws = "Medium").
Proof.
  intros H. split; [|split; [|split; [|split]]].
  - pose proof (scan_events_host now_iso host_ events [] t H) as Hs.
    change (host_state host_ []) with (@None (string * nat)) in Hs.
    unfold host_state in Hs.
    destruct (raws_of host_ events) as [|raw raws] eqn:Hr.
    + cbn [fold_left] in Hs. destruct (row_of host_ t); [discriminate|reflexivity].
    + rewrite fold_host_step in Hs by discriminate.
      destruct (row_of host_ t) as [r|]; [|discriminate].
      cbn [option_map state_severity state_count] in Hs. injection Hs as Hsev Hcnt.
      split; [discriminate|]. split; [|exact Hcnt].
      rewrite Hsev. exact (severity_after_last_match (raw :: raws)).
  - intros raws raw s Hs. now rewrite last_match_snoc, Hs.
  - intros raws later Hl. now apply last_match_no_rule.
  - intros raws later Hh. apply last_match_from_high. now left.
  - intros raws Hn. apply (last_match_no_rule raws []). exact Hn.
Qed.

(** Scenario C with a second host in between: the later event of h1
    matches no rule. *)
Lemma host_severity_is_last_match_witness :
  exists t r,
    scan_events "2025-01-01T00:00:00" []
      [event_of "h1" "fatal outage"; event_of "h2" "disk full";
       event_of "h1" "minor notice"] = Ok t
    /\ row_of (JStr "h1") t = Some r
    /\ hd_severity r = "Critical"
    /\ hd_error_count r = 2%nat.
Proof.
  destruct (scan_events "2025-01-01T00:00:00" []
              [event_of "h1" "fatal outage"; event_of "h2" "disk full";
               event_of "h1" "minor notice"]) as [t|e] eqn:E;
    [|vm_compute in E; discriminate].
  destruct (host_severity_is_last_match "2025-01-01T00:00:00" (JStr "h1") _ t E)
    as [H _].
  destruct (row_of (JStr "h1") t) as [r|] eqn:R; [|vm_compute in H; discriminate].
  destruct H as [_ [Hs Hc]].
  exists t, r. split; [reflexivity|]. split; [exact R|].
  split; [rewrite Hs|rewrite Hc]; reflexivity.
Defined.

(** A host set to Critical by a first event is lowered to High by a later
    event that matches the High rule only. *)
Lemma critical_host_lowered_to_high :
  matches_critical "high load" = false
  /\ option_map (map (fun kv => hd_severity (snd kv)))
       (match scan_events "2025-01-01T00:00:00" [] [event_of "h1" "fatal outage"]
        with Ok t => Some t | Raise _ => None end) = Some ["Critical"]
  /\ option_map (map (fun kv => hd_severity (snd kv)))
       (match scan_events "2025-01-01T00:00:00" []
                [event_of "h1" "fatal outage"; event_of "h1" "high load"]
        with Ok t => Some t | Raise _ => None end) = Some ["High"].
Proof. repeat split; reflexivity. Qed.

(* ================================================================= *)
(** ** The steps of the pipeline *)

Lemma total_emits {A} (P : event -> Prop) (m : M A) :
  total m -> emits P m ->
  forall h, exists a new, m h = (Ok a, (h ++ new)%list) /\ Forall P new.
Proof.
  intros Ht He h. destruct (Ht h) as [a [h1 E]]. destruct (He h) as [n [E1 F]].
  rewrite E in E1. simpl in E1. subst h1. eauto.
Qed.

Section Steps.
Variable py : pylib.
Variable env : environment.
Variable self : AITTAgent.

Lemma log_activity_eq aid action detail status h :
  log_activity env aid action detail status h
  = (Ok tt, (h ++ [EvActivity (now env h) aid action detail status])%list).
Proof. reflexivity. Qed.

Lemma total_log_activity aid action detail status :
  total (log_activity env aid action detail status).
Proof. intros h. rewrite log_activity_eq. eauto. Qed.

Lemma emits_log_activity (P : event -> Prop) aid action detail status :
  (forall ts, P (EvActivity ts aid action detail status)) ->
  emits P (log_activity env aid action detail status).
Proof. intros HP h. rewrite log_activity_eq. eexists. simpl. split; [reflexivity|]. auto. Qed.

End Steps.

(** Goals [emits P m] follow the structure of [m]. *)
Ltac emits_step :=
  lazymatch goal with
  | |- emits _ (bind _ _) => apply emits_bind; [|intros ?]
  | |- emits _ (try_except _ _) => apply emits_try; [|intros ?]
  | |- emits _ (ret _) => apply emits_ret
  | |- emits _ (raise _) => apply emits_raise
  | |- emits _ (lift _) => apply emits_lift
  | |- emits _ history => apply emits_history
  | |- emits _ (emit _) => apply emits_emit
  | |- emits _ (call_tool _ _ _ _) => apply emits_call_tool
  | |- emits _ (log_activity _ _ _ _ _) => apply emits_log_activity; intros ?
  | |- emits _ (match ?x with _ => _ end) => destruct x
  end.

Ltac emits_tac := repeat emits_step.

Section Pipeline.
Variable py : pylib.
Variable env : environment.
Variable self : AITTAgent.

Lemma total_retrieve_logs alert : total (_retrieve_logs py env self alert).
Proof.
  apply total_try. intros e. apply total_bind; [apply total_log_activity|].
  intros _. apply total_ret.
Qed.

Lemma total_enrich alert logs : total (_enrich_with_cmdb py env alert logs).
Proof.
  apply total_try. intros e. apply total_bind; [apply total_log_activity|].
  intros _. apply total_ret.
Qed.

Lemma total_analyze alert logs cmdb : total (_analyze_incident py env self alert logs cmdb).
Proof. apply total_try. intros e. apply total_ret. Qed.

Lemma total_servicenow alert analysis :
  total (_create_servicenow_incident py env alert analysis).
Proof. apply total_try. intros e. apply total_log_activity. Qed.

Lemma early_retrieve_logs alert : emits early (_retrieve_logs py env self alert).
Proof. unfold _retrieve_logs. emits_tac; reflexivity. Qed.

Lemma early_enrich alert logs : emits early (_enrich_with_cmdb py env alert logs).
Proof.
  unfold _enrich_with_cmdb, enrich_failed.
  emits_tac; reflexivity.
Qed.

Lemma early_analyze alert logs cmdb :
  emits early (_analyze_incident py env self alert logs cmdb).
Proof.
  unfold _analyze_incident, selected_analysis, _llm_analysis.
  emits_tac; reflexivity.
Qed.

Lemma early_jira alert analysis :
  emits early (_create_jira_ticket py env self alert analysis).
Proof. unfold _create_jira_ticket. emits_tac; reflexivity. Qed.

End Pipeline.

Lemma bind_lift {A B} (r : result A) (k : A -> M B) h :
  bind (lift r) k h = match r with Ok a => k a h | Raise e => (Raise e, h) end.
Proof. unfold bind, lift. destruct r; reflexivity. Qed.

Lemma bind_history {B} (k : trace -> M B) h : bind history k h = k h h.
Proof. reflexivity. Qed.

Lemma bind_log_activity {B} env aid action detail status (k : unit -> M B) h :
  bind (log_activity env aid action detail status) k h
  = k tt (h ++ [EvActivity (now env h) aid action detail status])%list.
Proof. reflexivity. Qed.

(* ================================================================= *)
(** ** Ticket creation is the fatal step *)

Section Fatal.
Variable py : pylib.
Variable env : environment.
Variable self : AITTAgent.

Hypothesis jira_down :
  forall h args, call_fails (tool_reply env h "jira" "create_ticket" args).



End Fatal.


(* ================================================================= *)
(** ** Steps whose failure is recovered *)

Section Marks.
Context {A B : Type} (Q : event -> Prop).

Lemma marks_left (m : M A) (k : A -> M B) :
  marks Q m -> (forall a, emits any_event (k a)) -> marks Q (bind m k).
Proof.
  intros Hm Hk h. unfold bind.
  destruct (Hm h) as [n1 [E1 X1]].
  destruct (m h) as [[a|e] h1]; simpl in E1; subst h1.
  - destruct (Hk a (h ++ n1)%list) as [n2 [E2 _]].
    exists (n1 ++ n2)%list. rewrite E2, app_assoc. split; auto.
    intros _ _. apply Exists_app. left. eapply X1. reflexivity.
  - exists n1. simpl. split; auto. discriminate.
Qed.

Lemma marks_right (m : M A) (k : A -> M B) :
  emits any_event m -> (forall a, marks Q (k a)) -> marks Q (bind m k).
Proof.
  intros Hm Hk h. unfold bind.
  destruct (Hm h) as [n1 [E1 _]].
  destruct (m h) as [[a|e] h1]; simpl in E1; subst h1.
  - destruct (Hk a (h ++ n1)%list) as [n2 [E2 X2]].
    exists (n1 ++ n2)%list. rewrite E2, app_assoc. split; auto.
    intros b Hb. apply Exists_app. right. eauto.
  - exists n1. simpl. split; auto. discriminate.
Qed.

Lemma always_marks_try (m : M A) (k : exn -> M A) :
  marks Q m -> (forall e, always_marks Q (k e)) -> always_marks Q (try_except m k).
Proof.
  intros Hm Hk h. unfold try_except.
  destruct (Hm h) as [n1 [E1 X1]].
  destruct (m h) as [[a|e] h1]; simpl in E1; subst h1.
  - exists n1. simpl. split; auto. eapply X1. reflexivity.
  - destruct (Hk e (h ++ n1)%list) as [n2 [E2 X2]].
    exists (n1 ++ n2)%list. rewrite E2, app_assoc. split; auto.
    apply Exists_app. now right.
Qed.

Lemma always_marks_left (m : M A) (k : A -> M B) :
  always_marks Q m -> (forall a, emits any_event (k a)) -> always_marks Q (bind m k).
Proof.
  intros Hm Hk h. unfold bind.
  destruct (Hm h) as [n1 [E1 X1]].
  destruct (m h) as [[a|e] h1]; simpl in E1; subst h1.
  - destruct (Hk a (h ++ n1)%list) as [n2 [E2 _]].
    exists (n1 ++ n2)%list. rewrite E2, app_assoc. split; auto.
    apply Exists_app. now left.
  - exists n1. auto.
Qed.

Lemma always_marks_right (m : M A) (k : A -> M B) :
  total m -> emits any_event m -> (forall a, always_marks Q (k a)) ->
  always_marks Q (bind m k).
Proof.
  intros Ht Hm Hk h.
  destruct (total_emits _ _ Ht Hm h) as [a [n1 [E1 _]]].
  rewrite (bind_ok _ _ _ _ _ E1).
  destruct (Hk a (h ++ n1)%list) as [n2 [E2 X2]].
  exists (n1 ++ n2)%list. rewrite E2, app_assoc. split; auto.
  apply Exists_app. now right.
Qed.

End Marks.

Lemma early_any {A} (m : M A) : emits early m -> emits any_event m.
Proof. apply emits_weaken. intros; exact I. Qed.

Section Recovery.
Variable py : pylib.
Variable env : environment.
Variable self : AITTAgent.

Lemma any_servicenow alert analysis :
  emits any_event (_create_servicenow_incident py env alert analysis).
Proof. unfold _create_servicenow_incident. emits_tac; exact I. Qed.

Lemma any_save alert analysis ticket :
  emits any_event (_save_ticket_record env alert analysis ticket).
Proof. unfold _save_ticket_record. emits_tac; exact I. Qed.

Lemma jira_marks alert analysis :
  always_marks (ticket_step_entry (alert_id alert))
    (_create_jira_ticket py env self alert analysis).
Proof.
  unfold _create_jira_ticket. apply always_marks_try.
  - do 3 (apply marks_right; [apply emits_lift|intros ?]).
    cbv zeta.
    apply marks_right; [apply emits_call_tool; exact I|intros ?].
    do 2 (apply marks_right; [apply emits_lift|intros ?]).
    apply marks_right; [apply emits_history|intros ?].
    apply marks_left; [|intros; emits_tac].
    intros h. rewrite log_activity_eq. eexists. split; [reflexivity|].
    intros _ _. constructor. unfold ticket_step_entry. eauto.
  - intros e. apply always_marks_left; [|intros; apply emits_raise].
    intros h. rewrite log_activity_eq. eexists. split; [reflexivity|].
    constructor. unfold ticket_step_entry. eauto 6.
Qed.

(** Whatever the earlier steps met, the pipeline gets to ticket creation. *)
Lemma from_jira_marks alert analysis :
  always_marks (ticket_step_entry (alert_id alert))
    (ticket <- _create_jira_ticket py env self alert analysis ;;
     _create_servicenow_incident py env alert analysis ;;;
     _save_ticket_record env alert analysis ticket ;;;
     ret ticket).
Proof.
  apply always_marks_left; [apply jira_marks|]. intros ticket.
  apply emits_bind; [apply any_servicenow|intros _].
  apply emits_bind; [apply any_save|intros _]. apply emits_ret.
Qed.

Lemma from_analysis_marks alert logs cmdb :
  always_marks (ticket_step_entry (alert_id alert))
    (analysis <- _analyze_incident py env self alert logs cmdb ;;
     ticket <- _create_jira_ticket py env self alert analysis ;;
     _create_servicenow_incident py env alert analysis ;;;
     _save_ticket_record env alert analysis ticket ;;;
     ret ticket).
Proof.
  apply always_marks_right;
    [apply total_analyze|apply early_any, early_analyze|intros analysis].
  apply from_jira_marks.
Qed.

Lemma from_enrich_marks alert logs :
  always_marks (ticket_step_entry (alert_id alert))
    (cmdb_data <- _enrich_with_cmdb py env alert logs ;;
     analysis <- _analyze_incident py env self alert logs cmdb_data ;;
     ticket <- _create_jira_ticket py env self alert analysis ;;
     _create_servicenow_incident py env alert analysis ;;;
     _save_ticket_record env alert analysis ticket ;;;
     ret ticket).
Proof.
  apply always_marks_right;
    [apply total_enrich|apply early_any, early_enrich|intros cmdb].
  apply from_analysis_marks.
Qed.

Lemma process_alert_marks alert :
  always_marks (ticket_step_entry (alert_id alert)) (process_alert py env self alert).
Proof.
  unfold process_alert.
  apply always_marks_right;
    [apply total_log_activity|apply emits_log_activity; intros; exact I|intros _].
  apply always_marks_right;
    [apply total_retrieve_logs|apply early_any, early_retrieve_logs|intros logs].
  apply from_enrich_marks.
Qed.

End Recovery.

Section LogsDown.
Variable py : pylib.
Variable env : environment.
Variable self : AITTAgent.

Hypothesis splunk_down :
  forall h args, call_fails (tool_reply env h "splunk" "query_logs" args).



End LogsDown.


(* ================================================================= *)
(** ** The analysis step *)

Section Analysis.
Variable py : pylib.
Variable env : environment.

(** What [_analyze_incident] makes of the outcome of the strategy. *)
Lemma analyze_of_outcome self alert logs cmdb h r h1 :
  selected_analysis py env self alert logs cmdb h = (r, h1) ->
  _analyze_incident py env self alert logs cmdb h
  = match r with
    | Ok (JObj d) =>
        (Ok d, (h1 ++ [EvActivity (now env h1) (alert_id alert) "Analysis Complete"
                         ("Priority: " ++ to_str py (get_or d "priority" (JStr "Unknown"))
                          ++ ", Root cause identified") "complete"])%list)
    | _ => (Ok (fallback_analysis alert), h1)
    end.
Proof.
  intros E. unfold _analyze_incident, try_except, bind. rewrite E.
  destruct r as [[| | | | |d]|e]; reflexivity.
Qed.

Lemma fallback_valid alert : analysis_valid (fallback_analysis alert).
Proof. unfold analysis_valid, fallback_analysis. simpl. eauto 7. Qed.

(** A failure of the provider, or of the parsing of its answer, stays
    inside the LLM strategy: it gives what the rules give. *)
Lemma llm_failure_gives_rules self alert logs cmdb h prompt :
  analysis_prompt py alert logs cmdb = Ok prompt ->
  llm_failed py self (llm_reply env h prompt) ->
  _llm_analysis py env self alert logs cmdb h
  = (_rule_based_analysis py alert logs cmdb, (h ++ [EvLLM prompt])%list).
Proof.
  intros Hp Hf. unfold _llm_analysis.
  rewrite bind_lift, Hp, bind_history. unfold bind at 1. unfold emit.
  destruct (llm_reply env h prompt) as [text|e]; cbn [llm_failed] in Hf.
  - destruct Hf as [je Hje].
    unfold try_except, lift, parse_llm_reply. rewrite Hje. reflexivity.
  - reflexivity.
Qed.

(** C5, as the code has it: the analysis step never raises.  A failure of
    the provider or of the parsing of its answer is absorbed inside the
    LLM strategy, which then gives the rule-based analysis, not the minimal
    one.  When the strategy the step runs raises, or returns something that
    is no dict, the step returns the minimal analysis made of the alert's
    severity, host and message. *)
Theorem analysis_never_raises self alert logs cmdb h :
  (exists d h', _analyze_incident py env self alert logs cmdb h = (Ok d, h'))
  /\ (forall e h',
        selected_analysis py env self alert logs cmdb h = (Raise e, h') ->
        _analyze_incident py env self alert logs cmdb h
        = (Ok (fallback_analysis alert), h'))
  /\ (forall v h',
        selected_analysis py env self alert logs cmdb h = (Ok v, h') ->
        (forall d, v <> JObj d) ->
        _analyze_incident py env self alert logs cmdb h
        = (Ok (fallback_analysis alert), h'))
  /\ (forall prompt,
        llm_available self = true ->
        analysis_prompt py alert logs cmdb = Ok prompt ->
        llm_failed py self (llm_reply env h prompt) ->
        selected_analysis py env self alert logs cmdb h
        = (_rule_based_analysis py alert logs cmdb, (h ++ [EvLLM prompt])%list))
  /\ (forall e,
        llm_available self = true ->
        analysis_prompt py alert logs cmdb = Raise e ->
        selected_analysis py env self alert logs cmdb h = (Raise e, h))
  /\ (llm_available self = false ->
      selected_analysis py env self alert logs cmdb h
      = (_rule_based_analysis py alert logs cmdb, h))
  /\ lookup (fallback_analysis alert) "priority" = Some (JStr (severity alert))
  /\ lookup (fallback_analysis alert) "summary"
     = Some (JStr (severity alert ++ " alert on " ++ host alert))
  /\ lookup (fallback_analysis alert) "description" = Some (JStr (message alert)).
Proof.
  split; [apply total_analyze|].
  split; [intros e h' E; now rewrite (analyze_of_outcome _ _ _ _ _ _ _ E)|].
  split.
  { intros v h' E Hv. rewrite (analyze_of_outcome _ _ _ _ _ _ _ E).
    destruct v; try reflexivity. now elim (Hv fields). }
  split.
  { intros prompt Hl Hp Hf. unfold selected_analysis. rewrite Hl.
    now apply llm_failure_gives_rules. }
  split.
  { intros e Hl Hp. unfold selected_analysis. rewrite Hl. unfold _llm_analysis.
    now rewrite bind_lift, Hp. }
  split; [|repeat split].
  intros Hl. unfold selected_analysis. now rewrite Hl.
Qed.

End Analysis.

(** The provider cannot be reached: the analysis is the one of the rules. *)
Lemma analysis_never_raises_witness :
  llm_available llm_agent = true
  /\ exists prompt,
       analysis_prompt example_py alert_A (JArr []) (JObj []) = Ok prompt
       /\ selected_analysis example_py env_down llm_agent alert_A (JArr []) (JObj []) []
          = (_rule_based_analysis example_py alert_A (JArr []) (JObj []), [EvLLM prompt]).
Proof.
  split; [reflexivity|].
  destruct (analysis_never_raises example_py env_down llm_agent alert_A
              (JArr []) (JObj []) []) as [_ [_ [_ [H _]]]].
  destruct (analysis_prompt example_py alert_A (JArr []) (JObj [])) as [prompt|e] eqn:Hp;
    [|discriminate].
  exists prompt. split; [reflexivity|].
  apply (H prompt eq_refl eq_refl). exact I.
Defined.

(** The claim as it was stated fails where the provider cannot be reached:
    the step returns the analysis of the rules, whose priority for this
    Critical alert is High and whose description is not the message of the
    alert. *)
Lemma provider_error_gives_rules_not_fallback :
  llm_available llm_agent = true
  /\ llm_reply env_down [] "p" = LLMRaised (OtherError "ConnectionError" "connection refused")
  /\ severity alert_A = "Critical"
  /\ exists d,
       fst (_analyze_incident example_py env_down llm_agent alert_A (JArr []) (JObj []) [])
       = Ok d
       /\ lookup d "priority" = Some (JStr "High")
       /\ lookup d "description" <> Some (JStr (message alert_A))
       /\ d <> fallback_analysis alert_A.
Proof.
  split; [reflexivity|]. split; [reflexivity|]. split; [reflexivity|].
  eexists. split; [reflexivity|]. split; [reflexivity|].
  split; discriminate.
Qed.

(* ================================================================= *)
(** ** Fallback from the LLM strategy to the rules *)

Lemma rule_based_not_dict py alert logs cmdb :
  (forall d, cmdb <> JObj d) -> exists e, _rule_based_analysis py alert logs cmdb = Raise e.
Proof.
  intros H. unfold _rule_based_analysis.
  destruct cmdb; try (eexists; reflexivity). now elim (H fields).
Qed.

(** Where the prompt cannot be built, the rules raise as well. *)
Lemma prompt_raises_rules_raise py alert logs cmdb e :
  analysis_prompt py alert logs cmdb = Raise e ->
  exists e', _rule_based_analysis py alert logs cmdb = Raise e'.
Proof.
  intros Hp.
  destruct cmdb as [| | | | |c];
    try (apply rule_based_not_dict; intros d; discriminate).
  unfold _rule_based_analysis. cbn [as_dict rbind].
  destruct (lookup_priority _ _) as [p|e1]; [|eexists; reflexivity].
  cbn [rbind].
  destruct logs as [| | |s|l|d]; try (eexists; reflexivity).
  - (* a string: the prompt is built *)
    exfalso. unfold analysis_prompt in Hp.
    cbn [len slice_to rbind as_dict] in Hp. discriminate.
  - exfalso. unfold analysis_prompt in Hp.
    cbn [len slice_to rbind as_dict] in Hp. discriminate.
  - (* a dict: its keys are no log entries, and it cannot be sliced *)
    cbn [iterate rbind]. destruct d as [|[k v] d].
    + cbn [map count_errors rbind slice_to]. eexists; reflexivity.
    + cbn [map fst count_errors as_dict rbind]. eexists; reflexivity.
Qed.

Section Fallback.
Variable py : pylib.
Variable env : environment.
Variable cfg : Config.

Hypothesis provider_fails :
  forall h prompt, llm_failed py (llm_configured cfg) (llm_reply env h prompt).

Lemma llm_analysis_falls_back alert logs cmdb h prompt :
  analysis_prompt py alert logs cmdb = Ok prompt ->
  _llm_analysis py env (llm_configured cfg) alert logs cmdb h
  = (_rule_based_analysis py alert logs cmdb, (h ++ [EvLLM prompt])%list).
Proof.
  intros Hp. apply llm_failure_gives_rules; [exact Hp|apply provider_fails].
Qed.

Lemma llm_analysis_no_prompt alert logs cmdb h e :
  analysis_prompt py alert logs cmdb = Raise e ->
  _llm_analysis py env (llm_configured cfg) alert logs cmdb h = (Raise e, h).
Proof. intros Hp. unfold _llm_analysis. now rewrite bind_lift, Hp. Qed.

Lemma rule_based_is_a_result alert logs cmdb d :
  _rule_based_analysis py alert logs cmdb = Ok (JObj d) -> analysis_result d.
Proof.
  intros Hr. destruct cmdb as [| | | | |c]; try discriminate.
  destruct (rule_based_shape _ _ _ _ _ Hr) as [p [desc [_ Ha]]].
  injection Ha as ->. unfold analysis_result, optional_text.
  cbn [lookup String.eqb Ascii.eqb Bool.eqb].
  repeat split; eauto.
Qed.

Lemma fallback_is_no_result alert :
  lookup (fallback_analysis alert) "root_cause" = None
  /\ ~ analysis_result (fallback_analysis alert).
Proof.
  assert (H : lookup (fallback_analysis alert) "root_cause" = None) by reflexivity.
  split; [exact H|]. intros [_ [[r Hr] _]]. rewrite H in Hr. discriminate.
Qed.

(** C6, as the code has it: when the provider raises or its text is no
    JSON, the analysis the LLM configuration returns is the one the rules
    configuration returns on the same inputs, and [_llm_analysis] itself
    gives back what [_rule_based_analysis] gives.  When the rules return,
    as they do on well-formed logs and enrichment data, that analysis is
    theirs and has the fields of an [AnalysisResult]; when the rules raise,
    it is the minimal analysis, which has no root cause. *)
Theorem llm_failure_equals_rules alert logs cmdb h :
  exists d,
    fst (_analyze_incident py env (llm_configured cfg) alert logs cmdb h) = Ok d
    /\ fst (_analyze_incident py env (rules_configured cfg) alert logs cmdb h) = Ok d
    /\ (forall prompt, analysis_prompt py alert logs cmdb = Ok prompt ->
          fst (_llm_analysis py env (llm_configured cfg) alert logs cmdb h)
          = _rule_based_analysis py alert logs cmdb)
    /\ (forall a, _rule_based_analysis py alert logs cmdb = Ok a ->
          a = JObj d /\ analysis_result d)
    /\ (forall e, _rule_based_analysis py alert logs cmdb = Raise e ->
          d = fallback_analysis alert
          /\ lookup d "root_cause" = None
          /\ ~ analysis_result d)
    /\ (forall entries c,
          logs = JArr entries -> cmdb = JObj c ->
          Forall log_entry_ok entries -> enrichment_ok c ->
          exists a, _rule_based_analysis py alert logs cmdb = Ok a).
Proof.
  assert (Hlast : forall prompt, analysis_prompt py alert logs cmdb = Ok prompt ->
            fst (_llm_analysis py env (llm_configured cfg) alert logs cmdb h)
            = _rule_based_analysis py alert logs cmdb).
  { intros prompt Hp. now rewrite (llm_analysis_falls_back _ _ _ _ _ Hp). }
  assert (Hret : forall entries c,
            logs = JArr entries -> cmdb = JObj c ->
            Forall log_entry_ok entries -> enrichment_ok c ->
            exists a, _rule_based_analysis py alert logs cmdb = Ok a).
  { intros entries c -> -> Hl Hc. now apply rule_based_returns. }
  assert (Hmain : exists d,
    fst (_analyze_incident py env (llm_configured cfg) alert logs cmdb h) = Ok d
    /\ fst (_analyze_incident py env (rules_configured cfg) alert logs cmdb h) = Ok d
    /\ (forall a, _rule_based_analysis py alert logs cmdb = Ok a ->
          a = JObj d /\ analysis_result d)
    /\ (forall e, _rule_based_analysis py alert logs cmdb = Raise e ->
          d = fallback_analysis alert
          /\ lookup d "root_cause" = None
          /\ ~ analysis_result d)).
  { clear Hlast Hret.
    assert (Hrules : selected_analysis py env (rules_configured cfg) alert logs cmdb h
                     = (_rule_based_analysis py alert logs cmdb, h)) by reflexivity.
    rewrite (analyze_of_outcome _ _ _ _ _ _ _ _ _ Hrules).
    assert (Hfb : forall r : result json,
              (exists e, r = Raise e) ->
              fst (match r with
                   | Ok (JObj d) =>
                       (Ok d, (h ++ [EvActivity (now env h) (alert_id alert)
                                       "Analysis Complete"
                                       ("Priority: "
                                        ++ to_str py (get_or d "priority" (JStr "Unknown"))
                                        ++ ", Root cause identified") "complete"])%list)
                   | _ => (Ok (fallback_analysis alert), h)
                   end) = Ok (fallback_analysis alert)).
    { intros r [e ->]. reflexivity. }
    destruct (analysis_prompt py alert logs cmdb) as [prompt|e] eqn:Hp.
    - assert (Hllm : selected_analysis py env (llm_configured cfg) alert logs cmdb h
                     = (_rule_based_analysis py alert logs cmdb,
                        (h ++ [EvLLM prompt])%list))
        by (apply llm_analysis_falls_back; exact Hp).
      rewrite (analyze_of_outcome _ _ _ _ _ _ _ _ _ Hllm).
      destruct (_rule_based_analysis py alert logs cmdb) as [a|e] eqn:Hr.
      + destruct cmdb as [| | | | |c]; try discriminate.
        destruct (rule_based_shape _ _ _ _ _ Hr) as [p [desc [_ Ha]]].
        rewrite Ha in Hr. rewrite Ha.
        eexists. split; [reflexivity|]. split; [reflexivity|]. split.
        * intros a' Ha'. injection Ha' as <-. split; [reflexivity|].
          exact (rule_based_is_a_result _ _ _ _ Hr).
        * discriminate.
      + exists (fallback_analysis alert).
        split; [reflexivity|]. split; [reflexivity|].
        split; [discriminate|].
        intros e1 _. split; [reflexivity|apply fallback_is_no_result].
    - assert (Hllm : selected_analysis py env (llm_configured cfg) alert logs cmdb h
                     = (Raise e, h))
        by (apply llm_analysis_no_prompt; exact Hp).
      rewrite (analyze_of_outcome _ _ _ _ _ _ _ _ _ Hllm).
      destruct (prompt_raises_rules_raise _ _ _ _ _ Hp) as [e' Hr]. rewrite Hr.
      exists (fallback_analysis alert).
      split; [reflexivity|]. split; [reflexivity|].
      split; [discriminate|].
      intros e1 _. split; [reflexivity|apply fallback_is_no_result]. }
  destruct Hmain as [d [H1 [H2 [H3 H4]]]]. exists d. auto 7.
Qed.

End Fallback.

(** The provider answers in prose. *)
Lemma llm_failure_equals_rules_witness :
  (forall h prompt, llm_failed example_py llm_agent (llm_reply env_llm_prose h prompt))
  /\ exists d,
       fst (_analyze_incident example_py env_llm_prose llm_agent alert_A
              (JArr []) (JObj []) []) = Ok d
       /\ _rule_based_analysis example_py alert_A (JArr []) (JObj []) = Ok (JObj d)
       /\ analysis_result d.
Proof.
  assert (H : forall h prompt,
             llm_failed example_py llm_agent (llm_reply env_llm_prose h prompt)).
  { intros h prompt. simpl. eexists. reflexivity. }
  split; [exact H|].
  destruct (llm_failure_equals_rules example_py env_llm_prose example_config H
              alert_A (JArr []) (JObj []) []) as [d [E1 [_ [_ [E2 _]]]]].
  exists d. split; [exact E1|].
  destruct (_rule_based_analysis example_py alert_A (JArr []) (JObj [])) as [a|e] eqn:Hr;
    [|discriminate].
  destruct (E2 a eq_refl) as [Ea Hv]. split; [now rewrite Ea|exact Hv].
Defined.

(** The claim as it was stated fails where the rules fail as well: the
    provider answers in prose and one log entry has a null message, which
    the rules cannot lower.  The rule-based strategy alone produces
    nothing, and the analysis returned is the minimal one, without the
    root cause an [AnalysisResult] has. *)
Lemma failed_rules_give_no_root_cause :
  llm_failed example_py llm_agent (llm_reply env_llm_prose [] "p")
  /\ (exists e,
        _rule_based_analysis example_py alert_A (JArr [JObj [("message", JNull)]]) (JObj [])
        = Raise e)
  /\ fst (_analyze_incident example_py env_llm_prose llm_agent alert_A
            (JArr [JObj [("message", JNull)]]) (JObj []) [])
     = Ok (fallback_analysis alert_A)
  /\ lookup (fallback_analysis alert_A) "root_cause" = None
  /\ ~ analysis_result (fallback_analysis alert_A).
Proof.
  split; [simpl; eexists; reflexivity|].
  split; [eexists; reflexivity|].
  split; [reflexivity|].
  apply fallback_is_no_result.
Qed.

(* ================================================================= *)
(** ** A ticket without an id *)

Lemma call_tool_trace env server tool args h :
  existsb (String.eqb server) servers = true ->
  exists r, call_tool env server tool args h
            = (r, (h ++ [EvToolCall server tool args])%list).
Proof.
  intros Hs. unfold call_tool. rewrite Hs. unfold bind, history, emit, lift, raise.
  destruct (tool_reply env h server tool args); eauto.
Qed.

Lemma getitem_of_lookup d k v : lookup d k = Some v -> getitem d k = Ok v.
Proof. intros H. unfold getitem. now rewrite H. Qed.

Section Placeholder.
Variable py : pylib.
Variable env : environment.
Variable self : AITTAgent.

Lemma servicenow_calls alert analysis h :
  analysis_valid analysis ->
  exists args entry,
    _create_servicenow_incident py env alert analysis h
    = (Ok tt, (h ++ [EvToolCall "cmdb" "create_incident" args; entry])%list).
Proof.
  intros [p [s [t [Hp [Hs Ht]]]]].
  unfold _create_servicenow_incident.
  match goal with |- context [try_except ?b ?k] => set (body := b); set (handler := k) end.
  assert (Hbody : exists args,
            (exists h1, body h = (Ok tt, h1)
                        /\ exists entry, h1 = (h ++ [EvToolCall "cmdb" "create_incident" args; entry])%list)
            \/ (exists e, body h = (Raise e, (h ++ [EvToolCall "cmdb" "create_incident" args])%list))).
  { subst body.
    rewrite bind_lift, (getitem_of_lookup _ _ _ Hs).
    rewrite bind_lift, (getitem_of_lookup _ _ _ Ht).
    rewrite bind_lift, (getitem_of_lookup _ _ _ Hp).
    rewrite bind_lift. cbn [_map_priority_to_urgency hashable].
    rewrite bind_lift.
    rewrite bind_lift. cbn [_map_priority_to_impact hashable].
    match goal with |- context [call_tool env "cmdb" "create_incident" ?a] =>
      exists a; destruct (call_tool_trace env "cmdb" "create_incident" a h eq_refl)
        as [r Hr] end.
    destruct r as [v|e];
      [rewrite (bind_ok _ _ _ _ _ Hr)
      |rewrite (bind_raise _ _ _ _ _ Hr); right; eexists; reflexivity].
    rewrite bind_lift. destruct (_parse_tool_response py v) as [w|e]; [|right; eexists; reflexivity].
    rewrite bind_lift. destruct (as_dict w) as [d|e]; [|right; eexists; reflexivity].
    left. rewrite log_activity_eq. eexists. split; [reflexivity|].
    eexists. rewrite <- app_assoc. reflexivity. }
  destruct Hbody as [args [[h1 [E [entry Hh]]]|[e E]]].
  - exists args, entry. unfold try_except. rewrite E. now subst h1.
  - exists args. unfold try_except. rewrite E. subst handler. cbv beta.
    rewrite log_activity_eq. eexists. rewrite <- app_assoc. reflexivity.
Qed.

Lemma save_ticket_saves alert analysis ticket h :
  analysis_valid analysis ->
  exists r saved,
    _save_ticket_record env alert analysis ticket h
    = (saved, (h ++ [EvSaveTicket r])%list)
    /\ tr_ticket_id r = ticket_id ticket
    /\ ((forall h' r', commit_ticket env h' r' = None) -> saved = Ok tt).
Proof.
  intros [p [s [t [Hp [Hs Ht]]]]].
  unfold _save_ticket_record.
  rewrite bind_lift, (getitem_of_lookup _ _ _ Hp).
  rewrite bind_lift, (getitem_of_lookup _ _ _ Hs).
  rewrite bind_lift, (getitem_of_lookup _ _ _ Ht).
  cbv zeta. rewrite bind_history. unfold bind, emit.
  match goal with |- context [commit_ticket env h ?r] =>
    exists r; destruct (commit_ticket env h r) as [e|] eqn:Hc end.
  - eexists. split; [reflexivity|]. split; [reflexivity|].
    intros Hok. rewrite Hok in Hc. discriminate.
  - eexists. split; [reflexivity|]. split; reflexivity.
Qed.

(** C10, as the code has it: when the ticketing backend answers with a
    JSON object that has no [ticket_id] (and whose [url], if there is one,
    is a string or null), ticket creation succeeds with the placeholder id
    made of the project key and -XXXX, the url is the empty string when the
    answer has none, and the run goes on to the secondary incident and to
    the saving of the ticket. *)
Theorem missing_ticket_id_gets_placeholder alert analysis h d :
  analysis_valid analysis ->
  (exists a, get_or analysis "assigned_to" (JStr "DevOps") = JStr a) ->
  jira_answers py env h d ->
  lookup d "ticket_id" = None ->
  url_acceptable d ->
  exists ticket h1,
    _create_jira_ticket py env self alert analysis h = (Ok ticket, h1)
    /\ ticket_id ticket = JIRA_PROJECT_KEY (config self) ++ "-XXXX"
    /\ (lookup d "url" = None -> url ticket = Some EmptyString)
    /\ exists args entry r saved,
         (ticket <- _create_jira_ticket py env self alert analysis ;;
          _create_servicenow_incident py env alert analysis ;;;
          _save_ticket_record env alert analysis ticket ;;;
          ret ticket) h
         = (saved, (h1 ++ [ EvToolCall "cmdb" "create_incident" args; entry;
                            EvSaveTicket r ])%list)
         /\ tr_ticket_id r = JIRA_PROJECT_KEY (config self) ++ "-XXXX"
         /\ ((forall h' r', commit_ticket env h' r' = None) -> saved = Ok ticket).
Proof.
  intros Hv [a Ha] Hj Hid Hurl.
  pose proof Hv as [p [s [t [Hp [Hs Ht]]]]].
  assert (Hticket : exists ticket h1,
    _create_jira_ticket py env self alert analysis h = (Ok ticket, h1)
    /\ ticket_id ticket = JIRA_PROJECT_KEY (config self) ++ "-XXXX"
    /\ (lookup d "url" = None -> url ticket = Some EmptyString)).
  { unfold _create_jira_ticket.
    match goal with |- context [try_except ?b ?k] => set (body := b); set (handler := k) end.
    assert (Hbody : exists ticket h1, body h = (Ok ticket, h1)
              /\ ticket_id ticket = JIRA_PROJECT_KEY (config self) ++ "-XXXX"
              /\ (lookup d "url" = None -> url ticket = Some EmptyString)).
    { subst body.
      rewrite bind_lift, (getitem_of_lookup _ _ _ Hs).
      rewrite bind_lift, (getitem_of_lookup _ _ _ Ht).
      rewrite bind_lift, (getitem_of_lookup _ _ _ Hp).
      cbv zeta. rewrite Ha.
      match goal with |- context [call_tool env "jira" "create_ticket" ?args] =>
        destruct (Hj args) as [resp [text [Hr [Hx [Hne Hl]]]]];
        pose proof (call_tool_received env "jira" "create_ticket"
                      args h resp eq_refl Hr) as Hc;
        rewrite Hx in Hc; rewrite (bind_ok _ _ _ _ _ Hc)
      end.
      rewrite bind_lift.
      unfold _parse_tool_response. cbn [truthy].
      apply String.eqb_neq in Hne. rewrite Hne. cbn [negb]. rewrite Hl.
      rewrite bind_lift. cbn [as_dict]. rewrite bind_history, bind_log_activity.
      unfold bind, history, lift. unfold get_or. rewrite Hid.
      cbn [field_str rbind]. unfold placeholder_ticket_id.
      destruct Hurl as [Hu|[Hu|[u Hu]]]; rewrite Hu;
        cbn [field_opt_str rbind];
        (eexists; eexists; split; [reflexivity|]; split; [reflexivity|]);
        intros Hnone; try reflexivity; congruence. }
    destruct Hbody as [ticket [h1 [E [H1 H2]]]].
    exists ticket, h1. rewrite (try_ok _ _ _ _ _ E). auto. }
  destruct Hticket as [ticket [h1 [E [H1 H2]]]].
  exists ticket, h1. split; [exact E|]. split; [exact H1|]. split; [exact H2|].
  rewrite (bind_ok _ _ _ _ _ E).
  destruct (servicenow_calls alert analysis h1 Hv) as [args [entry E2]].
  rewrite (bind_ok _ _ _ _ _ E2).
  destruct (save_ticket_saves alert analysis ticket
              (h1 ++ [EvToolCall "cmdb" "create_incident" args; entry])%list Hv)
    as [r [saved [E3 [Hr Hok]]]].
  exists args, entry, r.
  unfold bind. rewrite E3. rewrite <- app_assoc. simpl.
  destruct saved as [[]|e].
  - eexists. split; [reflexivity|]. split; [congruence|]. reflexivity.
  - eexists. split; [reflexivity|]. split; [congruence|].
    intros Hc. specialize (Hok Hc). discriminate.
Qed.

End Placeholder.

(** The backend answers with the empty object. *)
Lemma missing_ticket_id_gets_placeholder_witness :
  analysis_valid (fallback_analysis alert_A)
  /\ jira_answers example_py (env_jira_only "{}") [] []
  /\ exists ticket h1,
       _create_jira_ticket example_py (env_jira_only "{}") rules_agent alert_A
         (fallback_analysis alert_A) [] = (Ok ticket, h1)
       /\ ticket_id ticket = "OPS-XXXX"
       /\ url ticket = Some EmptyString.
Proof.
  assert (Hv : analysis_valid (fallback_analysis alert_A)) by apply fallback_valid.
  assert (Hj : jira_answers example_py (env_jira_only "{}") [] []).
  { intros args. eexists. exists "{}".
    split; [reflexivity|]. split; [reflexivity|]. split; [discriminate|reflexivity]. }
  split; [exact Hv|]. split; [exact Hj|].
  destruct (missing_ticket_id_gets_placeholder example_py (env_jira_only "{}") rules_agent
              alert_A (fallback_analysis alert_A) [] [] Hv
              (ex_intro _ "DevOps" eq_refl) Hj eq_refl (or_introl eq_refl))
    as [ticket [h1 [E [H1 [H2 _]]]]].
  exists ticket, h1. split; [exact E|]. split; [exact H1|]. now apply H2.
Defined.

(** An answer that is JSON and has no [ticket_id], the empty array: ticket
    creation fails and the run stops there. *)
Lemma array_answer_fails_ticket_creation :
  json_loads example_py "[]" = inl (JArr [])
  /\ fst (_create_jira_ticket example_py (env_jira_only "[]") rules_agent alert_A
            (fallback_analysis alert_A) [])
     = Raise (HTTPException 500
                "Failed to create ticket: 'list' object has no attribute 'get'")
  /\ fst (process_alert example_py (env_jira_only "[]") rules_agent alert_A [])
     = Raise (HTTPException 500
                "Failed to create ticket: 'list' object has no attribute 'get'")
  /\ Forall (fun ev => after_ticket_step ev = false)
       (snd (process_alert example_py (env_jira_only "[]") rules_agent alert_A [])).
Proof.
  split; [reflexivity|]. split; [reflexivity|]. split; [reflexivity|].
  vm_compute. repeat constructor.
Qed.

(* ================================================================= *)
(** ** The batch scan: the time range *)

Section Returns.
Context {A B : Type}.

Lemma returns_bind (Q : B -> Prop) (m : M A) (k : A -> M B) :
  (forall a, returns Q (k a)) -> returns Q (bind m k).
Proof.
  intros Hk h b h'. unfold bind.
  destruct (m h) as [[a|e] h1]; [apply Hk|discriminate].
Qed.

Lemma returns_try (Q : A -> Prop) (m : M A) (k : exn -> M A) :
  returns Q m -> (forall e, returns Q (k e)) -> returns Q (try_except m k).
Proof.
  intros Hm Hk h a h'. unfold try_except.
  destruct (m h) as [[a1|e] h1] eqn:E; [|apply Hk].
  intros H. inversion H; subst. eapply Hm; eauto.
Qed.

Lemma returns_ret (Q : A -> Prop) (a : A) : Q a -> returns Q (ret a).
Proof. intros HQ h a' h' H. inversion H. now subst. Qed.

End Returns.


Section Scan.
Variable py : pylib.
Variable env : environment.
Variable self : AITTAgent.





End Scan.


(* ================================================================= *)
(** ** More on the tool client *)

Lemma text_blocks_dicts (items : list json) :
  Forall (fun c => exists d, c = JObj d) items -> exists bs, text_blocks items = Ok bs.
Proof.
  induction 1 as [|c rest [d ->] _ [bs IH]]; simpl; [eauto|].
  rewrite IH. eauto.
Qed.

Lemma text_blocks_skip (pre rest : list json) :
  Forall (fun c => is_text_block c = Ok false) pre ->
  text_blocks (pre ++ rest) = text_blocks rest.
Proof.
  induction 1 as [|c pre Hc _ IH]; simpl; auto.
  rewrite Hc, IH. destruct (text_blocks rest); [|reflexivity].
  destruct c; reflexivity.
Qed.

Lemma text_blocks_stops (items : list json) c :
  In c items -> (forall d, c <> JObj d) -> exists e, text_blocks items = Raise e.
Proof.
  induction items as [|x items IH]; intros Hin Hc; [contradiction|].
  destruct Hin as [->|Hin].
  - simpl. destruct c; try (eexists; reflexivity). now elim (Hc fields).
  - simpl. destruct (is_text_block x); [|eauto].
    destruct (IH Hin Hc) as [e ->]. eauto.
Qed.

(** X1: the facade answers with the text of the first block of type text,
    whatever follows it, and with the empty string when that block has no
    text; one entry of the content that is no object, wherever it stands,
    before the text block or after it, makes the extraction raise. *)
Theorem first_text_block_wins resp items :
  get_or (rpc_result resp) "content" (JArr []) = JArr items ->
  (forall pre block post,
     items = (pre ++ JObj block :: post)%list ->
     Forall (fun c => is_text_block c = Ok false) pre ->
     lookup block "type" = Some (JStr "text") ->
     Forall (fun c => exists d, c = JObj d) post ->
     extract_text_content resp = Ok (get_or block "text" (JStr EmptyString)))
  /\ (forall c, In c items -> (forall d, c <> JObj d) ->
      exists e, extract_text_content resp = Raise e).
Proof.
  intros Hc. unfold extract_text_content. rewrite Hc. cbn [iterate]. split.
  - intros pre block post -> Hpre Hty Hpost.
    rewrite (text_blocks_skip _ _ Hpre). cbn [text_blocks is_text_block].
    rewrite Hty. cbn [String.eqb].
    destruct (text_blocks_dicts _ Hpost) as [bs ->]. reflexivity.
  - intros c Hin Hno. destruct (text_blocks_stops _ _ Hin Hno) as [e ->]. eauto.
Qed.

Lemma first_text_block_wins_witness :
  extract_text_content
    (RpcResult [("content", JArr [ JObj [("type", JStr "image")];
                                   JObj [("type", JStr "text"); ("text", JStr "first")];
                                   JObj [("type", JStr "text"); ("text", JStr "second")] ])])
  = Ok (JStr "first")
  /\ exists e,
       extract_text_content
         (RpcResult [("content", JArr [ JStr "stray";
                                        JObj [("type", JStr "text");
                                              ("text", JStr "first")] ])])
       = Raise e.
Proof.
  split.
  - destruct (first_text_block_wins
                (RpcResult [("content",
                             JArr [ JObj [("type", JStr "image")];
                                    JObj [("type", JStr "text"); ("text", JStr "first")];
                                    JObj [("type", JStr "text"); ("text", JStr "second")] ])])
                _ eq_refl) as [H _].
    apply (H [JObj [("type", JStr "image")]]
             [("type", JStr "text"); ("text", JStr "first")]
             [JObj [("type", JStr "text"); ("text", JStr "second")]]).
    + reflexivity.
    + repeat constructor.
    + reflexivity.
    + repeat constructor. eauto.
  - destruct (first_text_block_wins
                (RpcResult [("content",
                             JArr [ JStr "stray";
                                    JObj [("type", JStr "text"); ("text", JStr "first")] ])])
                _ eq_refl) as [_ H].
    apply (H (JStr "stray")); [now left|discriminate].
Defined.

(** X2: [list_tools] looks for text blocks under [content]; a response
    whose result has no [content], as the result of [tools/list] with its
    [tools] list, or an error response, gives [None] and no tool. *)
Theorem list_tools_gives_none (session : string -> session_outcome) server resp :
  existsb (String.eqb server) servers = true ->
  session server = Received resp ->
  lookup (rpc_result resp) "content" = None ->
  Listing.list_tools session server = Some (Ok JNull).
Proof.
  intros Hs Hr Hc. unfold Listing.list_tools. rewrite Hs, Hr.
  unfold extract_text_content, get_or. rewrite Hc. reflexivity.
Qed.

Lemma list_tools_gives_none_witness :
  Listing.list_tools
    (fun _ => Received (RpcResult [("tools", JArr [JObj [("name", JStr "query_logs")]])]))
    "splunk" = Some (Ok JNull).
Proof.
  apply (list_tools_gives_none _ "splunk"
           (RpcResult [("tools", JArr [JObj [("name", JStr "query_logs")]])]));
    reflexivity.
Defined.

(* ================================================================= *)
(** ** More on the priority tables *)

Lemma priority_map_get_some s c p :
  priority_map_get (s, c) = Some p -> In ((s, c), p) priority_map.
Proof.
  unfold priority_map_get.
  destruct (find _ priority_map) as [[[s' c'] q]|] eqn:F; [|discriminate].
  intros H. inversion H; subst. apply find_some in F. destruct F as [Hin Heq].
  unfold pair_eqb in Heq. simpl in Heq. apply andb_true_iff in Heq.
  destruct Heq as [E1 E2]. apply String.eqb_eq in E1, E2. now subst.
Qed.

(** X3: the rules never assign the priority Low; they assign Critical to a
    Critical alert on an asset of High criticality and to nothing else, so a
    Critical alert on an asset whose criticality is Critical gets Medium. *)
Theorem rule_priority_range sev crit p :
  lookup_priority sev crit = Ok p ->
  (p = "Critical" \/ p = "High" \/ p = "Medium")
  /\ (p = "Critical" <-> sev = "Critical" /\ crit = JStr "High")
  /\ (crit = JStr "Critical" -> p = "Medium").
Proof.
  unfold lookup_priority. destruct (hashable crit); [|discriminate].
  intros H. inversion H; clear H.
  destruct crit as [| | |c| |];
    try (split; [tauto|]; split; [split; [discriminate|intros [_ E]; discriminate]
                                | discriminate]).
  destruct (priority_map_get (sev, c)) as [q|] eqn:G.
  - pose proof (priority_map_get_some _ _ _ G) as Hin. simpl in Hin.
    repeat (destruct Hin as [Hin|Hin]; [inversion Hin; subst; clear Hin G|]);
      try contradiction;
      (split; [tauto|]); (split; [|intros E; discriminate]);
      (split; [intros E|intros [E1 E2]]); try discriminate; auto.
  - split; [tauto|]. split; [|reflexivity].
    split; [discriminate|]. intros [-> E]. inversion E; subst. discriminate.
Qed.

Lemma rule_priority_range_witness :
  lookup_priority "Critical" (JStr "Critical") = Ok "Medium"
  /\ ("Medium" = "Critical" <-> "Critical" = "Critical" /\ JStr "Critical" = JStr "High").
Proof.
  split; [reflexivity|].
  exact (proj1 (proj2 (rule_priority_range "Critical" (JStr "Critical") "Medium" eq_refl))).
Defined.

Ltac split_char s :=
  destruct s as [|[[] [] [] [] [] [] [] []] s]; try reflexivity.

Lemma urgency_of_string s :
  _map_priority_to_urgency (JStr s)
  = Ok (if String.eqb s "Critical" then JStr "1"
        else if String.eqb s "High" then JStr "2" else JStr "3").
Proof.
  unfold _map_priority_to_urgency. cbn [hashable]. f_equal.
  do 9 (split_char s).
Qed.

(** X4: the urgency and the impact of the secondary incident are the same
    value for every priority, one of 1, 2 and 3: 1 for Critical only, 2 for
    High only, 3 for Medium, Low and every other value that can be hashed. *)
Theorem urgency_and_impact_agree priority :
  _map_priority_to_urgency priority = _map_priority_to_impact priority
  /\ (forall v, _map_priority_to_urgency priority = Ok v ->
        v = JStr "1" \/ v = JStr "2" \/ v = JStr "3")
  /\ (_map_priority_to_urgency priority = Ok (JStr "1") <-> priority = JStr "Critical")
  /\ (_map_priority_to_urgency priority = Ok (JStr "2") <-> priority = JStr "High")
  /\ (hashable priority = true ->
      priority <> JStr "Critical" -> priority <> JStr "High" ->
      _map_priority_to_urgency priority = Ok (JStr "3")).
Proof.
  split; [reflexivity|].
  destruct priority as [| |n|s|l|d];
    try (split; [intros v H; inversion H; auto|];
         split; [split; discriminate|]; split; [split; discriminate|];
         intros H; try discriminate; reflexivity).
  rewrite urgency_of_string.
  destruct (String.eqb_spec s "Critical") as [->|Hc].
  - split; [intros v H; inversion H; auto|].
    split; [tauto|]. split; [split; discriminate|]. intros _ H. now elim H.
  - destruct (String.eqb_spec s "High") as [->|Hh].
    + split; [intros v H; inversion H; auto|].
      split; [split; discriminate|]. split; [tauto|]. intros _ _ H. now elim H.
    + split; [intros v H; inversion H; auto|].
      split; [split; [discriminate|intros E; inversion E; contradiction]|].
      split; [split; [discriminate|intros E; inversion E; contradiction]|].
      reflexivity.
Qed.

Lemma urgency_and_impact_agree_witness :
  hashable (JStr "Low") = true
  /\ _map_priority_to_impact (JStr "Low") = Ok (JStr "3").
Proof.
  split; [reflexivity|].
  destruct (urgency_and_impact_agree (JStr "Low")) as [E [_ [_ [_ H]]]].
  rewrite <- E. apply H; [reflexivity|discriminate|discriminate].
Defined.

(* ================================================================= *)
(** ** The secondary incident *)

Lemma call_tool_outcome env server tool args h :
  existsb (String.eqb server) servers = true ->
  exists r, call_tool env server tool args h
            = (r, (h ++ [EvToolCall server tool args])%list)
            /\ (call_fails (tool_reply env h server tool args) -> exists e, r = Raise e).
Proof.
  intros Hs. unfold call_tool. rewrite Hs. unfold bind, history, emit, lift, raise.
  destruct (tool_reply env h server tool args); simpl; eexists;
    (split; [reflexivity|]); intros H; try contradiction; eauto.
Qed.

Section Secondary.
Variable py : pylib.
Variable env : environment.

Lemma incident_failed_entry alert e h :
  exists entry,
    log_activity env (alert_id alert) "ServiceNow Incident Creation"
      ("Failed: " ++ exn_str e) "error" h = (Ok tt, (h ++ [entry])%list)
    /\ incident_entry (alert_id alert) entry
    /\ entry = EvActivity (now env h) (alert_id alert) "ServiceNow Incident Creation"
                 ("Failed: " ++ exn_str e) "error".
Proof.
  rewrite log_activity_eq. eexists. split; [reflexivity|]. split; [|reflexivity].
  unfold incident_entry. eauto.
Qed.

(** X5: the secondary incident is not fatal: whatever the analysis holds
    and whatever the inventory backend does, the step returns normally,
    makes at most one call and leaves exactly one activity entry; when the
    call fails, that entry has the status error. *)
Theorem secondary_incident_is_not_fatal alert analysis h :
  exists calls entry,
    _create_servicenow_incident py env alert analysis h
    = (Ok tt, (h ++ calls ++ [entry])%list)
    /\ (calls = [] \/ exists args, calls = [EvToolCall "cmdb" "create_incident" args])
    /\ incident_entry (alert_id alert) entry
    /\ ((forall h' args, call_fails (tool_reply env h' "cmdb" "create_incident" args)) ->
        exists ts detail,
          entry = EvActivity ts (alert_id alert) "ServiceNow Incident Creation"
                    detail "error").
Proof.
  unfold _create_servicenow_incident.
  match goal with |- context [try_except ?b ?k] => set (body := b); set (handler := k) end.
  assert (Hearly : forall e, body h = (Raise e, h) ->
    exists calls entry,
      try_except body handler h = (Ok tt, (h ++ calls ++ [entry])%list)
      /\ (calls = [] \/ exists args, calls = [EvToolCall "cmdb" "create_incident" args])
      /\ incident_entry (alert_id alert) entry
      /\ ((forall h' args, call_fails (tool_reply env h' "cmdb" "create_incident" args)) ->
          exists ts detail,
            entry = EvActivity ts (alert_id alert) "ServiceNow Incident Creation"
                      detail "error")).
  { intros e E. rewrite (try_raise _ _ _ _ _ E). subst handler. cbv beta.
    destruct (incident_failed_entry alert e h) as [entry [E1 [E2 E3]]].
    exists [], entry. rewrite E1. simpl. split; [reflexivity|]. split; [now left|].
    split; [exact E2|]. intros _. rewrite E3. eauto. }
  assert (Hlate : forall args e,
    body h = (Raise e, (h ++ [EvToolCall "cmdb" "create_incident" args])%list) ->
    exists calls entry,
      try_except body handler h = (Ok tt, (h ++ calls ++ [entry])%list)
      /\ (calls = [] \/ exists args, calls = [EvToolCall "cmdb" "create_incident" args])
      /\ incident_entry (alert_id alert) entry
      /\ ((forall h' args, call_fails (tool_reply env h' "cmdb" "create_incident" args)) ->
          exists ts detail,
            entry = EvActivity ts (alert_id alert) "ServiceNow Incident Creation"
                      detail "error")).
  { intros args e E. rewrite (try_raise _ _ _ _ _ E). subst handler. cbv beta.
    destruct (incident_failed_entry alert e
                (h ++ [EvToolCall "cmdb" "create_incident" args])%list)
      as [entry [E1 [E2 E3]]].
    exists [EvToolCall "cmdb" "create_incident" args], entry.
    rewrite E1, <- app_assoc. split; [reflexivity|]. split; [right; eauto|].
    split; [exact E2|]. intros _. rewrite E3. eauto. }
  assert (Hbody : (exists e, body h = (Raise e, h))
                  \/ (exists args e,
                        body h = (Raise e, (h ++ [EvToolCall "cmdb" "create_incident" args])%list))
                  \/ (exists args entry,
                        body h = (Ok tt, (h ++ [EvToolCall "cmdb" "create_incident" args]
                                            ++ [entry])%list)
                        /\ incident_entry (alert_id alert) entry
                        /\ ~ call_fails (tool_reply env h "cmdb" "create_incident" args))).
  { subst body.
    rewrite bind_lift. destruct (getitem analysis "summary"); [|left; eauto].
    rewrite bind_lift. destruct (getitem analysis "description"); [|left; eauto].
    rewrite bind_lift. destruct (getitem analysis "priority") as [p|]; [|left; eauto].
    rewrite bind_lift. destruct (_map_priority_to_urgency p); [|left; eauto].
    rewrite bind_lift.
    rewrite bind_lift. destruct (_map_priority_to_impact p); [|left; eauto].
    right.
    match goal with |- context [call_tool env "cmdb" "create_incident" ?a] =>
      set (args := a) end.
    destruct (call_tool_outcome env "cmdb" "create_incident" args h eq_refl)
      as [r [Hr Hfail]].
    destruct r as [v|e];
      [rewrite (bind_ok _ _ _ _ _ Hr)
      |rewrite (bind_raise _ _ _ _ _ Hr); left; exists args; eexists; reflexivity].
    rewrite !bind_lift.
    destruct (_parse_tool_response py v) as [w|]; [|left; exists args; eexists; reflexivity].
    rewrite !bind_lift.
    destruct (as_dict w) as [d|]; [|left; exists args; eexists; reflexivity].
    right. exists args. rewrite log_activity_eq. eexists.
    split; [rewrite <- app_assoc; reflexivity|].
    split; [unfold incident_entry; eauto|].
    intros Hf. destruct (Hfail Hf) as [e He]. discriminate. }
  destruct Hbody as [[e E]|[[args [e E]]|[args [entry [E [H1 H2]]]]]].
  - exact (Hearly e E).
  - exact (Hlate args e E).
  - exists [EvToolCall "cmdb" "create_incident" args], entry.
    rewrite (try_ok _ _ _ _ _ E). split; [reflexivity|]. split; [right; eauto|].
    split; [exact H1|]. intros Hf. elim H2. apply Hf.
Qed.

End Secondary.

(** The analysis has no summary: the step makes no call. *)
Lemma secondary_incident_is_not_fatal_witness :
  (forall h' args, call_fails (tool_reply env_down h' "cmdb" "create_incident" args))
  /\ exists new, _create_servicenow_incident example_py env_down alert_A [] []
                 = (Ok tt, new).
Proof.
  split; [intros; exact I|].
  destruct (secondary_incident_is_not_fatal example_py env_down alert_A [] [])
    as [calls [entry [E _]]].
  eexists. exact E.
Defined.

(** X6: an answer of the inventory backend that is a JSON object without
    [incident_number], an error object for instance, is recorded as a
    created incident: the activity entry names the incident SN-XXXX and has
    the status complete. *)
Theorem incident_without_number_is_recorded_created py env alert analysis h d :
  analysis_valid analysis ->
  incident_answers py env h d ->
  lookup d "incident_number" = None ->
  exists args ts,
    _create_servicenow_incident py env alert analysis h
    = (Ok tt,
       (h ++ [ EvToolCall "cmdb" "create_incident" args;
               EvActivity ts (alert_id alert) "ServiceNow Incident Created"
                 "Incident SN-XXXX created in ServiceNow" "complete" ])%list).
Proof.
  intros [p [s [t [Hp [Hs Ht]]]]] Ha Hn.
  unfold _create_servicenow_incident.
  erewrite try_ok.
  2:{ rewrite bind_lift, (getitem_of_lookup _ _ _ Hs).
      rewrite bind_lift, (getitem_of_lookup _ _ _ Ht).
      rewrite bind_lift, (getitem_of_lookup _ _ _ Hp).
      rewrite bind_lift. cbn [_map_priority_to_urgency hashable].
      rewrite bind_lift.
      rewrite bind_lift. cbn [_map_priority_to_impact hashable].
      match goal with |- context [call_tool env "cmdb" "create_incident" ?args] =>
        destruct (Ha args) as [resp [text [Hr [Hx [Hne Hl]]]]];
        pose proof (call_tool_received env "cmdb" "create_incident"
                      args h resp eq_refl Hr) as Hc;
        rewrite Hx in Hc; rewrite (bind_ok _ _ _ _ _ Hc)
      end.
      rewrite bind_lift. unfold _parse_tool_response. cbn [truthy].
      apply String.eqb_neq in Hne. rewrite Hne. cbn [negb]. rewrite Hl.
      rewrite bind_lift. cbn [as_dict]. rewrite log_activity_eq.
      unfold get_or. rewrite Hn. cbn [to_str]. reflexivity. }
  eexists. eexists. rewrite <- app_assoc. reflexivity.
Qed.

Lemma incident_without_number_is_recorded_created_witness :
  analysis_valid (fallback_analysis alert_A)
  /\ incident_answers example_py (env_text "{}") [] []
  /\ exists args ts,
       _create_servicenow_incident example_py (env_text "{}") alert_A
         (fallback_analysis alert_A) []
       = (Ok tt,
          [ EvToolCall "cmdb" "create_incident" args;
            EvActivity ts "a-1" "ServiceNow Incident Created"
              "Incident SN-XXXX created in ServiceNow" "complete" ]).
Proof.
  assert (Hv : analysis_valid (fallback_analysis alert_A)) by apply fallback_valid.
  assert (Ha : incident_answers example_py (env_text "{}") [] []).
  { intros args. eexists. exists "{}".
    split; [reflexivity|]. split; [reflexivity|]. split; [discriminate|reflexivity]. }
  split; [exact Hv|]. split; [exact Ha|].
  exact (incident_without_number_is_recorded_created example_py (env_text "{}") alert_A
           (fallback_analysis alert_A) [] [] Hv Ha eq_refl).
Defined.

(* ================================================================= *)
(** ** What a returned ticket stands for *)

Section Inversion.
Context {A B : Type}.

Lemma bind_ok_inv (m : M A) (k : A -> M B) h b h' :
  bind m k h = (Ok b, h') -> exists a h1, m h = (Ok a, h1) /\ k a h1 = (Ok b, h').
Proof.
  unfold bind. destruct (m h) as [[a|e] h1]; [eauto|discriminate].
Qed.

Lemma bind_raise_inv (m : M A) (k : A -> M B) h e h' :
  bind m k h = (Raise e, h') ->
  m h = (Raise e, h') \/ exists a h1, m h = (Ok a, h1) /\ k a h1 = (Raise e, h').
Proof.
  unfold bind. destruct (m h) as [[a|e1] h1]; [eauto|].
  intros H. inversion H; subst. now left.
Qed.

Lemma lift_inv (r : result A) h r' h' : lift r h = (r', h') -> r' = r /\ h' = h.
Proof. unfold lift. intros H. inversion H. auto. Qed.

Lemma try_ok_inv (m : M A) (k : exn -> M A) h a h' :
  (forall e h1 a1 h2, k e h1 <> (Ok a1, h2)) ->
  try_except m k h = (Ok a, h') -> m h = (Ok a, h').
Proof.
  intros Hk. unfold try_except. destruct (m h) as [[a1|e] h1]; [auto|].
  intros H. now apply Hk in H.
Qed.

Lemma emits_run (P : event -> Prop) (m : M A) h r h' :
  emits P m -> m h = (r, h') -> exists new, h' = (h ++ new)%list /\ Forall P new.
Proof.
  intros He E. destruct (He h) as [new [E1 F]]. rewrite E in E1. simpl in E1. eauto.
Qed.

End Inversion.

Lemma field_str_inv name v s : field_str name v = Ok s -> v = JStr s.
Proof. destruct v; simpl; intros H; inversion H; reflexivity. Qed.

Lemma getitem_inv d k v : getitem d k = Ok v -> lookup d k = Some v.
Proof. unfold getitem. destruct (lookup d k); intros H; inversion H; reflexivity. Qed.

Lemma call_tool_ok_inv env server tool args h v h' :
  call_tool env server tool args h = (Ok v, h') ->
  h' = (h ++ [EvToolCall server tool args])%list
  /\ exists resp, tool_reply env h server tool args = Received resp
                  /\ extract_text_content resp = Ok v.
Proof.
  unfold call_tool. destruct (existsb _ _); [|discriminate].
  unfold bind, history, emit, lift, raise.
  destruct (tool_reply env h server tool args) as [resp|e|]; try discriminate.
  intros H. inversion H; subst. split; [reflexivity|]. exists resp. auto.
Qed.

Section Returned.
Variable py : pylib.
Variable env : environment.
Variable self : AITTAgent.

(** What a ticket returned by the ticket-creation step tells about the
    analysis and about the history. *)
Lemma jira_ok_inv alert analysis h ticket h' :
  _create_jira_ticket py env self alert analysis h = (Ok ticket, h') ->
  lookup analysis "summary" = Some (JStr (summary ticket))
  /\ lookup analysis "description" = Some (JStr (description ticket))
  /\ lookup analysis "priority" = Some (JStr (priority ticket))
  /\ get_or analysis "assigned_to" (JStr "DevOps") = JStr (assigned_to ticket)
  /\ exists args ts detail,
       h' = (h ++ [ EvToolCall "jira" "create_ticket" args;
                    EvActivity ts (alert_id alert) "Ticket Created" detail "complete" ])%list
       /\ lookup args "assignee" = Some (JStr (assigned_to ticket)).
Proof.
  unfold _create_jira_ticket. intros H.
  apply try_ok_inv in H.
  2:{ intros e h1 a1 h2. rewrite bind_log_activity. unfold raise. discriminate. }
  apply bind_ok_inv in H. destruct H as [su [h1 [E1 H]]].
  apply lift_inv in E1. destruct E1 as [E1 ->].
  apply bind_ok_inv in H. destruct H as [de [h1 [E2 H]]].
  apply lift_inv in E2. destruct E2 as [E2 ->].
  apply bind_ok_inv in H. destruct H as [pr [h1 [E3 H]]].
  apply lift_inv in E3. destruct E3 as [E3 ->].
  cbv zeta in H.
  apply bind_ok_inv in H. destruct H as [v [h1 [E4 H]]].
  apply call_tool_ok_inv in E4. destruct E4 as [-> _].
  apply bind_ok_inv in H. destruct H as [w [h1 [E5 H]]].
  apply lift_inv in E5. destruct E5 as [E5 ->].
  apply bind_ok_inv in H. destruct H as [d [h1 [E6 H]]].
  apply lift_inv in E6. destruct E6 as [E6 ->].
  rewrite bind_history, bind_log_activity, bind_history in H.
  apply lift_inv in H. destruct H as [H ->].
  symmetry in H.
  apply rbind_ok in H. destruct H as [tid [Ftid H]].
  apply rbind_ok in H. destruct H as [p [Fp H]].
  apply rbind_ok in H. destruct H as [s [Fs H]].
  apply rbind_ok in H. destruct H as [t [Ft H]].
  apply rbind_ok in H. destruct H as [a [Fa H]].
  apply rbind_ok in H. destruct H as [u [Fu H]].
  inversion H; subst ticket; clear H. cbn [summary description priority assigned_to].
  apply field_str_inv in Fp, Fs, Ft, Fa.
  symmetry in E1, E2, E3. apply getitem_inv in E1, E2, E3. subst su de pr.
  repeat split; auto.
  eexists. eexists. eexists. rewrite <- app_assoc. split; [reflexivity|].
  cbn [lookup String.eqb Ascii.eqb Bool.eqb]. now rewrite Fa.
Qed.

Lemma quiet_retrieve_logs alert : emits quiet (_retrieve_logs py env self alert).
Proof. unfold _retrieve_logs. emits_tac; split; reflexivity. Qed.

Lemma quiet_enrich alert logs : emits quiet (_enrich_with_cmdb py env alert logs).
Proof.
  unfold _enrich_with_cmdb, enrich_failed.
  emits_tac; split; reflexivity.
Qed.

Lemma quiet_analyze alert logs cmdb :
  emits quiet (_analyze_incident py env self alert logs cmdb).
Proof.
  unfold _analyze_incident, selected_analysis, _llm_analysis.
  emits_tac; split; reflexivity.
Qed.

Lemma quiet_servicenow alert analysis :
  emits quiet (_create_servicenow_incident py env alert analysis).
Proof. unfold _create_servicenow_incident. emits_tac; split; reflexivity. Qed.

Lemma quiet_no_call l : Forall quiet l -> filter is_ticket_call l = [].
Proof.
  induction 1 as [|e l [H _] _ IH]; [reflexivity|]. simpl. now rewrite H.
Qed.

Lemma quiet_no_save l : Forall quiet l -> Forall (fun e => is_save e = false) l.
Proof. apply Forall_impl. intros e [_ H]. exact H. Qed.

(** X7: a ticket that [process_alert] returns has been created by one call
    to the ticketing backend and saved, last of all and once, as a record
    that agrees with it on the id, the priority, the summary, the
    description, the assignee and the processing time, and the commit of
    that record did not fail. *)
Theorem returned_ticket_was_saved alert h ticket h' :
  process_alert py env self alert h = (Ok ticket, h') ->
  exists before,
    h' = (h ++ before ++ [EvSaveTicket (record_of alert ticket)])%list
    /\ commit_ticket env (h ++ before)%list (record_of alert ticket) = None
    /\ Forall (fun e => is_save e = false) before
    /\ List.length (filter is_ticket_call before) = 1%nat.
Proof.
  unfold process_alert. rewrite bind_log_activity. intros H.
  match type of H with context [(h ++ [?a])%list] => set (received := a) in * end.
  apply bind_ok_inv in H. destruct H as [logs [h1 [E1 H]]].
  destruct (emits_run _ _ _ _ _ (quiet_retrieve_logs alert) E1) as [n1 [-> F1]].
  apply bind_ok_inv in H. destruct H as [cmdb [h2 [E2 H]]].
  destruct (emits_run _ _ _ _ _ (quiet_enrich alert logs) E2) as [n2 [-> F2]].
  apply bind_ok_inv in H. destruct H as [analysis [h3 [E3 H]]].
  destruct (emits_run _ _ _ _ _ (quiet_analyze alert logs cmdb) E3) as [n3 [-> F3]].
  apply bind_ok_inv in H. destruct H as [t [h4 [E4 H]]].
  destruct (jira_ok_inv _ _ _ _ _ E4) as [Hs [Hd [Hp [Ha [args [ts [detail [-> _]]]]]]]].
  apply bind_ok_inv in H. destruct H as [[] [h5 [E5 H]]].
  destruct (emits_run _ _ _ _ _ (quiet_servicenow alert analysis) E5) as [n5 [-> F5]].
  apply bind_ok_inv in H. destruct H as [[] [h6 [E6 H]]].
  unfold ret in H. inversion H; subst t h6; clear H.
  unfold _save_ticket_record in E6.
  rewrite bind_lift, (getitem_of_lookup _ _ _ Hp) in E6.
  rewrite bind_lift, (getitem_of_lookup _ _ _ Hs) in E6.
  rewrite bind_lift, (getitem_of_lookup _ _ _ Hd) in E6.
  cbv zeta in E6. rewrite bind_history in E6. unfold bind, emit in E6.
  fold (record_of alert ticket) in E6.
  match type of E6 with context [commit_ticket env ?hh ?r] =>
    destruct (commit_ticket env hh r) eqn:Hc; [discriminate|] end.
  unfold ret in E6. inversion E6; subst h'; clear E6.
  exists ([received] ++ n1 ++ n2 ++ n3
          ++ [ EvToolCall "jira" "create_ticket" args;
               EvActivity ts (alert_id alert) "Ticket Created" detail "complete" ] ++ n5)%list.
  split; [now rewrite <- !app_assoc|].
  split; [rewrite <- Hc; f_equal; now rewrite <- !app_assoc|].
  split.
  - repeat (apply Forall_app; split); auto using quiet_no_save.
  - rewrite !filter_app, !length_app.
    rewrite (quiet_no_call _ F1), (quiet_no_call _ F2), (quiet_no_call _ F3),
      (quiet_no_call _ F5).
    reflexivity.
Qed.

End Returned.

(** The ticketing backend answers with the empty object, the others are
    down. *)
Lemma returned_ticket_was_saved_witness :
  exists ticket h',
    process_alert example_py (env_jira_only "{}") rules_agent alert_A [] = (Ok ticket, h')
    /\ exists before, h' = (before ++ [EvSaveTicket (record_of alert_A ticket)])%list.
Proof.
  destruct (process_alert example_py (env_jira_only "{}") rules_agent alert_A [])
    as [[ticket|e] h'] eqn:E; [|vm_compute in E; discriminate].
  exists ticket, h'. split; [reflexivity|].
  destruct (returned_ticket_was_saved example_py (env_jira_only "{}") rules_agent
              alert_A [] ticket h' E) as [before [Hh _]].
  exists before. exact Hh.
Defined.

(* ================================================================= *)
(** ** The ways a run fails *)

Section Failures.
Variable py : pylib.
Variable env : environment.
Variable self : AITTAgent.

Lemma total_never_raises {A} (m : M A) h e h' : total m -> m h <> (Raise e, h').
Proof. intros Ht E. destruct (Ht h) as [a [h1 E1]]. congruence. Qed.

Lemma jira_raise_inv alert analysis h e h' :
  _create_jira_ticket py env self alert analysis h = (Raise e, h') ->
  exists x, e = HTTPException 500 ("Failed to create ticket: " ++ exn_str x).
Proof.
  unfold _create_jira_ticket.
  match goal with |- context [try_except ?b ?k] => set (body := b); set (handler := k) end.
  unfold try_except. destruct (body h) as [[t|x] h1].
  - discriminate.
  - subst handler. cbv beta. rewrite bind_log_activity. unfold raise.
    intros H. inversion H. eexists. reflexivity.
Qed.

(** X8: [process_alert] raises in two ways only.  Either ticket creation
    failed: the exception is the HTTPException 500 of that step and nothing
    of the later steps has happened.  Or the commit of the ticket record
    failed: the exception is the one of the commit, raised as it is, after
    the ticket was created and the record handed to the session. *)
Theorem process_alert_failure_modes alert h e h' :
  process_alert py env self alert h = (Raise e, h') ->
  (exists x new,
     e = HTTPException 500 ("Failed to create ticket: " ++ exn_str x)
     /\ h' = (h ++ new)%list
     /\ Forall (fun ev => after_ticket_step ev = false) new)
  \/ (exists before r,
        h' = (h ++ before ++ [EvSaveTicket r])%list
        /\ commit_ticket env (h ++ before)%list r = Some e
        /\ Exists (ticket_created_entry (alert_id alert)) before).
Proof.
  unfold process_alert. rewrite bind_log_activity. intros H.
  match type of H with context [(h ++ [?a])%list] => set (received := a) in * end.
  apply bind_raise_inv in H.
  destruct H as [H|[logs [h1 [E1 H]]]];
    [now apply total_never_raises in H; [|apply total_retrieve_logs]|].
  destruct (emits_run _ _ _ _ _ (early_retrieve_logs py env self alert) E1)
    as [n1 [-> F1]].
  apply bind_raise_inv in H.
  destruct H as [H|[cmdb [h2 [E2 H]]]];
    [now apply total_never_raises in H; [|apply total_enrich]|].
  destruct (emits_run _ _ _ _ _ (early_enrich py env alert logs) E2) as [n2 [-> F2]].
  apply bind_raise_inv in H.
  destruct H as [H|[analysis [h3 [E3 H]]]];
    [now apply total_never_raises in H; [|apply total_analyze]|].
  destruct (emits_run _ _ _ _ _ (early_analyze py env self alert logs cmdb) E3)
    as [n3 [-> F3]].
  apply bind_raise_inv in H.
  destruct H as [H|[ticket [h4 [E4 H]]]].
  - (* ticket creation raised *)
    left. destruct (jira_raise_inv _ _ _ _ _ H) as [x ->].
    destruct (emits_run _ _ _ _ _ (early_jira py env self alert analysis) H)
      as [n4 [-> F4]].
    exists x, ([received] ++ n1 ++ n2 ++ n3 ++ n4)%list.
    split; [reflexivity|]. split; [now rewrite <- !app_assoc|].
    repeat (apply Forall_app; split); auto.
  - (* a ticket was created *)
    right.
    destruct (jira_ok_inv _ _ _ _ _ _ _ _ E4)
      as [Hs [Hd [Hp [Ha [args [ts [detail [-> _]]]]]]]].
    apply bind_raise_inv in H.
    destruct H as [H|[[] [h5 [E5 H]]]];
      [now apply total_never_raises in H; [|apply total_servicenow]|].
    destruct (emits_run _ _ _ _ _ (any_servicenow py env alert analysis) E5)
      as [n5 [-> _]].
    apply bind_raise_inv in H.
    destruct H as [H|[[] [h6 [_ H]]]]; [|discriminate].
    unfold _save_ticket_record in H.
    rewrite bind_lift, (getitem_of_lookup _ _ _ Hp) in H.
    rewrite bind_lift, (getitem_of_lookup _ _ _ Hs) in H.
    rewrite bind_lift, (getitem_of_lookup _ _ _ Hd) in H.
    cbv zeta in H. rewrite bind_history in H. unfold bind, emit in H.
    match type of H with context [commit_ticket env ?hh ?r] =>
      destruct (commit_ticket env hh r) as [e1|] eqn:Hc; [|discriminate];
      exists ([received] ++ n1 ++ n2 ++ n3
              ++ [ EvToolCall "jira" "create_ticket" args;
                   EvActivity ts (alert_id alert) "Ticket Created" detail "complete" ]
              ++ n5)%list, r
    end.
    unfold raise in H. inversion H; subst e1 h'; clear H.
    split; [now rewrite <- !app_assoc|].
    split; [rewrite <- Hc; f_equal; now rewrite <- !app_assoc|].
    apply Exists_app. right. apply Exists_app. right. apply Exists_app. right.
    apply Exists_app. right. apply Exists_app. left.
    apply Exists_cons_tl. apply Exists_cons_hd. unfold ticket_created_entry. eauto.
Qed.

End Failures.

(** The ticket is created and the commit of its record fails: the caller
    gets the exception of the commit. *)
Lemma process_alert_failure_modes_witness :
  exists e h',
    process_alert example_py env_commit_fails rules_agent alert_A [] = (Raise e, h')
    /\ e = OtherError "IntegrityError" "UNIQUE constraint failed"
    /\ Exists (ticket_created_entry "a-1") h'.
Proof.
  destruct (process_alert example_py env_commit_fails rules_agent alert_A [])
    as [[ticket|e] h'] eqn:E; [vm_compute in E; discriminate|].
  exists e, h'. split; [reflexivity|].
  destruct (process_alert_failure_modes example_py env_commit_fails rules_agent
              alert_A [] e h' E) as [[x [new [He _]]]|[before [r [Hh [Hc Hx]]]]].
  - exfalso. subst e. vm_compute in E. discriminate.
  - split; [simpl in Hc; congruence|].
    rewrite Hh. simpl. apply Exists_app. now left.
Defined.

(* ================================================================= *)
(** ** The order of the tool calls *)

Lemma calls_of_app (a b : trace) :
  calls_of (a ++ b)%list = (calls_of a ++ calls_of b)%list.
Proof. unfold calls_of. apply flat_map_app. Qed.

Lemma calls_of_none l : Forall no_call l -> calls_of l = [].
Proof.
  induction 1 as [|e l He _ IH]; [reflexivity|].
  destruct e; simpl in *; try contradiction; exact IH.
Qed.

Lemma try_bind_lift {A B} (r : result A) (k : A -> M B) (hd : exn -> M B) h :
  try_except (bind (lift r) k) hd h
  = match r with
    | Ok a => try_except (k a) hd h
    | Raise e => hd e h
    end.
Proof. unfold try_except, bind, lift. destruct r; reflexivity. Qed.

Lemma try_call_calls {A} env server tool args (k : json -> M A) (hd : exn -> M A) h :
  existsb (String.eqb server) servers = true ->
  (forall v, emits no_call (k v)) -> (forall e, emits no_call (hd e)) ->
  exists r new,
    try_except (bind (call_tool env server tool args) k) hd h
    = (r, (h ++ EvToolCall server tool args :: new)%list)
    /\ Forall no_call new.
Proof.
  intros Hs Hk Hh.
  destruct (call_tool_trace env server tool args h Hs) as [r Hr].
  destruct r as [v|e].
  - assert (E : try_except (bind (call_tool env server tool args) k) hd h
                = try_except (k v) hd (h ++ [EvToolCall server tool args])%list).
    { unfold try_except. now rewrite (bind_ok _ _ _ _ _ Hr). }
    rewrite E.
    destruct (emits_try _ _ _ (Hk v) Hh (h ++ [EvToolCall server tool args])%list)
      as [new [E1 F]].
    destruct (try_except (k v) hd _) as [r h1]. simpl in E1. subst h1.
    exists r, new. rewrite <- app_assoc. auto.
  - assert (E : try_except (bind (call_tool env server tool args) k) hd h
                = hd e (h ++ [EvToolCall server tool args])%list).
    { unfold try_except. now rewrite (bind_raise _ _ _ _ _ Hr). }
    rewrite E.
    destruct (Hh e (h ++ [EvToolCall server tool args])%list) as [new [E1 F]].
    destruct (hd e _) as [r h1]. simpl in E1. subst h1.
    exists r, new. rewrite <- app_assoc. auto.
Qed.

Section CallOrder.
Variable py : pylib.
Variable env : environment.
Variable self : AITTAgent.

Lemma retrieve_logs_calls alert h :
  exists logs new,
    _retrieve_logs py env self alert h = (Ok logs, (h ++ new)%list)
    /\ calls_of new = [("splunk", "query_logs")].
Proof.
  destruct (total_retrieve_logs py env self alert h) as [logs [h1 E]].
  unfold _retrieve_logs in *.
  match type of E with try_except (bind (call_tool _ _ _ ?a) ?k) ?hd _ = _ =>
    destruct (try_call_calls env "splunk" "query_logs" a k hd h eq_refl)
      as [r [new [E1 F]]] end.
  - intros v. emits_tac; exact I.
  - intros e. emits_tac; exact I.
  - rewrite E. rewrite E in E1. inversion E1; subst.
    eexists. eexists. split; [reflexivity|].
    simpl. now rewrite (calls_of_none _ F).
Qed.

Lemma enrich_calls alert logs h :
  exists cmdb new,
    _enrich_with_cmdb py env alert logs h = (Ok cmdb, (h ++ new)%list)
    /\ calls_of new = [("cmdb", "get_asset_info")].
Proof.
  destruct (total_enrich py env alert logs h) as [cmdb [h1 E]].
  unfold _enrich_with_cmdb, enrich_failed in *.
  match type of E with try_except (bind (call_tool _ _ _ ?a) ?k) ?hd _ = _ =>
    destruct (try_call_calls env "cmdb" "get_asset_info" a k hd h eq_refl)
      as [r [new [E1 F]]] end.
  - intros v. emits_tac; exact I.
  - intros e. emits_tac; exact I.
  - rewrite E. rewrite E in E1. inversion E1; subst.
    eexists. eexists. split; [reflexivity|].
    simpl. now rewrite (calls_of_none _ F).
Qed.

Lemma analyze_calls alert logs cmdb h :
  exists analysis new,
    _analyze_incident py env self alert logs cmdb h = (Ok analysis, (h ++ new)%list)
    /\ calls_of new = [].
Proof.
  assert (He : emits no_call (_analyze_incident py env self alert logs cmdb)).
  { unfold _analyze_incident, selected_analysis, _llm_analysis. emits_tac; exact I. }
  destruct (total_emits _ _ (total_analyze py env self alert logs cmdb) He h)
    as [a [new [E F]]].
  exists a, new. split; [exact E|]. now apply calls_of_none.
Qed.

Lemma getitem_raise_inv d k x : getitem d k = Raise x -> lookup d k = None.
Proof. unfold getitem. destruct (lookup d k); [discriminate|reflexivity]. Qed.

Lemma jira_calls alert analysis h :
  exists r new,
    _create_jira_ticket py env self alert analysis h = (r, (h ++ new)%list)
    /\ ((lacks_a_field analysis /\ calls_of new = [] /\ exists e, r = Raise e)
        \/ (~ lacks_a_field analysis /\ calls_of new = [("jira", "create_ticket")]))
    /\ (forall ticket, r = Ok ticket -> analysis_valid analysis).
Proof.
  destruct (_create_jira_ticket py env self alert analysis h) as [[ticket|e] h1] eqn:E.
  - destruct (jira_ok_inv _ _ _ _ _ _ _ _ E)
      as [Hs [Hd [Hp [_ [args [ts [detail [-> _]]]]]]]].
    eexists. eexists. split; [reflexivity|]. split.
    + right. split; [|reflexivity]. intros [H|[H|H]]; congruence.
    + intros _ _. unfold analysis_valid. eauto 7.
  - assert (Hh : forall x, emits no_call
              (log_activity env (alert_id alert) "Ticket Creation"
                 ("Failed: " ++ exn_str x) "error" ;;;
               @raise TicketResponse
                 (HTTPException 500 ("Failed to create ticket: " ++ exn_str x)))).
    { intros x. emits_tac; exact I. }
    assert (Hskip : forall x, lacks_a_field analysis ->
              (log_activity env (alert_id alert) "Ticket Creation"
                 ("Failed: " ++ exn_str x) "error" ;;;
               @raise TicketResponse
                 (HTTPException 500 ("Failed to create ticket: " ++ exn_str x))) h
              = (Raise e, h1) ->
              exists r new,
                (@Raise TicketResponse e, h1) = (r, (h ++ new)%list)
                /\ ((lacks_a_field analysis /\ calls_of new = [] /\ exists e, r = Raise e)
                    \/ (~ lacks_a_field analysis
                        /\ calls_of new = [("jira", "create_ticket")]))
                /\ (forall ticket, r = Ok ticket -> analysis_valid analysis)).
    { intros x Hl Ex. destruct (Hh x h) as [new [E1 F]]. rewrite Ex in E1.
      simpl in E1. subst h1.
      exists (Raise e), new. split; [reflexivity|].
      split; [|discriminate].
      left. split; [exact Hl|]. split; [now apply calls_of_none|eauto]. }
    unfold _create_jira_ticket in E.
    rewrite try_bind_lift in E.
    destruct (getitem analysis "summary") as [su|x] eqn:G1.
    2:{ apply (Hskip x); [left; exact (getitem_raise_inv _ _ _ G1)|exact E]. }
    rewrite try_bind_lift in E.
    destruct (getitem analysis "description") as [de|x] eqn:G2.
    2:{ apply (Hskip x); [right; left; exact (getitem_raise_inv _ _ _ G2)|exact E]. }
    rewrite try_bind_lift in E.
    destruct (getitem analysis "priority") as [pr|x] eqn:G3.
    2:{ apply (Hskip x); [right; right; exact (getitem_raise_inv _ _ _ G3)|exact E]. }
    cbv zeta in E.
    apply getitem_inv in G1, G2, G3.
    match type of E with try_except (bind (call_tool _ _ _ ?a) ?k) ?hd _ = _ =>
      destruct (try_call_calls env "jira" "create_ticket" a k hd h eq_refl)
        as [r [new [E1 F]]] end.
    + intros v. emits_tac; exact I.
    + exact Hh.
    + rewrite E in E1. inversion E1; subst.
      eexists. eexists. split; [reflexivity|].
      split; [|discriminate].
      right. split; [intros [H|[H|H]]; congruence|].
      simpl. now rewrite (calls_of_none _ F).
Qed.

Lemma servicenow_one_call alert analysis h :
  analysis_valid analysis ->
  exists new,
    _create_servicenow_incident py env alert analysis h = (Ok tt, (h ++ new)%list)
    /\ calls_of new = [("cmdb", "create_incident")].
Proof.
  intros [p [s [t [Hp [Hs Ht]]]]].
  destruct (total_servicenow py env alert analysis h) as [[] [h1 E]].
  rewrite E. unfold _create_servicenow_incident in E.
  rewrite try_bind_lift, (getitem_of_lookup _ _ _ Hs) in E.
  rewrite try_bind_lift, (getitem_of_lookup _ _ _ Ht) in E.
  rewrite try_bind_lift, (getitem_of_lookup _ _ _ Hp) in E.
  rewrite try_bind_lift in E. cbn [_map_priority_to_urgency hashable] in E.
  rewrite try_bind_lift in E.
  rewrite try_bind_lift in E. cbn [_map_priority_to_impact hashable] in E.
  match type of E with try_except (bind (call_tool _ _ _ ?a) ?k) ?hd _ = _ =>
    destruct (try_call_calls env "cmdb" "create_incident" a k hd h eq_refl)
      as [r [new [E1 F]]] end.
  - intros v. emits_tac; exact I.
  - intros e. emits_tac; exact I.
  - rewrite E in E1. inversion E1; subst. eexists. split; [reflexivity|].
    simpl. now rewrite (calls_of_none _ F).
Qed.

Lemma save_no_call alert analysis ticket :
  emits no_call (_save_ticket_record env alert analysis ticket).
Proof. unfold _save_ticket_record. emits_tac; exact I. Qed.

(** X9: a run calls the backends in one order and each of them once at
    most.  It always calls the logs and the inventory and reaches an
    analysis.  When that analysis lacks a field, the ticketing backend is
    not called and the run raises after these two calls.  Otherwise the
    ticketing backend is called: when ticket creation raises, the run
    raises after three calls, and the incident backend is called exactly
    when ticket creation has returned a ticket, for four calls in all; a
    run that returns a ticket has made the four. *)
Theorem process_alert_call_order alert h :
  exists logs h1 cmdb h2 analysis h3 new,
    _retrieve_logs py env self alert
      (h ++ [EvActivity (now env h) (alert_id alert) "Alert Received"
               (severity alert ++ " alert on " ++ host alert ++ ": " ++ message alert)
               "processing"])%list
    = (Ok logs, h1)
    /\ _enrich_with_cmdb py env alert logs h1 = (Ok cmdb, h2)
    /\ _analyze_incident py env self alert logs cmdb h2 = (Ok analysis, h3)
    /\ snd (process_alert py env self alert h) = (h ++ new)%list
    /\ (lacks_a_field analysis ->
        calls_of new = calls_of_enrichment
        /\ exists e, fst (process_alert py env self alert h) = Raise e)
    /\ (~ lacks_a_field analysis ->
        forall e h4,
          _create_jira_ticket py env self alert analysis h3 = (Raise e, h4) ->
          calls_of new = calls_up_to_ticket
          /\ fst (process_alert py env self alert h) = Raise e)
    /\ (calls_of new = calls_of_a_full_run
        <-> exists ticket h4,
              _create_jira_ticket py env self alert analysis h3 = (Ok ticket, h4))
    /\ (forall ticket, fst (process_alert py env self alert h) = Ok ticket ->
          calls_of new = calls_of_a_full_run).
Proof.
  unfold process_alert. rewrite bind_log_activity.
  match goal with |- context [(h ++ [?a])%list] => set (received := a) end.
  destruct (retrieve_logs_calls alert (h ++ [received])%list) as [logs [n1 [E1 C1]]].
  rewrite (bind_ok _ _ _ _ _ E1).
  destruct (enrich_calls alert logs ((h ++ [received]) ++ n1)%list) as [cmdb [n2 [E2 C2]]].
  rewrite (bind_ok _ _ _ _ _ E2).
  destruct (analyze_calls alert logs cmdb (((h ++ [received]) ++ n1) ++ n2)%list)
    as [analysis [n3 [E3 C3]]].
  rewrite (bind_ok _ _ _ _ _ E3).
  exists logs, ((h ++ [received]) ++ n1)%list, cmdb,
         (((h ++ [received]) ++ n1) ++ n2)%list, analysis,
         ((((h ++ [received]) ++ n1) ++ n2) ++ n3)%list.
  destruct (jira_calls alert analysis ((((h ++ [received]) ++ n1) ++ n2) ++ n3)%list)
    as [r [n4 [E4 [C4 V4]]]].
  destruct r as [ticket|e].
  - pose proof (V4 ticket eq_refl) as Hv.
    destruct C4 as [[_ [_ [x Hx]]]|[Hfull C4]]; [discriminate|].
    rewrite (bind_ok _ _ _ _ _ E4).
    destruct (servicenow_one_call alert analysis
                (((((h ++ [received]) ++ n1) ++ n2) ++ n3) ++ n4)%list Hv)
      as [n5 [E5 C5]].
    rewrite (bind_ok _ _ _ _ _ E5).
    destruct (save_no_call alert analysis ticket
                ((((((h ++ [received]) ++ n1) ++ n2) ++ n3) ++ n4) ++ n5)%list)
      as [n6 [E6 F6]].
    exists ([received] ++ n1 ++ n2 ++ n3 ++ n4 ++ n5 ++ n6)%list.
    assert (Hc : calls_of ([received] ++ n1 ++ n2 ++ n3 ++ n4 ++ n5 ++ n6)%list
                 = calls_of_a_full_run).
    { rewrite !calls_of_app, C1, C2, C3, C4, C5, (calls_of_none _ F6). reflexivity. }
    split; [exact E1|]. split; [exact E2|]. split; [exact E3|].
    split.
    { unfold bind at 1.
      destruct (_save_ticket_record env alert analysis ticket _) as [[[]|x] h6];
        simpl in E6; subst h6; simpl; now rewrite <- !app_assoc. }
    split; [intros Hl; contradiction|].
    split; [intros _ e h4 Hr; rewrite E4 in Hr; discriminate|].
    split; [split; [intros _; eauto|intros _; exact Hc]|].
    intros _ _. exact Hc.
  - rewrite (bind_raise _ _ _ _ _ E4).
    exists ([received] ++ n1 ++ n2 ++ n3 ++ n4)%list.
    split; [exact E1|]. split; [exact E2|]. split; [exact E3|].
    split; [simpl; now rewrite <- !app_assoc|].
    assert (Hc : calls_of ([received] ++ n1 ++ n2 ++ n3 ++ n4)%list
                 = (calls_of_enrichment ++ calls_of n4)%list).
    { rewrite !calls_of_app, C1, C2, C3. reflexivity. }
    rewrite Hc.
    destruct C4 as [[Hl [C4 _]]|[Hfull C4]]; rewrite C4.
    + split; [intros _; split; [reflexivity|eexists; reflexivity]|].
      split; [intros Hn; contradiction|].
      split; [|discriminate].
      split; [discriminate|]. intros [ticket [h4 Hr]]. rewrite E4 in Hr. discriminate.
    + split; [intros Hl; contradiction|].
      split.
      { intros _ e' h4 Hr. rewrite E4 in Hr. injection Hr as <- _.
        split; reflexivity. }
      split; [|discriminate].
      split; [discriminate|]. intros [ticket [h4 Hr]]. rewrite E4 in Hr. discriminate.
Qed.

End CallOrder.

(* ================================================================= *)
(** ** What the first steps hand on *)

Lemma try_inv {A} (m : M A) (k : exn -> M A) h r h' :
  try_except m k h = (r, h') ->
  (exists a, m h = (Ok a, h') /\ r = Ok a)
  \/ (exists e h1, m h = (Raise e, h1) /\ k e h1 = (r, h')).
Proof.
  unfold try_except. destruct (m h) as [[a|e] h1]; intros H.
  - inversion H; subst. left. eauto.
  - right. eauto.
Qed.

Section Answers.
Variable py : pylib.
Variable env : environment.

(** The call returns the parsed answer. *)
Lemma call_and_parse h server tool v args :
  existsb (String.eqb server) servers = true ->
  tool_answers py env h server tool v ->
  exists text,
    call_tool env server tool args h
    = (Ok (JStr text), (h ++ [EvToolCall server tool args])%list)
    /\ _parse_tool_response py (JStr text) = Ok v.
Proof.
  intros Hs Ha. destruct (Ha args) as [resp [text [Hr [Hx [Hne Hl]]]]].
  exists text. rewrite (call_tool_received _ _ _ _ _ _ Hs Hr), Hx.
  split; [reflexivity|]. unfold _parse_tool_response. cbn [truthy].
  apply String.eqb_neq in Hne. rewrite Hne. cbn [negb]. now rewrite Hl.
Qed.

Variable self : AITTAgent.

(** X10: the logs that [_retrieve_logs] hands on always have a length: the
    value under [logs] of the answer when that value has one (the count in
    the activity entry is [results_count], or that length), and the empty
    list in every other case, an answer whose [logs] is a number or null
    included. *)
Theorem retrieved_logs_have_a_length alert h :
  (exists logs h',
     _retrieve_logs py env self alert h = (Ok logs, h') /\ exists n, len logs = Ok n)
  /\ (forall d n,
        tool_answers py env h "splunk" "query_logs" (JObj d) ->
        len (get_or d "logs" (JArr [])) = Ok n ->
        exists args ts,
          _retrieve_logs py env self alert h
          = (Ok (get_or d "logs" (JArr [])),
             (h ++ [ EvToolCall "splunk" "query_logs" args;
                     EvActivity ts (alert_id alert) "Logs Retrieved"
                       ("Found " ++ to_str py (get_or d "results_count"
                                                 (JNum (Z.of_nat n)))
                        ++ " relevant log entries from Splunk") "complete" ])%list))
  /\ (forall d e,
        tool_answers py env h "splunk" "query_logs" (JObj d) ->
        len (get_or d "logs" (JArr [])) = Raise e ->
        exists args ts,
          _retrieve_logs py env self alert h
          = (Ok (JArr []),
             (h ++ [ EvToolCall "splunk" "query_logs" args;
                     EvActivity ts (alert_id alert) "Logs Retrieval"
                       ("Failed: " ++ exn_str e) "error" ])%list)).
Proof.
  split; [|split].
  - destruct (total_retrieve_logs py env self alert h) as [logs [h' E]].
    exists logs, h'. split; [exact E|].
    unfold _retrieve_logs in E. apply try_inv in E.
    destruct E as [[a [E Ha]]|[e [h1 [_ E]]]].
    + inversion Ha; subst a; clear Ha.
      apply bind_ok_inv in E. destruct E as [v [h1 [_ E]]].
      apply bind_ok_inv in E. destruct E as [w [h2 [_ E]]].
      apply bind_ok_inv in E. destruct E as [d [h3 [_ E]]].
      cbv zeta in E.
      apply bind_ok_inv in E. destruct E as [n [h4 [E1 E]]].
      apply lift_inv in E1. destruct E1 as [E1 _].
      rewrite bind_log_activity in E. unfold ret in E. inversion E; subst.
      eauto.
    + rewrite bind_log_activity in E. unfold ret in E. inversion E; subst.
      exists 0%nat. reflexivity.
  - intros d n Ha Hn. unfold _retrieve_logs.
    match goal with |- context [call_tool env "splunk" "query_logs" ?a] =>
      destruct (call_and_parse h "splunk" "query_logs" (JObj d) a eq_refl Ha)
        as [text [Hc Hp]]; exists a end.
    erewrite try_ok.
    2:{ rewrite (bind_ok _ _ _ _ _ Hc). rewrite bind_lift, Hp.
        rewrite bind_lift. cbn [as_dict]. cbv zeta. rewrite bind_lift, Hn.
        rewrite bind_log_activity. unfold ret. reflexivity. }
    eexists. rewrite <- app_assoc. reflexivity.
  - intros d e Ha Hn. unfold _retrieve_logs.
    match goal with |- context [call_tool env "splunk" "query_logs" ?a] =>
      destruct (call_and_parse h "splunk" "query_logs" (JObj d) a eq_refl Ha)
        as [text [Hc Hp]]; exists a end.
    erewrite try_raise.
    2:{ rewrite (bind_ok _ _ _ _ _ Hc). rewrite bind_lift, Hp.
        rewrite bind_lift. cbn [as_dict]. cbv zeta. rewrite bind_lift, Hn.
        reflexivity. }
    rewrite bind_log_activity. unfold ret.
    eexists. rewrite <- app_assoc. reflexivity.
Qed.

(** X11: when the inventory answers with JSON that is no object, a list for
    instance, the enrichment step records an error and hands on that value,
    not an empty dict; the analysis step, whatever its configuration, then
    returns the minimal analysis. *)
Theorem enrichment_that_is_no_dict alert logs h v :
  tool_answers py env h "cmdb" "get_asset_info" v ->
  (forall d, v <> JObj d) ->
  (exists ts,
     _enrich_with_cmdb py env alert logs h
     = (Ok v,
        (h ++ [ EvToolCall "cmdb" "get_asset_info" [("hostname", JStr (host alert))];
                EvActivity ts (alert_id alert) "CMDB Query"
                  ("Failed: " ++ exn_str (no_attribute v "get")) "error" ])%list))
  /\ (forall logs' h2,
        fst (_analyze_incident py env self alert logs' v h2)
        = Ok (fallback_analysis alert)).
Proof.
  intros Ha Hv. split.
  - destruct (call_and_parse h "cmdb" "get_asset_info" v
                [("hostname", JStr (host alert))] eq_refl Ha) as [text [Hc Hp]].
    assert (Hd : as_dict v = Raise (no_attribute v "get")).
    { destruct v; try reflexivity. now elim (Hv fields). }
    unfold _enrich_with_cmdb.
    erewrite try_ok.
    2:{ rewrite (bind_ok _ _ _ _ _ Hc). rewrite bind_lift, Hp.
        erewrite try_raise; [|rewrite bind_lift, Hd; reflexivity].
        unfold enrich_failed. rewrite bind_log_activity. unfold ret. reflexivity. }
    eexists. rewrite <- app_assoc. reflexivity.
  - intros logs' h2.
    destruct (selected_analysis py env self alert logs' v h2) as [r h3] eqn:E.
    rewrite (analyze_of_outcome _ _ _ _ _ _ _ _ _ E).
    assert (Hr : exists e, r = Raise e).
    { unfold selected_analysis in E. destruct (llm_available self).
      - unfold _llm_analysis in E. rewrite bind_lift in E.
        assert (Hp : exists e, analysis_prompt py alert logs' v = Raise e).
        { unfold analysis_prompt.
          destruct (len logs'); [|eexists; reflexivity]. cbn [rbind].
          destruct (slice_to 10 logs'); [|eexists; reflexivity]. cbn [rbind].
          destruct v; try (eexists; reflexivity). now elim (Hv fields). }
        destruct Hp as [e Hp]. rewrite Hp in E. inversion E. eauto.
      - destruct (rule_based_not_dict py alert logs' v Hv) as [e He].
        unfold lift in E. rewrite He in E. inversion E. eauto. }
    destruct Hr as [e ->]. reflexivity.
Qed.

End Answers.

(** The logs backend answers with the empty object: no logs. *)
Lemma retrieved_logs_have_a_length_witness :
  tool_answers example_py (env_text "{}") [] "splunk" "query_logs" (JObj [])
  /\ fst (_retrieve_logs example_py (env_text "{}") rules_agent alert_A []) = Ok (JArr []).
Proof.
  assert (Ha : tool_answers example_py (env_text "{}") [] "splunk" "query_logs" (JObj [])).
  { intros args. eexists. exists "{}".
    split; [reflexivity|]. split; [reflexivity|]. split; [discriminate|reflexivity]. }
  split; [exact Ha|].
  destruct (retrieved_logs_have_a_length example_py (env_text "{}") rules_agent alert_A [])
    as [_ [H _]].
  destruct (H [] 0%nat Ha eq_refl) as [args [ts E]]. now rewrite E.
Defined.

(** The inventory answers with the empty array. *)
Lemma enrichment_that_is_no_dict_witness :
  tool_answers example_py (env_text "[]") [] "cmdb" "get_asset_info" (JArr [])
  /\ fst (_enrich_with_cmdb example_py (env_text "[]") alert_A (JArr []) []) = Ok (JArr [])
  /\ fst (_analyze_incident example_py (env_text "[]") rules_agent alert_A (JArr [])
            (JArr []) []) = Ok (fallback_analysis alert_A).
Proof.
  assert (Ha : tool_answers example_py (env_text "[]") [] "cmdb" "get_asset_info" (JArr [])).
  { intros args. eexists. exists "[]".
    split; [reflexivity|]. split; [reflexivity|]. split; [discriminate|reflexivity]. }
  split; [exact Ha|].
  destruct (enrichment_that_is_no_dict example_py (env_text "[]") rules_agent alert_A
              (JArr []) [] (JArr []) Ha ltac:(intros d; discriminate)) as [[ts E] H].
  split; [now rewrite E|apply H].
Defined.

(* ================================================================= *)
(** ** An analysis that is taken as it comes *)

Section Unvalidated.
Variable py : pylib.
Variable env : environment.
Variable cfg : Config.

(** X12: a JSON object in the answer of the provider is the analysis, as it
    is: the analysis step checks that it is a dict and nothing of its
    fields, so that even the empty object is returned and recorded as a
    complete analysis, of priority Unknown when it has none. *)
Theorem llm_object_is_the_analysis alert logs cmdb h prompt text d :
  analysis_prompt py alert logs cmdb = Ok prompt ->
  llm_reply env h prompt = LLMText text ->
  json_loads py (extract_json (if String.eqb (LLM_PROVIDER cfg) "gemini"
                               then strip text else text)) = inl (JObj d) ->
  exists ts,
    _analyze_incident py env (llm_configured cfg) alert logs cmdb h
    = (Ok d,
       (h ++ [ EvLLM prompt;
               EvActivity ts (alert_id alert) "Analysis Complete"
                 ("Priority: " ++ to_str py (get_or d "priority" (JStr "Unknown"))
                  ++ ", Root cause identified") "complete" ])%list).
Proof.
  intros Hp Hr Hl.
  assert (E : selected_analysis py env (llm_configured cfg) alert logs cmdb h
              = (Ok (JObj d), (h ++ [EvLLM prompt])%list)).
  { unfold selected_analysis. cbn [llm_available llm_configured].
    unfold _llm_analysis. rewrite bind_lift, Hp, bind_history.
    unfold bind at 1. unfold emit. rewrite Hr.
    unfold try_except, lift, parse_llm_reply. cbn [config llm_configured].
    now rewrite Hl. }
  rewrite (analyze_of_outcome _ _ _ _ _ _ _ _ _ E).
  eexists. rewrite <- app_assoc. reflexivity.
Qed.

Variable self : AITTAgent.

(** X13: an analysis without [summary], [description] or [priority] makes
    ticket creation fail before the ticketing backend is called: the step
    records the missing key as the error and raises HTTPException 500. *)
Theorem incomplete_analysis_is_fatal alert analysis h :
  lookup analysis "summary" = None \/ lookup analysis "description" = None
  \/ lookup analysis "priority" = None ->
  exists key ts,
    In key ["summary"; "description"; "priority"]
    /\ lookup analysis key = None
    /\ _create_jira_ticket py env self alert analysis h
       = (Raise (HTTPException 500 ("Failed to create ticket: " ++ sq ++ key ++ sq)),
          (h ++ [ EvActivity ts (alert_id alert) "Ticket Creation"
                    ("Failed: " ++ sq ++ key ++ sq) "error" ])%list).
Proof.
  intros Hm. unfold _create_jira_ticket.
  destruct (lookup analysis "summary") as [su|] eqn:Hs.
  2:{ exists "summary". eexists. split; [simpl; auto|]. split; [exact Hs|].
      rewrite try_bind_lift. unfold getitem. rewrite Hs.
      rewrite bind_log_activity. reflexivity. }
  destruct (lookup analysis "description") as [de|] eqn:Hd.
  2:{ exists "description". eexists. split; [simpl; auto|]. split; [exact Hd|].
      rewrite try_bind_lift. unfold getitem at 1. rewrite Hs.
      rewrite try_bind_lift. unfold getitem at 1. rewrite Hd.
      rewrite bind_log_activity. reflexivity. }
  destruct (lookup analysis "priority") as [pr|] eqn:Hp.
  2:{ exists "priority". eexists. split; [simpl; auto|]. split; [exact Hp|].
      rewrite try_bind_lift. unfold getitem at 1. rewrite Hs.
      rewrite try_bind_lift. unfold getitem at 1. rewrite Hd.
      rewrite try_bind_lift. unfold getitem at 1. rewrite Hp.
      rewrite bind_log_activity. reflexivity. }
  exfalso. destruct Hm as [H|[H|H]]; discriminate.
Qed.

End Unvalidated.

(** The provider answers with a fenced empty object. *)
Lemma llm_object_is_the_analysis_witness :
  exists prompt ts,
    analysis_prompt example_py alert_A (JArr []) (JObj []) = Ok prompt
    /\ _analyze_incident example_py env_llm_empty_object (llm_configured example_config)
         alert_A (JArr []) (JObj []) []
       = (Ok [],
          [ EvLLM prompt;
            EvActivity ts "a-1" "Analysis Complete"
              "Priority: Unknown, Root cause identified" "complete" ]).
Proof.
  destruct (analysis_prompt example_py alert_A (JArr []) (JObj [])) as [prompt|e] eqn:Hp;
    [|discriminate].
  exists prompt.
  destruct (llm_object_is_the_analysis example_py env_llm_empty_object example_config
              alert_A (JArr []) (JObj []) [] prompt
              ("```json" ++ nl ++ "{}" ++ nl ++ "```") [] Hp eq_refl eq_refl) as [ts E].
  exists ts. split; [reflexivity|]. exact E.
Defined.

(** The empty analysis. *)
Lemma incomplete_analysis_is_fatal_witness :
  lookup ([] : dict) "summary" = None
  /\ fst (_create_jira_ticket example_py env_down rules_agent alert_A [] [])
     = Raise (HTTPException 500 "Failed to create ticket: 'summary'").
Proof.
  split; [reflexivity|].
  destruct (incomplete_analysis_is_fatal example_py env_down rules_agent alert_A [] []
              (or_introl eq_refl)) as [key [ts [_ [_ E]]]].
  reflexivity.
Defined.

(* ================================================================= *)
(** ** The fences around the answer of the provider *)

Lemma no_backquote_cons c s :
  no_backquote (String c s) -> c <> "`"%char /\ no_backquote s.
Proof.
  unfold no_backquote. cbn [contains prefix].
  destruct (Ascii.ascii_dec "`"%char c) as [<-|Hc].
  - destruct s; discriminate.
  - intros H. split; [congruence|exact H].
Qed.

Lemma prefix_backquote c s rest :
  c <> "`"%char -> prefix (String "`"%char rest) (String c s) = false.
Proof.
  intros Hc. cbn [prefix].
  destruct (Ascii.ascii_dec "`"%char c) as [E|_]; [congruence|reflexivity].
Qed.

Lemma substring_all (s : string) : forall m, (String.length s <= m)%nat -> substring 0 m s = s.
Proof.
  induction s as [|c s IH]; intros m Hm.
  - destruct m; reflexivity.
  - destruct m; [simpl in Hm; lia|]. simpl. rewrite IH; [reflexivity|simpl in Hm; lia].
Qed.

Lemma prefix_app sep rest : prefix sep (sep ++ rest) = true.
Proof.
  induction sep as [|c sep IH]; [destruct rest; reflexivity|].
  cbn [append prefix]. destruct (Ascii.ascii_dec c c) as [_|N]; [exact IH|now elim N].
Qed.

Lemma substring_skip sep rest : forall m,
  (String.length rest <= m)%nat -> substring (String.length sep) m (sep ++ rest) = rest.
Proof.
  induction sep as [|c sep IH]; intros m Hm.
  - now apply substring_all.
  - cbn [String.length append substring]. now apply IH.
Qed.

Lemma after_first_eq sep s :
  after_first sep s
  = if prefix sep s then Some (substring (String.length sep) (String.length s) s)
    else match s with
         | EmptyString => None
         | String _ s' => after_first sep s'
         end.
Proof. destruct s; reflexivity. Qed.

Lemma contains_eq needle hay :
  contains needle hay
  = if prefix needle hay then true
    else match hay with
         | EmptyString => false
         | String _ hay' => contains needle hay'
         end.
Proof. destruct hay; reflexivity. Qed.

Lemma before_first_eq sep s :
  before_first sep s
  = if prefix sep s then EmptyString
    else match s with
         | EmptyString => EmptyString
         | String c s' => String c (before_first sep s')
         end.
Proof. destruct s; reflexivity. Qed.

Lemma length_append a b : String.length (a ++ b) = (String.length a + String.length b)%nat.
Proof. induction a as [|c a IH]; [reflexivity|]. cbn [append String.length]. now rewrite IH. Qed.

Lemma after_first_fence pre rest :
  no_backquote pre ->
  after_first "```json" (pre ++ "```json" ++ rest) = Some rest.
Proof.
  remember ("```json" ++ rest) as tail eqn:Ht.
  induction pre as [|c pre IH]; intros H.
  - cbn [append]. subst tail. rewrite after_first_eq, prefix_app. f_equal.
    apply substring_skip. rewrite length_append. lia.
  - apply no_backquote_cons in H. destruct H as [Hc H].
    cbn [append]. rewrite after_first_eq, (prefix_backquote c _ _ Hc). now apply IH.
Qed.

Lemma contains_fence pre rest :
  no_backquote pre -> contains "```json" (pre ++ "```json" ++ rest) = true.
Proof.
  remember ("```json" ++ rest) as tail eqn:Ht.
  induction pre as [|c pre IH]; intros H.
  - cbn [append]. subst tail. now rewrite contains_eq, prefix_app.
  - apply no_backquote_cons in H. destruct H as [Hc H].
    cbn [append]. rewrite contains_eq, (prefix_backquote c _ _ Hc). now apply IH.
Qed.

Lemma before_first_fence body post :
  no_backquote body -> before_first "```" (body ++ "```" ++ post) = body.
Proof.
  remember ("```" ++ post) as tail eqn:Ht.
  induction body as [|c body IH]; intros H.
  - cbn [append]. subst tail. now rewrite before_first_eq, prefix_app.
  - apply no_backquote_cons in H. destruct H as [Hc H].
    cbn [append]. rewrite before_first_eq, (prefix_backquote c _ _ Hc).
    now rewrite IH.
Qed.

Lemma before_first_open body :
  no_backquote body -> before_first "```" body = body.
Proof.
  induction body as [|c body IH]; intros H; [reflexivity|].
  apply no_backquote_cons in H. destruct H as [Hc H].
  rewrite before_first_eq, (prefix_backquote c _ _ Hc). now rewrite IH.
Qed.

Lemma contains_no_fence text rest :
  no_backquote text -> contains (String "`"%char rest) text = false.
Proof.
  induction text as [|c text IH]; intros H.
  - reflexivity.
  - apply no_backquote_cons in H. destruct H as [Hc H].
    rewrite contains_eq, (prefix_backquote c _ _ Hc). now apply IH.
Qed.

(** X14: of an answer with a json fence, whatever precedes the fence and
    whatever follows its end, the text parsed is what stands between the
    fence and its end, stripped; a fence that is never closed gives all
    that follows it; an answer without a backquote is parsed as it is. *)
Theorem fenced_json_is_extracted pre body post :
  no_backquote pre -> no_backquote body ->
  extract_json (pre ++ "```json" ++ body ++ "```" ++ post) = strip body
  /\ extract_json (pre ++ "```json" ++ body) = strip body
  /\ extract_json body = body.
Proof.
  intros Hpre Hbody. unfold extract_json, fenced. split; [|split].
  - rewrite (contains_fence _ _ Hpre), (after_first_fence _ _ Hpre). cbv iota beta.
    now rewrite (before_first_fence _ _ Hbody).
  - rewrite (contains_fence _ _ Hpre), (after_first_fence _ _ Hpre). cbv iota beta.
    now rewrite (before_first_open _ Hbody).
  - now rewrite !(contains_no_fence _ _ Hbody).
Qed.

Lemma fenced_json_is_extracted_witness :
  no_backquote "Here is the analysis: "
  /\ extract_json ("Here is the analysis: " ++ "```json" ++ " {} " ++ "```" ++ " Regards")
     = "{}".
Proof.
  split; [reflexivity|].
  destruct (fenced_json_is_extracted "Here is the analysis: " " {} " " Regards"
              eq_refl eq_refl) as [E _].
  rewrite E. reflexivity.
Defined.

(* ================================================================= *)
(** ** The batch scan: the table of hosts *)

Lemma str_take_length n : forall s, (String.length (str_take n s) <= n)%nat.
Proof.
  induction n as [|n IH]; intros s; [destruct s; simpl; lia|].
  destruct s as [|c s]; simpl; [lia|]. specialize (IH s). lia.
Qed.

Section Table.
Variable f : host_data -> host_data.

Lemma table_update_keys k (t : host_table) :
  map fst (table_update k f t) = map fst t.
Proof.
  induction t as [|[k' v] t IH]; [reflexivity|].
  simpl. destruct (key_eqb k k'); simpl; [reflexivity|now rewrite IH].
Qed.

Lemma table_mem_keys k (t t' : host_table) :
  map fst t = map fst t' -> table_mem k t = table_mem k t'.
Proof.
  revert t'. induction t as [|[k1 v1] t IH]; intros [|[k2 v2] t'] H;
    try discriminate; [reflexivity|].
  simpl in *. inversion H; subst. now rewrite (IH t').
Qed.

Lemma keys_distinct_keys (t t' : host_table) :
  map fst t = map fst t' -> keys_distinct t -> keys_distinct t'.
Proof.
  revert t'. induction t as [|[k1 v1] t IH]; intros [|[k2 v2] t'] H;
    try discriminate; [auto|].
  simpl in *. inversion H; subst. intros [Hm Hd]. split; [|now apply IH].
  now rewrite <- (table_mem_keys k2 t t').
Qed.

Lemma table_update_length k (t : host_table) :
  List.length (table_update k f t) = List.length t.
Proof. rewrite <- (length_map fst), table_update_keys. apply length_map. Qed.

(** The update of a host that has no row yet reaches the row added last. *)
Lemma table_update_new k r (t : host_table) :
  hashable k = true -> table_mem k t = false ->
  table_update k f (t ++ [(k, r)])%list = (t ++ [(k, f r)])%list.
Proof.
  intros Hk. induction t as [|[k' v] t IH]; simpl; intros Hm.
  - now rewrite (key_eqb_refl _ Hk).
  - apply orb_false_iff in Hm. destruct Hm as [H1 H2]. rewrite H1. now rewrite IH.
Qed.

Lemma table_update_rows (P : json * host_data -> Prop) k (t : host_table) :
  (forall k' v, P (k', v) -> P (k', f v)) ->
  Forall P t -> Forall P (table_update k f t).
Proof.
  intros Hf. induction 1 as [|[k' v] t Hp Ht IH]; simpl; [constructor|].
  destruct (key_eqb k k'); constructor; auto.
Qed.

End Table.

Lemma events_counted_app (a b : host_table) :
  events_counted (a ++ b)%list = (events_counted a + events_counted b)%nat.
Proof.
  induction a as [|kv a IH]; [reflexivity|]. simpl. rewrite IH. lia.
Qed.

Lemma events_counted_append k m (t : host_table) :
  table_mem k t = true ->
  events_counted (table_update k (count_and_append m) t) = S (events_counted t).
Proof.
  induction t as [|[k' v] t IH]; simpl; [discriminate|].
  destruct (key_eqb k k'); simpl; intros H; [reflexivity|].
  rewrite IH by exact H. lia.
Qed.

Lemma events_counted_severity k l (t : host_table) :
  events_counted (table_update k (set_severity l) t) = events_counted t.
Proof.
  induction t as [|[k' v] t IH]; [reflexivity|].
  simpl. destruct (key_eqb k k'); simpl; [reflexivity|now rewrite IH].
Qed.

Lemma table_mem_app k (a b : host_table) :
  table_mem k (a ++ b)%list = orb (table_mem k a) (table_mem k b).
Proof.
  induction a as [|[k' v] a IH]; [reflexivity|]. simpl. rewrite IH. now rewrite orb_assoc.
Qed.

Lemma keys_distinct_add k r (t : host_table) :
  table_mem k t = false -> keys_distinct t -> keys_distinct (t ++ [(k, r)])%list.
Proof.
  induction t as [|[k' v] t IH]; simpl; intros Hm Hd; [auto|].
  apply orb_false_iff in Hm. destruct Hm as [H1 H2]. destruct Hd as [H3 H4].
  split; [|now apply IH].
  rewrite table_mem_app, H3. simpl. rewrite key_eqb_sym, H1. reflexivity.
Qed.

Lemma escalate_range current lowered :
  current = "Medium" \/ current = "High" \/ current = "Critical" ->
  escalate current lowered = "Medium" \/ escalate current lowered = "High"
  \/ escalate current lowered = "Critical".
Proof.
  intros H. destruct (escalate_cases current lowered) as [E|[E|E]]; rewrite E; tauto.
Qed.

Lemma set_severity_row_ok l k v : row_ok (k, v) -> row_ok (k, set_severity l v).
Proof.
  unfold row_ok. simpl. intros [H1 [H2 [H3 [H4 [H5 H6]]]]].
  repeat split; auto. now apply escalate_range.
Qed.

(** What one event does to the table. *)
Lemma scan_event_step now_iso t event t' :
  scan_event now_iso t event = Ok t' ->
  Forall row_ok t -> keys_distinct t ->
  Forall row_ok t' /\ keys_distinct t'
  /\ events_counted t' = S (events_counted t)
  /\ (List.length t' <= S (List.length t))%nat.
Proof.
  unfold scan_event. intros H Hrows Hkeys.
  apply rbind_ok in H. destruct H as [d [Hd H]].
  destruct (hashable (get_or d "host" (JStr "unknown"))) eqn:Hh; [|discriminate].
  cbv zeta in H.
  apply rbind_ok in H. destruct H as [m [Hm H]].
  apply rbind_ok in H. destruct H as [low [Hl H]].
  inversion H; subst t'; clear H.
  set (host_ := get_or d "host" (JStr "unknown")) in *.
  set (raw := get_or d "_raw" (JStr EmptyString)) in *.
  assert (Hshort : short_message m).
  { destruct raw; try discriminate Hl. unfold slice_to in Hm.
    exists (str_take 200 s). split; [congruence|apply str_take_length]. }
  destruct (table_mem host_ t) eqn:Hmem.
  - (* the host has a row *)
    repeat split.
    + apply table_update_rows; [intros; now apply set_severity_row_ok|].
      apply table_update_rows; [|exact Hrows].
      intros k' v [H1 [H2 [H3 [H4 [H5 H6]]]]]. unfold row_ok.
      cbn [fst snd] in *. simpl.
      repeat split; auto.
      * rewrite length_app. simpl. lia.
      * apply Forall_app. split; [exact H5|]. now constructor.
    + eapply keys_distinct_keys; [|exact Hkeys].
      now rewrite !table_update_keys.
    + rewrite events_counted_severity. now apply events_counted_append.
    + rewrite !table_update_length. lia.
  - (* a new row *)
    rewrite (table_update_new _ _ _ _ Hh Hmem).
    rewrite (table_update_new _ _ _ _ Hh Hmem).
    repeat split.
    + apply Forall_app. split; [exact Hrows|]. constructor; [|constructor].
      unfold row_ok. simpl. repeat split; auto.
      apply (escalate_range "Medium"). now left.
    + now apply keys_distinct_add.
    + rewrite !events_counted_app. simpl. lia.
    + rewrite length_app. simpl. lia.
Qed.

Lemma scan_events_steps now_iso : forall events t t',
  scan_events now_iso t events = Ok t' ->
  Forall row_ok t -> keys_distinct t ->
  Forall row_ok t' /\ keys_distinct t'
  /\ events_counted t' = (events_counted t + List.length events)%nat
  /\ (List.length t' <= List.length t + List.length events)%nat.
Proof.
  induction events as [|event events IH]; intros t t' H Hrows Hkeys.
  - simpl in H. inversion H; subst. repeat split; auto; lia.
  - simpl in H. apply rbind_ok in H. destruct H as [t1 [E1 H]].
    destruct (scan_event_step _ _ _ _ E1 Hrows Hkeys) as [R1 [K1 [C1 L1]]].
    destruct (IH _ _ H R1 K1) as [R2 [K2 [C2 L2]]].
    repeat split; auto; simpl; lia.
Qed.

(** X15: the table the scan builds from the events has one row for each
    host, the rows count every event once, each row keeps as many messages
    as it counts events, one at least, each message a string of 200
    characters at most, and its severity is Medium, High or Critical. *)
Theorem host_table_invariants now_iso events t :
  scan_events now_iso [] events = Ok t ->
  events_counted t = List.length events
  /\ (List.length t <= List.length events)%nat
  /\ keys_distinct t
  /\ Forall row_ok t.
Proof.
  intros H.
  destruct (scan_events_steps now_iso events [] t H (Forall_nil _) I)
    as [R [K [C L]]].
  simpl in C, L. auto.
Qed.

Lemma host_table_invariants_witness :
  exists t,
    scan_events "2025-01-01T00:00:00" []
      [event_of "h1" "fatal outage"; event_of "h2" "disk full"; event_of "h1" "retry"] = Ok t
    /\ events_counted t = 3%nat /\ List.length t = 2%nat.
Proof.
  eexists. split; [reflexivity|].
  match goal with |- events_counted ?t = _ /\ _ =>
    destruct (host_table_invariants "2025-01-01T00:00:00"
                [event_of "h1" "fatal outage"; event_of "h2" "disk full";
                 event_of "h1" "retry"] t eq_refl) as [C _] end.
  split; [exact C|reflexivity].
Defined.

(* ================================================================= *)
(** ** The batch scan: the report *)

Lemma list_last_in {A} (l : list A) m : list_last l = Some m -> In m l.
Proof.
  unfold list_last. destruct (rev l) as [|x xs] eqn:E; [discriminate|].
  intros H. inversion H; subst. apply in_rev. rewrite E. now left.
Qed.

Lemma list_last_some {A} (l : list A) : l <> [] -> exists m, list_last l = Some m.
Proof.
  unfold list_last. intros H. destruct (rev l) as [|x xs] eqn:E; [|eauto].
  exfalso. apply H. rewrite <- (rev_involutive l), E. reflexivity.
Qed.

Lemma chars_length s : List.length (chars s) = String.length s.
Proof.
  unfold chars. rewrite length_map. induction s as [|c s IH]; simpl; congruence.
Qed.

Lemma len_iterate v items : iterate v = Ok items -> len v = Ok (List.length items).
Proof.
  destruct v; simpl; intros H; inversion H; subst; try reflexivity.
  - now rewrite chars_length.
  - now rewrite length_map.
Qed.

Lemma filter_both_length {A} (f : A -> bool) (l : list A) :
  (List.length (filter f l) + List.length (filter (fun a => negb (f a)) l)
   = List.length l)%nat.
Proof.
  induction l as [|a l IH]; [reflexivity|]. simpl. destruct (f a); simpl; lia.
Qed.

Lemma errors_reported_rows : forall alerts (t : host_table),
  map entry_summary alerts = map row_summary t ->
  errors_reported alerts = events_counted t.
Proof.
  induction alerts as [|a alerts IH]; intros [|kv t] H; try discriminate; [reflexivity|].
  simpl in H. inversion H as [[H1 H2]]. simpl. rewrite (IH t H2), H1. reflexivity.
Qed.

Lemma row_ok_has_messages kv : row_ok kv -> row_has_messages (snd kv).
Proof.
  intros [_ [_ [H3 [H4 [H5 _]]]]]. split; [|exact H5].
  intros E. rewrite E in H3. simpl in H3. lia.
Qed.

Lemma not_well_formed_raises now_iso t event :
  well_formed_event event = false -> exists e, scan_event now_iso t event = Raise e.
Proof.
  unfold scan_event, well_formed_event.
  destruct event as [| | | |l|d]; cbn [as_dict rbind]; try (intros _; eexists; reflexivity).
  cbv zeta. destruct (hashable (get_or d "host" (JStr "unknown")));
    [|intros _; eexists; reflexivity].
  cbn [andb].
  destruct (get_or d "_raw" (JStr EmptyString)) as [| | |s|l|d']; try discriminate;
    intros _; cbn [slice_to lower_of rbind]; eexists; reflexivity.
Qed.

Lemma well_formed_returns now_iso t event :
  well_formed_event event = true -> exists t', scan_event now_iso t event = Ok t'.
Proof.
  unfold scan_event, well_formed_event.
  destruct event as [| | | |l|d]; try discriminate. cbn [as_dict rbind]. cbv zeta.
  destruct (hashable (get_or d "host" (JStr "unknown"))); [|discriminate].
  cbn [andb].
  destruct (get_or d "_raw" (JStr EmptyString)) as [| | |s|l|d']; try discriminate.
  intros _. cbn [slice_to lower_of rbind]. eexists. reflexivity.
Qed.

Lemma scan_events_malformed now_iso : forall events t,
  forallb well_formed_event events = false ->
  exists e, scan_events now_iso t events = Raise e.
Proof.
  induction events as [|event events IH]; intros t H; [discriminate|].
  cbn [forallb] in H. cbn [scan_events].
  destruct (well_formed_event event) eqn:W.
  - destruct (scan_event now_iso t event) as [t1|e]; cbn [rbind]; [|eauto].
    apply IH. exact H.
  - destruct (not_well_formed_raises now_iso t event W) as [e E]. rewrite E.
    cbn [rbind]. eauto.
Qed.

Lemma scan_events_well_formed now_iso : forall events t,
  forallb well_formed_event events = true ->
  exists t', scan_events now_iso t events = Ok t'.
Proof.
  induction events as [|event events IH]; intros t H; [simpl; eauto|].
  cbn [forallb] in H. apply andb_true_iff in H. destruct H as [W H].
  cbn [scan_events].
  destruct (well_formed_returns now_iso t event W) as [t1 E]. rewrite E. cbn [rbind].
  now apply IH.
Qed.

(** X16: the grouping loop returns a table exactly when every event is a
    dict whose [host] can be hashed and whose [_raw] is a string; one event
    of another shape, wherever it stands, makes the loop raise. *)
Theorem grouping_accepts_well_formed_events now_iso events :
  (exists t, scan_events now_iso [] events = Ok t)
  <-> forallb well_formed_event events = true.
Proof.
  split.
  - intros [t H]. destruct (forallb well_formed_event events) eqn:W; [reflexivity|].
    destruct (scan_events_malformed now_iso events [] W) as [e E]. congruence.
  - apply scan_events_well_formed.
Qed.

Lemma grouping_accepts_well_formed_events_witness :
  exists t,
    scan_events "2025-01-01T00:00:00" []
      [event_of "h1" "fatal outage"; event_of "h2" "disk full"] = Ok t.
Proof.
  apply (grouping_accepts_well_formed_events "2025-01-01T00:00:00"
           [event_of "h1" "fatal outage"; event_of "h2" "disk full"]).
  reflexivity.
Defined.

Section Report.
Variable py : pylib.
Variable env : environment.
Variable self : AITTAgent.

Lemma synthesize_ok time_range now_ r :
  row_has_messages r -> exists a, synthesize_alert py time_range now_ r = Ok a.
Proof.
  intros [Hne Hs]. unfold synthesize_alert.
  destruct (list_last_some _ Hne) as [m Hm]. rewrite Hm.
  apply list_last_in in Hm.
  destruct (proj1 (Forall_forall _ _) Hs m Hm) as [s [E _]]. subst m.
  cbn [slice_to rbind]. eexists. reflexivity.
Qed.

(** Every host with a message gets one entry, a ticket or a failure. *)
Lemma scan_host_entry time_range r h :
  row_has_messages r ->
  exists entry h',
    scan_host py env self time_range r h = (Ok entry, h')
    /\ entry_summary entry = (hd_host r, hd_severity r, hd_error_count r).
Proof.
  intros Hr. unfold scan_host. rewrite bind_history, bind_lift.
  destruct (synthesize_ok time_range (now env h) r Hr) as [a Ea]. rewrite Ea.
  unfold try_except.
  match goal with |- context [match ?b h with _ => _ end] =>
    destruct (b h) as [[x|e] h1] eqn:E end.
  - apply bind_ok_inv in E. destruct E as [alert [h2 [E1 E]]].
    apply bind_ok_inv in E. destruct E as [ticket [h3 [E2 E]]].
    rewrite bind_history in E. unfold ret in E. inversion E; subst.
    eexists. eexists. split; reflexivity.
  - unfold ret. eexists. eexists. split; reflexivity.
Qed.

Lemma scan_hosts_entries time_range : forall rs h,
  Forall row_has_messages rs ->
  exists alerts h',
    scan_hosts py env self time_range rs h = (Ok alerts, h')
    /\ map entry_summary alerts
       = map (fun r => (hd_host r, hd_severity r, hd_error_count r)) rs.
Proof.
  induction rs as [|r rs IH]; intros h Hrs.
  - exists [], h. split; reflexivity.
  - inversion Hrs as [|r' rs' Hr Hrest]; subst.
    destruct (scan_host_entry time_range r h Hr) as [entry [h1 [E1 S1]]].
    destruct (IH h1 Hrest) as [alerts [h2 [E2 S2]]].
    exists (entry :: alerts), h2. cbn [scan_hosts].
    rewrite (bind_ok _ _ _ _ _ E1), (bind_ok _ _ _ _ _ E2). unfold ret.
    split; [reflexivity|]. cbn [map]. now rewrite S1, S2.
Qed.

(** X17: when the search answers with an object and the grouping loop
    accepts its events, the scan is completed: the report counts the
    events and the hosts, has one entry for each host, in the order of the
    table and with the host's severity and number of events, processed or
    failed, and the numbers of events of its entries add up to the total. *)
Theorem completed_scan_report time_range h d events t :
  tool_answers py env h "splunk" "search_recent" (JObj d) ->
  iterate (get_or d "results" (JArr [])) = Ok events ->
  scan_events (isoformat py (now env (h ++ [search_call])%list)) [] events = Ok t ->
  exists processed failed alerts h',
    scan_and_create_alerts py env self time_range h
    = (Ok (ScanCompleted time_range (List.length events) (List.length t)
             processed failed alerts), h')
    /\ (processed + failed)%nat = List.length t
    /\ map entry_summary alerts = map row_summary t
    /\ errors_reported alerts = List.length events.
Proof.
  intros Ha Hi Hs.
  destruct (call_and_parse py env h "splunk" "search_recent" (JObj d) search_arguments
              eq_refl Ha) as [text [Hc Hp]].
  destruct (scan_events_steps _ _ _ _ Hs (Forall_nil _) I) as [R [_ [C _]]].
  assert (Hrows : Forall row_has_messages (map snd t)).
  { apply Forall_map. eapply Forall_impl; [|exact R].
    intros kv. apply row_ok_has_messages. }
  destruct (scan_hosts_entries time_range (map snd t)
              (h ++ [search_call])%list Hrows) as [alerts [h' [E S]]].
  assert (S' : map entry_summary alerts = map row_summary t).
  { rewrite S, map_map. reflexivity. }
  exists (List.length (filter is_processed alerts)),
         (List.length (filter (fun a => negb (is_processed a)) alerts)), alerts, h'.
  split; [|split; [|split; [exact S'|]]].
  - unfold scan_and_create_alerts, try_except.
    rewrite (bind_ok _ _ _ _ _ Hc), bind_lift, Hp. cbv beta iota.
    rewrite bind_lift. cbn [as_dict]. cbv beta iota zeta.
    rewrite bind_lift, Hi. cbv beta iota.
    rewrite bind_history, bind_lift. fold search_call. rewrite Hs. cbv beta iota.
    rewrite (bind_ok _ _ _ _ _ E), bind_lift, (len_iterate _ _ Hi). reflexivity.
  - rewrite filter_both_length, <- (length_map entry_summary), S'. apply length_map.
  - rewrite (errors_reported_rows _ _ S'). simpl in C. exact C.
Qed.

(** X18: one event of another shape among those of the search makes the
    whole scan fail: the report has the status failed, and nothing but the
    search has happened, no alert for the hosts of the other events. *)
Theorem malformed_event_fails_the_scan time_range h d events :
  tool_answers py env h "splunk" "search_recent" (JObj d) ->
  iterate (get_or d "results" (JArr [])) = Ok events ->
  forallb well_formed_event events = false ->
  exists e,
    scan_and_create_alerts py env self time_range h
    = (Ok (ScanFailed (exn_str e) time_range), (h ++ [search_call])%list).
Proof.
  intros Ha Hi Hw.
  destruct (call_and_parse py env h "splunk" "search_recent" (JObj d) search_arguments
              eq_refl Ha) as [text [Hc Hp]].
  destruct (scan_events_malformed
              (isoformat py (now env (h ++ [search_call])%list)) events [] Hw) as [e E].
  exists e.
  unfold scan_and_create_alerts, try_except.
  rewrite (bind_ok _ _ _ _ _ Hc), bind_lift, Hp. cbv beta iota.
  rewrite bind_lift. cbn [as_dict]. cbv beta iota zeta.
  rewrite bind_lift, Hi. cbv beta iota.
  rewrite bind_history, bind_lift. fold search_call. rewrite E. reflexivity.
Qed.

(** X19: a host that is no string, a number for instance, groups its
    events as any other, but its alert never reaches the pipeline: the
    entry of the report is a failure and the step leaves no trace. *)
Theorem host_that_is_no_string_fails time_range r h :
  row_has_messages r ->
  (forall s, hd_host r <> JStr s) ->
  exists aid error,
    scan_host py env self time_range r h
    = (Ok (Failed aid (hd_host r) (hd_severity r) (hd_error_count r) error), h).
Proof.
  intros Hr Hh. unfold scan_host. rewrite bind_history, bind_lift.
  destruct (synthesize_ok time_range (now env h) r Hr) as [a Ea]. rewrite Ea.
  assert (Hhost : af_host a = hd_host r).
  { unfold synthesize_alert in Ea. apply rbind_ok in Ea. destruct Ea as [m [_ Ea]].
    inversion Ea. reflexivity. }
  unfold try_except. rewrite bind_lift. unfold validate_alert.
  destruct (af_host a) as [| | |s|l|d] eqn:Eh;
    try (cbn [field_str rbind]; unfold ret; rewrite <- Hhost;
         eexists; eexists; reflexivity).
  exfalso. apply (Hh s). now rewrite <- Hhost.
Qed.

End Report.


Lemma search_answers reply v :
  reply <> EmptyString -> scan_loads reply = inl v ->
  tool_answers scan_py (env_search reply) [] "splunk" "search_recent" v.
Proof.
  intros Hne Hl args. eexists. exists reply.
  split; [reflexivity|]. split; [reflexivity|]. split; [exact Hne|exact Hl].
Qed.

(** A search that finds events on two hosts, every other backend down. *)
Lemma completed_scan_report_witness :
  exists processed failed alerts h',
    scan_and_create_alerts scan_py (env_search two_hosts_text) rules_agent "1h" []
    = (Ok (ScanCompleted "1h" 2 2 processed failed alerts), h')
    /\ (processed + failed)%nat = 2%nat
    /\ errors_reported alerts = 2%nat.
Proof.
  assert (Ha : tool_answers scan_py (env_search two_hosts_text) [] "splunk"
                 "search_recent" (JObj two_hosts)).
  { apply search_answers; [discriminate|reflexivity]. }
  destruct (scan_events
              (isoformat scan_py (now (env_search two_hosts_text) ([] ++ [search_call])%list))
              []
              [ JObj [("host", JStr "h1"); ("_raw", JStr "fatal outage")];
                JObj [("host", JStr "h2"); ("_raw", JStr "disk full")] ])
    as [t|e] eqn:Hs; [|vm_compute in Hs; discriminate].
  assert (Hlen : List.length t = 2%nat).
  { pose proof Hs as Hs'. vm_compute in Hs'. injection Hs' as Hs'. rewrite <- Hs'.
    reflexivity. }
  destruct (completed_scan_report scan_py (env_search two_hosts_text) rules_agent "1h" []
              two_hosts _ t Ha eq_refl Hs) as [p [f [alerts [h' [E [Hpf [_ Herr]]]]]]].
  exists p, f, alerts, h'. cbn [List.length] in E, Herr. rewrite Hlen in E, Hpf.
  split; [exact E|]. split; [exact Hpf|exact Herr].
Defined.

(** The second result of the search is a number: no alert for the host of
    the first one. *)
Lemma malformed_event_fails_the_scan_witness :
  exists e,
    scan_and_create_alerts scan_py (env_search odd_result_text) rules_agent "1h" []
    = (Ok (ScanFailed (exn_str e) "1h"), [search_call]).
Proof.
  apply (malformed_event_fails_the_scan scan_py (env_search odd_result_text) rules_agent
           "1h" [] odd_result
           [ JObj [("host", JStr "h1"); ("_raw", JStr "fatal outage")]; JNum 7 ]).
  - apply search_answers; [discriminate|reflexivity].
  - reflexivity.
  - reflexivity.
Defined.

Lemma host_that_is_no_string_fails_witness :
  exists aid error,
    scan_host example_py env_down rules_agent "1h" numbered_host []
    = (Ok (Failed aid (JNum 7) "Medium" 1 error), []).
Proof.
  apply (host_that_is_no_string_fails example_py env_down rules_agent "1h" numbered_host []).
  - split; [discriminate|]. constructor; [|constructor].
    exists "disk full". split; [reflexivity|]. cbn. lia.
  - intros s. discriminate.
Defined.

(** The ticketing backend answers with the empty object, the others are
    down: the four calls are made. *)
Lemma process_alert_call_order_witness :
  calls_of (snd (process_alert example_py (env_jira_only "{}") rules_agent alert_A []))
  = calls_of_a_full_run.
Proof.
  destruct (process_alert_call_order example_py (env_jira_only "{}") rules_agent
              alert_A [])
    as [logs [h1 [cmdb [h2 [analysis [h3 [new [_ [_ [_ [E [_ [_ [_ Hall]]]]]]]]]]]]]].
  rewrite E. cbn [app].
  destruct (process_alert example_py (env_jira_only "{}") rules_agent alert_A [])
    as [[ticket|e] h'] eqn:R; [|vm_compute in R; discriminate].
  apply (Hall ticket). reflexivity.
Defined.

(* ================================================================= *)
(** ** The incident patterns of the dashboard *)

Lemma classify_class s : In (Api.classify s) pattern_names.
Proof.
  unfold Api.classify, pattern_names.
  repeat match goal with |- context [if ?c then _ else _] => destruct c end;
    cbn [In]; auto 10.
Qed.

Lemma bump_counted k ps : pairs_counted (Api.bump k ps) = S (pairs_counted ps).
Proof.
  induction ps as [|[k' v] ps IH]; [reflexivity|].
  cbn [Api.bump]. destruct (String.eqb k k'); cbn [pairs_counted fold_right snd];
    [lia|]. fold (pairs_counted (Api.bump k ps)). rewrite IH.
  fold (pairs_counted ps). lia.
Qed.

Lemma bump_keys k ps : incl (map fst (Api.bump k ps)) (k :: map fst ps).
Proof.
  induction ps as [|[k' v] ps IH]; cbn [Api.bump map fst].
  - apply incl_refl.
  - destruct (String.eqb k k'); cbn [map fst].
    + apply incl_tl, incl_refl.
    + intros x [Hx|Hx]; [right; now left|].
      destruct (IH x Hx) as [E|Hin]; [now left|right; now right].
Qed.

Lemma bump_nodup k ps : NoDup (map fst ps) -> NoDup (map fst (Api.bump k ps)).
Proof.
  induction ps as [|[k' v] ps IH]; cbn [Api.bump map fst]; intros Hnd.
  - constructor; [intros []|constructor].
  - inversion Hnd as [|x l Hnotin Hrest]; subst.
    destruct (String.eqb_spec k k'); cbn [map fst]; [exact Hnd|].
    constructor; [|now apply IH].
    intros Hin. destruct (bump_keys k ps k' Hin) as [E|Hin']; [congruence|contradiction].
Qed.

Lemma count_patterns_returns : forall summaries ps,
  Forall is_text summaries ->
  exists ps',
    Api.count_patterns summaries ps = Ok ps'
    /\ pairs_counted ps' = (pairs_counted ps + List.length summaries)%nat
    /\ (NoDup (map fst ps) -> NoDup (map fst ps'))
    /\ (incl (map fst ps) pattern_names -> incl (map fst ps') pattern_names).
Proof.
  induction summaries as [|s summaries IH]; intros ps Hs.
  - exists ps. cbn [Api.count_patterns List.length]. repeat split; auto.
  - inversion Hs as [|s' l [x Hx] Hrest]; subst.
    destruct (IH (Api.bump (Api.classify (lower x)) ps) Hrest) as [ps' [E [C [N I]]]].
    exists ps'. cbn [Api.count_patterns lower_of rbind List.length].
    split; [exact E|]. split; [rewrite C, bump_counted; lia|]. split.
    + intros Hnd. now apply N, bump_nodup.
    + intros Hin. apply I. intros k Hk.
      destruct (bump_keys _ _ _ Hk) as [Ek|Hk']; [subst k; apply classify_class|].
      now apply Hin.
Qed.

Lemma count_patterns_raises : forall summaries ps s,
  In s summaries -> (forall x, s <> JStr x) ->
  exists e, Api.count_patterns summaries ps = Raise e.
Proof.
  induction summaries as [|s0 summaries IH]; intros ps s Hin Hs; [destruct Hin|].
  cbn [Api.count_patterns].
  destruct (lower_of s0) as [low|e] eqn:El; cbn [rbind]; [|eauto].
  destruct Hin as [E|Hin]; [|now apply (IH _ s)].
  subst s0. destruct s; try discriminate El. exfalso. now apply (Hs s).
Qed.

Lemma insert_desc_perm x l : Permutation (Api.insert_desc x l) (x :: l).
Proof.
  induction l as [|y l IH]; cbn [Api.insert_desc]; [apply Permutation_refl|].
  destruct (snd y <=? snd x)%nat; [apply Permutation_refl|].
  eapply Permutation_trans; [apply perm_skip, IH|apply perm_swap].
Qed.

Lemma sorted_desc_perm l : Permutation (Api.sorted_desc l) l.
Proof.
  unfold Api.sorted_desc. induction l as [|x l IH]; cbn [fold_right]; [constructor|].
  eapply Permutation_trans; [apply insert_desc_perm|now apply perm_skip].
Qed.

Lemma insert_desc_descending x l :
  descending (map snd l) -> descending (map snd (Api.insert_desc x l)).
Proof.
  induction l as [|y l IH]; cbn [Api.insert_desc map descending]; [auto|].
  intros [Hy Hl].
  destruct (snd y <=? snd x)%nat eqn:C; cbn [map descending].
  - apply Nat.leb_le in C. auto.
  - apply Nat.leb_gt in C. split; [|now apply IH].
    destruct l as [|z l]; cbn [Api.insert_desc map]; [lia|].
    destruct (snd z <=? snd x)%nat; cbn [map]; [lia|exact Hy].
Qed.

Lemma sorted_desc_descending l : descending (map snd (Api.sorted_desc l)).
Proof.
  unfold Api.sorted_desc. induction l as [|x l IH]; cbn [fold_right]; [exact I|].
  now apply insert_desc_descending.
Qed.

Lemma pairs_counted_perm a b : Permutation a b -> pairs_counted a = pairs_counted b.
Proof.
  unfold pairs_counted. induction 1; cbn [fold_right]; lia.
Qed.

Lemma tickets_counted_pairs l : tickets_counted (map pattern_of_pair l) = pairs_counted l.
Proof.
  unfold tickets_counted, pairs_counted.
  induction l as [|kv l IH]; [reflexivity|].
  cbn [map fold_right pattern_of_pair Api.count]. now rewrite IH.
Qed.

(** X20: the answer of the incident patterns endpoint accounts for every
    ticket of the period: its counts add up to the number of tickets, no
    pattern is listed twice, the counts go down the list, every count is
    of one of the five names, and the limit of five entries never cuts
    anything; one ticket whose summary is no text empties the answer. *)
Theorem incident_patterns_account_for_tickets summaries :
  (Forall is_text summaries ->
   tickets_counted (Api.get_incident_patterns (Ok summaries)) = List.length summaries
   /\ NoDup (map Api.pattern (Api.get_incident_patterns (Ok summaries)))
   /\ descending (map Api.count (Api.get_incident_patterns (Ok summaries)))
   /\ incl (map Api.pattern (Api.get_incident_patterns (Ok summaries))) pattern_names)
  /\ (forall s, In s summaries -> (forall x, s <> JStr x) ->
        Api.get_incident_patterns (Ok summaries) = []).
Proof.
  split.
  - intros Hs.
    destruct (count_patterns_returns summaries [] Hs) as [ps [E [C [N I]]]].
    specialize (N (NoDup_nil _)). specialize (I (incl_nil_l _)).
    assert (P := sorted_desc_perm ps).
    assert (Nk : NoDup (map fst (Api.sorted_desc ps))).
    { eapply Permutation_NoDup; [|exact N]. apply Permutation_map, Permutation_sym, P. }
    assert (Ik : incl (map fst (Api.sorted_desc ps)) pattern_names).
    { intros k Hk. apply I. eapply Permutation_in; [|exact Hk].
      apply Permutation_map, P. }
    assert (L : (List.length (map pattern_of_pair (Api.sorted_desc ps)) <= 5)%nat).
    { rewrite length_map, <- (length_map fst).
      apply (NoDup_incl_length Nk Ik). }
    unfold Api.get_incident_patterns. cbn [rbind]. rewrite E.
    fold pattern_of_pair. rewrite (firstn_all2 _ L), !map_map. cbn [pattern_of_pair Api.pattern Api.count].
    fold (map fst (Api.sorted_desc ps)). fold (map snd (Api.sorted_desc ps)).
    split; [|split; [exact Nk|split; [apply sorted_desc_descending|exact Ik]]].
    rewrite tickets_counted_pairs, (pairs_counted_perm _ _ P), C. reflexivity.
  - intros s Hin Hs. unfold Api.get_incident_patterns. cbn [rbind].
    destruct (count_patterns_raises summaries [] s Hin Hs) as [e E]. now rewrite E.
Qed.

Lemma incident_patterns_account_for_tickets_witness :
  Api.get_incident_patterns
    (Ok [JStr "Disk full on h1"; JStr "Memory leak on h2"; JStr "disk latency on h3"])
  = [ {| Api.pattern := "Disk Space Critical"; Api.count := 2; Api.trend := "+5%" |};
      {| Api.pattern := "Memory Leak (Java)"; Api.count := 1; Api.trend := "+5%" |} ]
  /\ tickets_counted
       (Api.get_incident_patterns
          (Ok [JStr "Disk full on h1"; JStr "Memory leak on h2"; JStr "disk latency on h3"]))
     = 3%nat.
Proof.
  split; [reflexivity|].
  destruct (incident_patterns_account_for_tickets
              [JStr "Disk full on h1"; JStr "Memory leak on h2"; JStr "disk latency on h3"])
    as [Hall _].
  destruct Hall as [Hcount _]; [|exact Hcount].
  repeat constructor; eexists; reflexivity.
Defined.

(* ================================================================= *)
(** ** A ticket that is created and then rejected *)

Section Rejected.
Variable py : pylib.
Variable env : environment.
Variable self : AITTAgent.

(** X21: when the answer of the ticketing backend has a [ticket_id] that is
    no string, a number for instance, the ticket exists at the backend and
    the step has recorded it as created when the validation of the
    response model fails: the step then records the failure as well and
    raises HTTPException 500. *)
Theorem ticket_id_that_is_no_string alert analysis h d v :
  analysis_valid analysis ->
  jira_answers py env h d ->
  lookup d "ticket_id" = Some v ->
  (forall s, v <> JStr s) ->
  exists args ts1 ts2 msg,
    _create_jira_ticket py env self alert analysis h
    = (Raise (HTTPException 500 ("Failed to create ticket: " ++ msg)),
       (h ++ [ EvToolCall "jira" "create_ticket" args;
               EvActivity ts1 (alert_id alert) "Ticket Created"
                 (to_str py v ++ " assigned to "
                  ++ to_str py (get_or analysis "assigned_to" (JStr "DevOps"))) "complete";
               EvActivity ts2 (alert_id alert) "Ticket Creation"
                 ("Failed: " ++ msg) "error" ])%list).
Proof.
  intros Hv Hj Hid Hns.
  destruct Hv as [p [s [t [Hp [Hs Ht]]]]].
  unfold _create_jira_ticket.
  match goal with |- context [try_except ?b ?k] => set (body := b); set (handler := k) end.
  assert (Hbody : exists args ts1,
            body h = (Raise (ValidationError "ticket_id: Input should be a valid string"),
                      (h ++ [ EvToolCall "jira" "create_ticket" args;
                              EvActivity ts1 (alert_id alert) "Ticket Created"
                                (to_str py v ++ " assigned to "
                                 ++ to_str py (get_or analysis "assigned_to" (JStr "DevOps")))
                                "complete" ])%list)).
  { subst body.
    rewrite bind_lift, (getitem_of_lookup _ _ _ Hs).
    rewrite bind_lift, (getitem_of_lookup _ _ _ Ht).
    rewrite bind_lift, (getitem_of_lookup _ _ _ Hp).
    cbv zeta.
    match goal with |- context [call_tool env "jira" "create_ticket" ?args] =>
      destruct (Hj args) as [resp [text [Hr [Hx [Hne Hl]]]]];
      pose proof (call_tool_received env "jira" "create_ticket"
                    args h resp eq_refl Hr) as Hc;
      rewrite Hx in Hc; rewrite (bind_ok _ _ _ _ _ Hc);
      exists args
    end.
    rewrite bind_lift.
    unfold _parse_tool_response. cbn [truthy].
    apply String.eqb_neq in Hne. rewrite Hne. cbn [negb]. rewrite Hl.
    rewrite bind_lift. cbn [as_dict]. rewrite bind_history, bind_log_activity.
    unfold bind, history, lift.
    assert (Hg : forall dflt, get_or d "ticket_id" dflt = v).
    { intros dflt. unfold get_or. now rewrite Hid. }
    rewrite !Hg. eexists.
    destruct v as [| | |x|l|o]; cbn [field_str rbind];
      try (rewrite <- app_assoc; reflexivity).
    exfalso. now apply (Hns x). }
  destruct Hbody as [args [ts1 E]].
  exists args, ts1. unfold try_except. rewrite E. subst handler. cbv beta.
  rewrite bind_log_activity. unfold raise. cbn [exn_str].
  eexists. eexists. rewrite <- app_assoc. cbn [app]. reflexivity.
Qed.

End Rejected.

(** The backend answers with a ticket whose id is the number 4711. *)
Lemma ticket_id_that_is_no_string_witness :
  exists e h',
    _create_jira_ticket ticket_py (env_jira_only numbered_ticket_text) rules_agent alert_A
      (fallback_analysis alert_A) []
    = (Raise e, h')
    /\ Exists (ticket_created_entry "a-1") h'.
Proof.
  destruct (ticket_id_that_is_no_string ticket_py (env_jira_only numbered_ticket_text)
              rules_agent alert_A (fallback_analysis alert_A) []
              [("ticket_id", JNum 4711)] (JNum 4711))
    as [args [ts1 [ts2 [msg E]]]].
  - apply fallback_valid.
  - intros args. eexists. exists numbered_ticket_text.
    split; [reflexivity|]. split; [reflexivity|]. split; [discriminate|reflexivity].
  - reflexivity.
  - intros s. discriminate.
  - eexists. eexists. split; [exact E|].
    cbn [app]. apply Exists_cons_tl. apply Exists_cons_hd.
    unfold ticket_created_entry. eauto.
Defined.

(* ================================================================= *)
(** ** The endpoints that run the agent *)

Section Endpoints.
Variable py : pylib.
Variable env : environment.
Variable settings : Api.Settings.

Lemma scan_returns_a_report agent time_range h :
  exists rep h',
    scan_and_create_alerts py env agent time_range h = (Ok rep, h')
    /\ report_time_range rep = time_range.
Proof.
  assert (Ht : total (scan_and_create_alerts py env agent time_range)).
  { unfold scan_and_create_alerts. apply total_try. intros e. apply total_ret. }
  assert (Hq : returns (fun rep => report_time_range rep = time_range)
                 (scan_and_create_alerts py env agent time_range)).
  { unfold scan_and_create_alerts.
    apply returns_try; [|intros e; now apply returns_ret].
    do 3 (apply returns_bind; intros ?). cbv zeta.
    do 5 (apply returns_bind; intros ?). now apply returns_ret. }
  destruct (Ht h) as [rep [h' E]]. exists rep, h'. split; [exact E|]. eapply Hq; eauto.
Qed.

Lemma verify_api_key_cases key :
  (Api.verify_api_key settings key = Ok key
   /\ (Api.API_KEY settings = EmptyString \/ key = Some (Api.API_KEY settings)))
  \/ (Api.verify_api_key settings key = Raise (HTTPException 403 "Invalid API key")
      /\ Api.API_KEY settings <> EmptyString /\ key <> Some (Api.API_KEY settings)).
Proof.
  unfold Api.verify_api_key.
  destruct (String.eqb_spec (Api.API_KEY settings) EmptyString) as [E|E]; cbn [negb andb].
  - left. auto.
  - destruct key as [k|].
    + destruct (String.eqb_spec k (Api.API_KEY settings)) as [Ek|Ek]; cbn [negb].
      * left. subst k. auto.
      * right. repeat split; auto. congruence.
    + right. repeat split; auto. discriminate.
Qed.

(** X22: the scan endpoint never answers with a failed report.  The scan of
    the agent always returns a report; a completed one is the answer as it
    is, and a failed one becomes an HTTPException 500 that the handler
    raises inside its own [try], so that its [except] catches it and the
    detail the client gets is the text of that first exception after the
    words Scan and alert failed. *)
Theorem scan_endpoint_never_answers_failed key time_range h :
  Api.verify_api_key settings key = Ok key ->
  exists rep h',
    scan_and_create_alerts py env (new_agent (Api.agent_config settings)) time_range h
    = (Ok rep, h')
    /\ match rep with
       | ScanCompleted _ _ _ _ _ _ =>
           Api.scan_and_alert py env settings key time_range h = (Ok rep, h')
       | ScanFailed error _ =>
           Api.scan_and_alert py env settings key time_range h
           = (Raise (HTTPException 500
                       ("Scan and alert failed: " ++ exn_str (HTTPException 500 error))),
              h')
       end.
Proof.
  intros Hk.
  destruct (scan_returns_a_report (new_agent (Api.agent_config settings)) time_range h)
    as [rep [h' [E _]]].
  exists rep, h'. split; [exact E|].
  unfold Api.scan_and_alert. rewrite bind_lift, Hk. unfold try_except.
  rewrite (bind_ok _ _ _ _ _ E). destruct rep; reflexivity.
Qed.

(** X23: the key of a request is checked only when a key is configured:
    with an empty [API_KEY] every request passes, with or without the
    header.  A request that does not pass gets HTTPException 403 from both
    endpoints and nothing has been done for it; past the check, the only
    exception of the two endpoints is HTTPException 500. *)
Theorem api_key_gate key :
  (Api.verify_api_key settings key = Ok key
   <-> Api.API_KEY settings = EmptyString \/ key = Some (Api.API_KEY settings))
  /\ (Api.verify_api_key settings key <> Ok key ->
      forall alert time_range h,
        Api.process_alert py env settings key alert h
        = (Raise (HTTPException 403 "Invalid API key"), h)
        /\ Api.scan_and_alert py env settings key time_range h
           = (Raise (HTTPException 403 "Invalid API key"), h))
  /\ (Api.verify_api_key settings key = Ok key ->
      forall alert time_range h e h',
        Api.process_alert py env settings key alert h = (Raise e, h')
        \/ Api.scan_and_alert py env settings key time_range h = (Raise e, h') ->
        exists detail, e = HTTPException 500 detail).
Proof.
  split; [|split].
  - destruct (verify_api_key_cases key) as [[E C]|[E [C1 C2]]]; split; auto.
    + rewrite E. discriminate.
    + intros [C|C]; contradiction.
  - intros Hn alert time_range h.
    destruct (verify_api_key_cases key) as [[E C]|[E [C1 C2]]]; [contradiction|].
    unfold Api.process_alert, Api.scan_and_alert. rewrite !bind_lift, E. auto.
  - intros Hk alert time_range h e h' [H|H].
    + unfold Api.process_alert in H. rewrite bind_lift, Hk in H.
      apply try_inv in H. destruct H as [[a [_ Hr]]|[x [h1 [_ Hr]]]]; [discriminate|].
      unfold raise in Hr. inversion Hr. eauto.
    + unfold Api.scan_and_alert in H. rewrite bind_lift, Hk in H.
      apply try_inv in H. destruct H as [[a [_ Hr]]|[x [h1 [_ Hr]]]]; [discriminate|].
      unfold raise in Hr. inversion Hr. eauto.
Qed.

End Endpoints.

(** The logs backend is down: the scan fails and the endpoint answers 500. *)
Lemma scan_endpoint_never_answers_failed_witness :
  exists detail h',
    Api.scan_and_alert example_py env_down open_settings None "1h" []
    = (Raise (HTTPException 500 ("Scan and alert failed: " ++ detail)), h').
Proof.
  destruct (scan_endpoint_never_answers_failed example_py env_down open_settings None
              "1h" [] eq_refl) as [rep [h' [E H]]].
  destruct rep as [? ? ? ? ? ?|error tr]; [vm_compute in E; discriminate|].
  eexists. exists h'. exact H.
Defined.

(** A request without the header when a key is configured. *)
Lemma api_key_gate_witness :
  Api.process_alert example_py env_down keyed_settings None alert_A []
  = (Raise (HTTPException 403 "Invalid API key"), []).
Proof.
  destruct (api_key_gate example_py env_down keyed_settings None) as [_ [H _]].
  apply (H ltac:(discriminate) alert_A "1h" []).
Defined.

(* ================================================================= *)
(** ** The activity entries of a run *)

Section Entries.
Variable py : pylib.
Variable env : environment.
Variable self : AITTAgent.

Lemma step_entries_after_receipt alert :
  emits (step_entry (alert_id alert))
    (logs <- _retrieve_logs py env self alert ;;
     cmdb_data <- _enrich_with_cmdb py env alert logs ;;
     analysis <- _analyze_incident py env self alert logs cmdb_data ;;
     ticket <- _create_jira_ticket py env self alert analysis ;;
     _create_servicenow_incident py env alert analysis ;;;
     _save_ticket_record env alert analysis ticket ;;;
     ret ticket).
Proof.
  unfold _retrieve_logs, _enrich_with_cmdb,
    enrich_failed, _analyze_incident, selected_analysis, _llm_analysis,
    _create_jira_ticket, _create_servicenow_incident, _save_ticket_record.
  emits_tac; cbn [step_entry]; auto.
Qed.

(** X24: the first thing a run leaves is the entry Alert Received, of
    status processing; every activity entry after it is for the same alert
    and has the status complete or error. *)
Theorem run_starts_with_the_receipt alert h :
  exists rest,
    snd (process_alert py env self alert h)
    = (h ++ EvActivity (now env h) (alert_id alert) "Alert Received"
              (severity alert ++ " alert on " ++ host alert ++ ": " ++ message alert)
              "processing" :: rest)%list
    /\ Forall (step_entry (alert_id alert)) rest.
Proof.
  unfold process_alert. rewrite bind_log_activity.
  destruct (step_entries_after_receipt alert
              (h ++ [EvActivity (now env h) (alert_id alert) "Alert Received"
                       (severity alert ++ " alert on " ++ host alert ++ ": "
                        ++ message alert) "processing"])%list) as [rest [E F]].
  exists rest. rewrite E, <- app_assoc. split; [reflexivity|exact F].
Qed.

Lemma emits_bind_lift {A B} (P : event -> Prop) (r : result A) (k : A -> M B) :
  (forall a, r = Ok a -> emits P (k a)) -> emits P (bind (lift r) k).
Proof.
  intros Hk h. rewrite bind_lift. destruct r as [a|e].
  - apply (Hk a eq_refl).
  - exists []. rewrite app_nil_r. split; [reflexivity|constructor].
Qed.

Lemma process_alert_entry_ids alert :
  emits (entry_for (alert_id alert)) (process_alert py env self alert).
Proof.
  unfold process_alert, _retrieve_logs, _enrich_with_cmdb,
    enrich_failed, _analyze_incident, selected_analysis, _llm_analysis,
    _create_jira_ticket, _create_servicenow_incident, _save_ticket_record.
  emits_tac; cbn [entry_for]; auto.
Qed.

Lemma scan_host_entries time_range r :
  emits scan_entry_id (scan_host py env self time_range r).
Proof.
  unfold scan_host.
  apply emits_bind; [apply emits_history|intros h].
  apply emits_bind_lift. intros a Ea.
  assert (Hid : prefix "auto-scan-" (af_alert_id a) = true).
  { unfold synthesize_alert in Ea. apply rbind_ok in Ea. destruct Ea as [m [_ Ea]].
    apply (f_equal (fun x => match x with
                             | Ok y => af_alert_id y
                             | Raise _ => EmptyString
                             end)) in Ea.
    cbn [af_alert_id] in Ea. rewrite <- Ea. apply prefix_app. }
  apply emits_try; [|intros e; apply emits_ret].
  apply emits_bind_lift. intros alert Hal.
  assert (Hal' : alert_id alert = af_alert_id a).
  { unfold validate_alert in Hal. apply rbind_ok in Hal. destruct Hal as [x [_ Hal]].
    apply (f_equal (fun x => match x with
                             | Ok y => alert_id y
                             | Raise _ => EmptyString
                             end)) in Hal.
    cbn [alert_id] in Hal. now rewrite <- Hal. }
  apply emits_bind; [|intros ticket; emits_tac].
  eapply emits_weaken; [|apply process_alert_entry_ids].
  intros e He. destruct e; cbn [entry_for scan_entry_id] in *; auto.
  rewrite He, Hal'. exact Hid.
Qed.

Lemma scan_hosts_entries_ids time_range rs :
  emits scan_entry_id (scan_hosts py env self time_range rs).
Proof.
  induction rs as [|r rs IH]; cbn [scan_hosts]; [apply emits_ret|].
  apply emits_bind; [apply scan_host_entries|intros a].
  apply emits_bind; [exact IH|intros others]. apply emits_ret.
Qed.

(** X25: every activity entry a scan leaves is for an alert whose id
    starts with auto-scan-: the scan logs nothing of its own, neither the
    search nor its failure, and the runs it starts log under the ids it has
    synthesized. *)
Theorem scan_logs_under_synthesized_ids time_range h :
  exists new,
    snd (scan_and_create_alerts py env self time_range h) = (h ++ new)%list
    /\ Forall scan_entry_id new.
Proof.
  revert h. change (emits scan_entry_id (scan_and_create_alerts py env self time_range)).
  unfold scan_and_create_alerts.
  apply emits_try; [|intros e; apply emits_ret].
  apply emits_bind; [apply emits_call_tool; exact I|intros v].
  do 2 (apply emits_bind; [apply emits_lift|intros ?]). cbv zeta.
  apply emits_bind; [apply emits_lift|intros ?].
  apply emits_bind; [apply emits_history|intros ?].
  apply emits_bind; [apply emits_lift|intros ?].
  apply emits_bind; [apply scan_hosts_entries_ids|intros ?].
  emits_tac.
Qed.

End Entries.

(* ================================================================= *)
(** ** The requests to the provider *)

Section AtMost.
Context {A B : Type}.

Lemma llm_requests_app (a b : trace) :
  llm_requests (a ++ b)%list = (llm_requests a + llm_requests b)%nat.
Proof. unfold llm_requests. now rewrite filter_app, length_app. Qed.

Lemma at_most_silent (m : M A) : emits (fun e => is_llm e = false) m -> at_most 0 m.
Proof.
  intros He h. destruct (He h) as [new [E F]]. exists new. split; [exact E|].
  clear E. unfold llm_requests. induction F as [|e l He' _ IH]; cbn [filter]; [auto|].
  rewrite He'. exact IH.
Qed.

Lemma at_most_weaken n n' (m : M A) : (n <= n')%nat -> at_most n m -> at_most n' m.
Proof.
  intros Hle Hm h. destruct (Hm h) as [new [E L]]. exists new. split; [exact E|lia].
Qed.

Lemma at_most_bind a b (m : M A) (k : A -> M B) :
  at_most a m -> (forall x, at_most b (k x)) -> at_most (a + b) (bind m k).
Proof.
  intros Hm Hk h. destruct (Hm h) as [n1 [E1 L1]]. unfold bind.
  destruct (m h) as [[x|e] h1]; cbn [snd] in E1; subst h1.
  - destruct (Hk x (h ++ n1)%list) as [n2 [E2 L2]].
    exists (n1 ++ n2)%list. rewrite E2, app_assoc, llm_requests_app. split; [reflexivity|lia].
  - exists n1. split; [reflexivity|lia].
Qed.

Lemma at_most_try a b (m : M A) (k : exn -> M A) :
  at_most a m -> (forall e, at_most b (k e)) -> at_most (a + b) (try_except m k).
Proof.
  intros Hm Hk h. destruct (Hm h) as [n1 [E1 L1]]. unfold try_except.
  destruct (m h) as [[x|e] h1]; cbn [snd] in E1; subst h1.
  - exists n1. split; [reflexivity|lia].
  - destruct (Hk e (h ++ n1)%list) as [n2 [E2 L2]].
    exists (n1 ++ n2)%list. rewrite E2, app_assoc, llm_requests_app. split; [reflexivity|lia].
Qed.

End AtMost.

Ltac silent_tac := apply at_most_silent; emits_tac; reflexivity.

Section Provider.
Variable py : pylib.
Variable env : environment.

Lemma analyze_requests self alert logs cmdb :
  at_most (if llm_available self then 1 else 0)
    (_analyze_incident py env self alert logs cmdb).
Proof.
  unfold _analyze_incident, selected_analysis.
  destruct (llm_available self).
  - apply (at_most_try 1 0); [|intros e; silent_tac].
    apply (at_most_bind 1 0); [|intros a; silent_tac].
    unfold _llm_analysis.
    apply (at_most_bind 0 1); [silent_tac|intros prompt].
    apply (at_most_bind 0 1); [silent_tac|intros h0].
    apply (at_most_bind 1 0); [|intros u; silent_tac].
    intros h1. exists [EvLLM prompt]. split; [reflexivity|]. cbn. lia.
  - silent_tac.
Qed.

(** X26: a run sends one request to the provider at most, and none when
    the agent was set up without a provider: the provider named in the
    configuration is neither gemini nor claude, or its key is empty. *)
Theorem provider_is_asked_once_at_most c alert h :
  exists new,
    snd (process_alert py env (new_agent c) alert h) = (h ++ new)%list
    /\ (llm_requests new <= 1)%nat
    /\ ((LLM_PROVIDER c = "gemini" -> GEMINI_API_KEY c = EmptyString) ->
        (LLM_PROVIDER c = "claude" -> ANTHROPIC_API_KEY c = EmptyString) ->
        llm_requests new = 0%nat).
Proof.
  assert (Hrun : at_most (if _setup_llm c then 1 else 0)
                   (process_alert py env (new_agent c) alert)).
  { unfold process_alert.
    eapply at_most_weaken; [|
      eapply at_most_bind; [silent_tac|intros u];
      eapply at_most_bind; [unfold _retrieve_logs; silent_tac|intros logs];
      eapply at_most_bind;
        [unfold _enrich_with_cmdb, enrich_failed; silent_tac
        |intros cmdb];
      eapply at_most_bind; [apply (analyze_requests (new_agent c))|intros analysis];
      eapply at_most_bind; [unfold _create_jira_ticket; silent_tac|intros ticket];
      eapply at_most_bind; [unfold _create_servicenow_incident; silent_tac|intros u1];
      eapply at_most_bind; [unfold _save_ticket_record; silent_tac|intros u2];
      silent_tac ].
    cbn [new_agent llm_available]. lia. }
  destruct (Hrun h) as [new [E L]]. exists new. split; [exact E|]. split.
  - destruct (_setup_llm c); lia.
  - intros Hg Hc.
    assert (Hs : _setup_llm c = false).
    { unfold _setup_llm.
      destruct (String.eqb_spec (LLM_PROVIDER c) "gemini") as [Eg|Eg]; cbn [andb].
      + rewrite (Hg Eg). cbn.
        destruct (String.eqb_spec (LLM_PROVIDER c) "claude") as [Ec|Ec]; cbn [andb];
          [rewrite (Hc Ec)|]; reflexivity.
      + destruct (String.eqb_spec (LLM_PROVIDER c) "claude") as [Ec|Ec]; cbn [andb];
          [rewrite (Hc Ec)|]; reflexivity. }
    rewrite Hs in L. lia.
Qed.

End Provider.

(* ================================================================= *)
(** ** Enrichment that fails *)



Section CmdbDown.
Variable py : pylib.
Variable env : environment.
Variable self : AITTAgent.

Hypothesis cmdb_down :
  forall h args, call_fails (tool_reply env h "cmdb" "get_asset_info" args).


End CmdbDown.


